(** * EMG Bitalino Analyzer: a shallow embedding of [app_emg.py]

    The development follows the source file top to bottom: the helper
    functions ([bandpass_filter], [notch_filter], [convert_to_mv]), the
    pipeline [process_emg_file] and the part of the Streamlit script that
    unpacks and classifies its result.

    Modelling conventions.
    - Python integers are [Z]; [//] on integers is [Z.div] (both floor).
    - Floating-point values are rationals [Q].  Where numpy would produce
      [nan] or [inf] (mean of an empty array, division by zero of numpy
      scalars) the model stops with the fault [NonFinite].  Where the code
      takes an integer or a comparison with a threshold from a float (the
      number of baseline windows of line 111, the flags of lines 226-227),
      every operation that leads to it is rounded to binary64 as Python
      rounds it ([round64]); the signal values in between are kept exact.
    - Python exceptions are values of [exn]; a computation either yields a
      value or a fault ([res]).
    - Streamlit calls that show a message ([st.warning], [st.error],
      [st.markdown] ...) append a [diag] to a log; of the plotting only the
      axis limits the script computes are modelled.
    - SciPy, pandas and the JSON decoder are parameters of the pipeline
      (section variables); what the proofs need of their documented
      behaviour is stated as section hypotheses, next to its use.
    - A JSON number is an integer, as the sampling rate and the resolutions
      of an OpenSignals header are. *)

From Stdlib Require Import ZArith QArith Qround Qabs Qpower List String Ascii Bool Lia Lqa.
From Stdlib Require PrimFloat FloatOps SpecFloat.
Import ListNotations.

Local Open Scope Z_scope.

(** ** Results and exceptions *)

Inductive exn : Type :=
| ValueError | TypeError | IndexError | KeyError | AttributeError
| ZeroDivisionError | OverflowError | JSONDecodeError | ParserError.

(** A fault of the pipeline: a Python exception, or a value that left the
    rationals ([nan], [inf]). *)
Inductive fault : Type :=
| Raised (e : exn)
| NonFinite.

Inductive res (E A : Type) : Type :=
| Ok (a : A)
| Err (e : E).
Arguments Ok {E A} a.
Arguments Err {E A} e.

Definition bind {E A B} (m : res E A) (k : A -> res E B) : res E B :=
  match m with
  | Ok a => k a
  | Err e => Err e
  end.

Notation "x <- m ;; k" := (bind m (fun x => k))
  (at level 61, m at next level, right associativity).

Definition lift {A} (m : res exn A) : res fault A :=
  match m with
  | Ok a => Ok a
  | Err e => Err (Raised e)
  end.

Fixpoint mapM {E A B} (f : A -> res E B) (l : list A) : res E (list B) :=
  match l with
  | [] => Ok []
  | x :: l' => y <- f x ;; ys <- mapM f l' ;; Ok (y :: ys)
  end.

(** ** JSON values and the Python operations the header code applies to them *)

#[warnings="-register-all"] Inductive json : Type :=
| JNull
| JBool (b : bool)
| JInt (z : Z)
| JStr (s : string)
| JArr (l : list json)
| JObj (kvs : list (string * json)).

(** [d.get(key, default)] on the entries of a dict. *)
Fixpoint dict_get (kvs : list (string * json)) (key : string) (default : json) : json :=
  match kvs with
  | [] => default
  | (k, v) :: kvs' => if String.eqb k key then v else dict_get kvs' key default
  end.

Definition is_str (s : string) (j : json) : bool :=
  match j with
  | JStr s' => String.eqb s' s
  | _ => false
  end.

Fixpoint find_index {A} (p : A -> bool) (l : list A) : option nat :=
  match l with
  | [] => None
  | x :: l' => if p x then Some O else option_map S (find_index p l')
  end.

(** [s in c] for a string [s]: membership in a list, substring of a string,
    key of a dict; other values are not containers. *)
Definition py_in (s : string) (c : json) : res exn bool :=
  match c with
  | JArr l => Ok (existsb (is_str s) l)
  | JStr t => Ok (match String.index 0 s t with Some _ => true | None => false end)
  | JObj kvs => Ok (existsb (fun kv => String.eqb (fst kv) s) kvs)
  | _ => Err TypeError
  end.

(** [c.index(s)]: lists and strings have the method, a dict has not. *)
Definition py_index (c : json) (s : string) : res exn Z :=
  match c with
  | JArr l => match find_index (is_str s) l with
              | Some i => Ok (Z.of_nat i)
              | None => Err ValueError
              end
  | JStr t => match String.index 0 s t with
              | Some i => Ok (Z.of_nat i)
              | None => Err ValueError
              end
  | _ => Err AttributeError
  end.

Definition py_len (c : json) : res exn Z :=
  match c with
  | JArr l => Ok (Z.of_nat (List.length l))
  | JStr t => Ok (Z.of_nat (String.length t))
  | JObj kvs => Ok (Z.of_nat (List.length kvs))
  | _ => Err TypeError
  end.

(** [c[i]] for an index [i >= 0]; the keys of a decoded JSON object are
    strings, so an integer is never one of them. *)
Definition py_getitem (c : json) (i : Z) : res exn json :=
  match c with
  | JArr l => match nth_error l (Z.to_nat i) with
              | Some v => Ok v
              | None => Err IndexError
              end
  | JStr t => match String.get (Z.to_nat i) t with
              | Some ch => Ok (JStr (String ch EmptyString))
              | None => Err IndexError
              end
  | JObj _ => Err KeyError
  | _ => Err TypeError
  end.

(** A value used as an integer ([fs // 4], [2**n_bits]): [bool] is a
    subclass of [int] in Python. *)
Definition as_int (j : json) : res exn Z :=
  match j with
  | JInt z => Ok z
  | JBool b => Ok (if b then 1 else 0)
  | _ => Err TypeError
  end.

(** ** Strings *)

Definition is_space (c : ascii) : bool :=
  let n := nat_of_ascii c in
  (((9 <=? n) && (n <=? 13)) || ((28 <=? n) && (n <=? 32)))%nat.

Fixpoint lstrip (s : string) : string :=
  match s with
  | EmptyString => EmptyString
  | String c s' => if is_space c then lstrip s' else s
  end.

Fixpoint rev_string (s acc : string) : string :=
  match s with
  | EmptyString => acc
  | String c s' => rev_string s' (String c acc)
  end.

Definition strip (s : string) : string :=
  rev_string (lstrip (rev_string (lstrip s) EmptyString)) EmptyString.

(** [s.startswith('#')] and [s[1:]]. *)
Definition startswith_hash (s : string) : bool :=
  match s with
  | String "#"%char _ => true
  | _ => false
  end.

Definition drop_first (s : string) : string :=
  match s with
  | EmptyString => EmptyString
  | String _ s' => s'
  end.

(** ** Messages shown by the program *)

Inductive verdict : Type := Both | MnfOnly | RmsOnly | Neither.

Inductive diag : Type :=
| WarnResolutionMissing      (* line 58 *)
| ErrChannelMissing          (* line 60 *)
| WarnHeaderMissing          (* line 63 *)
| ErrJsonDecode              (* line 66 *)
| ErrHeaderOther (e : exn)   (* line 68 *)
| WarnBaseline               (* line 114 *)
| ErrProcessFailed           (* line 142 *)
| Success                    (* line 144 *)
| ShowChange (rms_change mnf_change : Q)      (* lines 218-219 *)
| StatusPercent (v : verdict)                 (* lines 229-236 *)
| ShowSlopes (slope_rms p_rms slope_mnf p_mnf : Q) (* lines 242-243 *)
| StatusTrend (v : verdict)                   (* lines 250-257 *)
| WarnTrend                                   (* line 259 *)
| InfoNote                                    (* line 262 *)
| InfoUpload.                                 (* line 265 *)

(** ** Header extraction (lines 36-68) *)

Record header_vars : Type := mk_vars {
  fs : json;
  resolution_bits : json;
  emg_column_index : Z
}.

Definition default_vars : header_vars :=
  {| fs := JInt 1000; resolution_bits := JInt 10; emg_column_index := 5 |}.

(** How control leaves the [try] block. *)
Inductive try_exit : Type :=
| FellThrough
| ReturnedNone          (* the [return] of line 61 *)
| Excepted (e : exn).

(** Line 43: [len(lines) > 1 and lines[1].startswith('#')]. *)
Definition has_header (lines : list string) : bool :=
  match nth_error lines 1 with
  | Some line1 => startswith_hash line1
  | None => false
  end.

Section Header.

(** [json.loads]; [None] is [json.JSONDecodeError]. *)
Variable json_loads : string -> option json.

(** Lines 46-60, on a decoded header.  The variables assigned before an
    exception keep their new value. *)
Definition read_header (header_json : json) (v : header_vars)
  : header_vars * list diag * try_exit :=
  match header_json with
  | JObj [] => (v, [], Excepted IndexError)
  | JObj ((device_id, info) :: _) =>
      match info with
      | JObj entries =>
          let v1 := {| fs := dict_get entries "sampling rate" (fs v);
                       resolution_bits := resolution_bits v;
                       emg_column_index := emg_column_index v |} in
          let columns := dict_get entries "column" (JArr []) in
          match py_in "A1" columns with
          | Err e => (v1, [], Excepted e)
          | Ok false => (v1, [ErrChannelMissing], ReturnedNone)
          | Ok true =>
              match py_index columns "A1" with
              | Err e => (v1, [], Excepted e)
              | Ok idx =>
                  let v2 := {| fs := fs v1;
                               resolution_bits := resolution_bits v1;
                               emg_column_index := idx |} in
                  let resolution := dict_get entries "resolution" (JArr []) in
                  match py_len resolution with
                  | Err e => (v2, [], Excepted e)
                  | Ok n =>
                      if idx <? n then
                        match py_getitem resolution idx with
                        | Err e => (v2, [], Excepted e)
                        | Ok bits =>
                            ({| fs := fs v2;
                                resolution_bits := bits;
                                emg_column_index := idx |}, [], FellThrough)
                        end
                      else (v2, [WarnResolutionMissing], FellThrough)
                  end
              end
          end
      | _ => (v, [], Excepted AttributeError)
      end
  | _ => (v, [], Excepted AttributeError)
  end.

(** The body of the [try] (lines 42-63). *)
Definition try_header (lines : list string) (v : header_vars)
  : header_vars * list diag * try_exit :=
  if has_header lines then
    match json_loads (strip (drop_first (nth 1 lines EmptyString))) with
    | None => (v, [], Excepted JSONDecodeError)
    | Some header_json => read_header header_json v
    end
  else (v, [WarnHeaderMissing], FellThrough).

(** Lines 36-68: [None] when the function returns at line 61, else the
    variables the rest of the function goes on with. *)
Definition extract_header (lines : list string) : list diag * option header_vars :=
  match try_header lines default_vars with
  | (v, log, FellThrough) => (log, Some v)
  | (_, log, ReturnedNone) => (log, None)
  | (v, log, Excepted JSONDecodeError) => (log ++ [ErrJsonDecode], Some v)
  | (v, log, Excepted e) => (log ++ [ErrHeaderOther e], Some v)
  end.

End Header.

(** ** Numbers, sequences and slices *)

Definition Qltb (x y : Q) : bool := negb (Qle_bool y x).

(** [a / b] on Python numbers. *)
Definition py_div (a b : Q) : res exn Q :=
  if Qeq_bool b 0 then Err ZeroDivisionError else Ok (a / b)%Q.

(** [a / b] on numpy values: a zero divisor gives [inf] or [nan]. *)
Definition np_div (a b : Q) : res fault Q :=
  if Qeq_bool b 0 then Err NonFinite else Ok (a / b)%Q.

(** *** Rounding to binary64

    A Python float is an IEEE 754 binary64 number, and every operation on
    floats returns the binary64 nearest to the exact result, ties going to
    the even significand.  [round64] is that rounding on the rationals, for
    the normal range of binary64 (no overflow to [inf], no subnormal
    results): a positive [n / d] in lowest terms is scaled by a power of two
    to a significand of 53 bits, [2^52 <= n / d * 2^(-e) < 2^53], the
    significand is rounded to an integer and scaled back. *)

(** Numerator and denominator of [n / d * 2^(-e)]. *)
Definition scaled (n d : positive) (e : Z) : Z * Z :=
  if e <? 0 then (Zpos n * 2 ^ (- e), Zpos d) else (Zpos n, Zpos d * 2 ^ e).

(** The integer nearest to [num / den], the even one of two at the same
    distance. *)
Definition nearest_even (num den : Z) : Z :=
  let m := num / den in
  let r := num mod den in
  if 2 * r <? den then m
  else if den <? 2 * r then m + 1
  else if Z.even m then m else m + 1.

(** The exponent [e] of the last bit of the significand of [n / d]. *)
Definition exponent (n d : positive) : Z :=
  let e0 := Z.log2 (Zpos n) - Z.log2 (Zpos d) - 52 in
  if fst (scaled n d e0) / snd (scaled n d e0) <? 2 ^ 52 then e0 - 1 else e0.

Definition pow2 (e : Z) : Q :=
  if e <? 0 then 1 # Z.to_pos (2 ^ (- e)) else inject_Z (2 ^ e).

Definition round_pos (n d : positive) : Q :=
  let e := exponent n d in
  (inject_Z (nearest_even (fst (scaled n d e)) (snd (scaled n d e))) * pow2 e)%Q.

Definition round64 (x : Q) : Q :=
  match Qred x with
  | Qmake 0 _ => 0%Q
  | Qmake (Zpos n) d => round_pos n d
  | Qmake (Zneg n) d => (- round_pos n d)%Q
  end.

(** [a / b] on Python floats and on Python integers, with its rounding. *)
Definition float_div (a b : Q) : res exn Q :=
  if Qeq_bool b 0 then Err ZeroDivisionError else Ok (round64 (a / b)).

(** [a - b], [a / b] and [a * b] on numpy float64 values, with their
    rounding. *)
Definition np_float_sub (a b : Q) : Q := round64 (a - b).

Definition np_float_div (a b : Q) : res fault Q :=
  if Qeq_bool b 0 then Err NonFinite else Ok (round64 (a / b)).

Definition np_float_mul (a b : Q) : Q := round64 (a * b).

(** [int(x)] truncates towards zero. *)
Definition py_int (x : Q) : Z := Z.quot (Qnum x) (Zpos (Qden x)).

(** [int(x)] of a float.  A result of magnitude [2^1024] or more does not
    fit binary64: the operation that produced it returned [inf], and [int]
    raises [OverflowError] on it. *)
Definition py_int_of_float (x : Q) : res exn Z :=
  if Qle_bool (inject_Z (2 ^ 1024)) (Qabs x) then Err OverflowError else Ok (py_int x).

Definition len {A} (l : list A) : Z := Z.of_nat (List.length l).

Definition np_sum (l : list Q) : Q := fold_right Qplus 0%Q l.

(** [np.mean]: [nan] on an empty array. *)
Definition np_mean (l : list Q) : res fault Q :=
  match l with
  | [] => Err NonFinite
  | _ => Ok (np_sum l / inject_Z (len l))%Q
  end.

(** Elementwise product of two arrays of one shape. *)
Fixpoint np_mul (xs ys : list Q) : list Q :=
  match xs, ys with
  | x :: xs', y :: ys' => (x * y)%Q :: np_mul xs' ys'
  | _, _ => []
  end.

(** An index of a slice: negative ones count from the end, all are clamped. *)
Definition clamp_index (n k : Z) : Z :=
  Z.max 0 (Z.min n (if k <? 0 then n + k else k)).

(** [l[i:j]]. *)
Definition slice {A} (l : list A) (i j : Z) : list A :=
  let a := clamp_index (len l) i in
  let b := clamp_index (len l) j in
  firstn (Z.to_nat (b - a)) (skipn (Z.to_nat a) l).

(** [l[k]] and [series.iloc[k]]. *)
Definition item {A} (l : list A) (k : Z) : res exn A :=
  let k' := if k <? 0 then len l + k else k in
  if k' <? 0 then Err IndexError
  else match nth_error l (Z.to_nat k') with
       | Some x => Ok x
       | None => Err IndexError
       end.

(** [range(start, stop, step)], produced the way the iterator runs. *)
Fixpoint range_up (fuel : nat) (i stop step : Z) : list Z :=
  match fuel with
  | O => []
  | S fuel' => if i <? stop then i :: range_up fuel' (i + step) stop step else []
  end.

Fixpoint range_down (fuel : nat) (i stop step : Z) : list Z :=
  match fuel with
  | O => []
  | S fuel' => if stop <? i then i :: range_down fuel' (i + step) stop step else []
  end.

Definition py_range (start stop step : Z) : res exn (list Z) :=
  if step =? 0 then Err ValueError
  else if 0 <? step then Ok (range_up (Z.to_nat (stop - start)) start stop step)
  else Ok (range_down (Z.to_nat (start - stop)) start stop step).

(** The padding [filtfilt] applies by default on each side of the signal,
    for coefficients [(b, a)]: [3 * max(len(a), len(b))] samples. *)
Definition padlen (b a : list Q) : Z := 3 * Z.max (len a) (len b).

(** ** Calibration (lines 25-28) *)

Definition default_vcc : Q := 33 # 10.
Definition default_gain : Q := 1000.

(** One element of [convert_to_mv(raw, n_bits, vcc, gain)]; [raw] is a numpy
    series, so the last division is numpy's. *)
Definition convert_to_mv (raw : Z) (n_bits : Z) (vcc gain : Q) : res fault Q :=
  np_div (((inject_Z raw / (2 ^ n_bits)) - (1 # 2)) * vcc * 1000)%Q gain.

(** ** Verdicts (lines 229-236 and 250-257) *)

Definition combined (is_fatigue_mnf is_fatigue_rms : bool) : verdict :=
  if is_fatigue_mnf && is_fatigue_rms then Both
  else if is_fatigue_mnf then MnfOnly
  else if is_fatigue_rms then RmsOnly
  else Neither.

(** ** The pipeline *)

Inductive btype : Type := Band | Bandstop.

Record dataframe : Type := mk_df {
  emg_raw : list Z;
  time : list Q;
  emg_mv : list Q;
  emg_processed : list Q;
  emg_rectified : list Q
}.

(** The ten values of the [return] of line 127. *)
Record analysis : Type := mk_analysis {
  df : dataframe;
  t_vals : list Q;
  rms_vals : list Q;
  mnf_vals : list Q;
  rms_baseline : Q;
  mnf_baseline : Q;
  slope_rms : option Q;
  p_value_rms : option Q;
  slope_mnf : option Q;
  p_value_mnf : option Q
}.

(** What [process_emg_file] returns: the tuple of nine [None] of line 61, or
    the tuple of ten values of line 127. *)
Inductive retval : Type :=
| NoneTuple
| Computed (a : analysis).

Definition tuple_length (r : retval) : nat :=
  match r with
  | NoneTuple => 9
  | Computed _ => 10
  end.

(** Assigning a column to a data frame of [n] rows: pandas refuses values
    of another length. *)
Definition assign_column (n : Z) (values : list Q) : res exn (list Q) :=
  if len values =? n then Ok values else Err ValueError.

Section Pipeline.

(** The libraries the source calls. *)
Variable json_loads : string -> option json.
(** Lines 81-82: the column [emg_raw] of the data frame read by
    [pd.read_csv] from the lines of the file, given the EMG column index. *)
Variable read_csv : list string -> Z -> res exn (list Z).
(** [butter(order, [low, high], btype)] gives the coefficients [(b, a)]. *)
Variable butter : nat -> Q -> Q -> btype -> res exn (list Q * list Q).
(** [filtfilt(b, a, signal)]. *)
Variable filtfilt : list Q -> list Q -> list Q -> res exn (list Q).
(** [welch(segment, fs=fs, nperseg=n)] gives [(f, Pxx)]. *)
Variable welch : list Q -> Z -> Z -> list Q * list Q.
(** [linregress(x, y)]: the slope and the p-value of its result. *)
Variable linregress : list Q -> list Q -> Q * Q.
Variable np_sqrt : Q -> Q.

(** Lines 11-15. *)
Definition bandpass_filter (signal : list Q) (lowcut highcut : Q) (fs : Z) (order : nat)
  : res exn (list Q) :=
  let nyq := (inject_Z fs / 2)%Q in
  low <- py_div lowcut nyq ;;
  high <- py_div highcut nyq ;;
  ba <- butter order low high Band ;;
  filtfilt (fst ba) (snd ba) signal.

(** Lines 17-23. *)
Definition notch_filter (signal : list Q) (notch_freq : Q) (fs : Z) (order : nat)
  : res exn (list Q) :=
  let nyq := (inject_Z fs / 2)%Q in
  low <- py_div (notch_freq - 1)%Q nyq ;;
  high <- py_div (notch_freq + 1)%Q nyq ;;
  ba <- butter order low high Bandstop ;;
  filtfilt (fst ba) (snd ba) signal.

(** Line 88.  On an empty series the mean is [nan] and there is nothing
    to subtract it from. *)
Definition remove_dc (xs : list Q) : res fault (list Q) :=
  match xs with
  | [] => Ok []
  | _ => m <- np_mean xs ;; Ok (map (fun x => x - m)%Q xs)
  end.

(** Lines 86-91: calibration, DC removal, notch, bandpass, rectification.
    The result is [(emg_mv, emg_processed, emg_rectified)]. *)
Definition condition (raw : list Z) (n_bits fs : Z)
  : res fault (list Q * list Q * list Q) :=
  emg_mv <- mapM (fun r => convert_to_mv r n_bits default_vcc default_gain) raw ;;
  centred <- remove_dc emg_mv ;;
  notched <- lift (y <- notch_filter centred 50 fs 2 ;; assign_column (len raw) y) ;;
  passed <- lift (y <- bandpass_filter notched 20 450 fs 5 ;; assign_column (len raw) y) ;;
  Ok (emg_mv, passed, map Qabs passed).

(** Line 100. *)
Definition rms_of (segment : list Q) : res fault Q :=
  m <- np_mean (map (fun x => x ^ 2)%Q segment) ;;
  Ok (np_sqrt m).

(** Lines 102-103. *)
Definition mnf_of (segment : list Q) (fs win_size : Z) : res fault Q :=
  let fP := welch segment fs (Z.min 128 win_size) in
  let f := fst fP in
  let Pxx := snd fP in
  if Qltb 0 (np_sum Pxx) then np_div (np_sum (np_mul f Pxx)) (np_sum Pxx) else Ok 0%Q.

(** The body of the loop (lines 97-103) for the window that starts at [i]:
    [(t, rms, mnf)]. *)
Definition window (rectified time : list Q) (fs win_size : Z) (i : Z)
  : res fault (Q * Q * Q) :=
  let segment := slice rectified i (i + win_size) in
  t <- lift (item time (i + win_size / 2)) ;;
  rms <- rms_of segment ;;
  mnf <- mnf_of segment fs win_size ;;
  Ok (t, rms, mnf).

(** Lines 94-107: the windows in the order of the loop. *)
Definition extract_features (rectified time : list Q) (fs : Z)
  : res fault (list (Q * Q * Q)) :=
  let win_size := fs / 4 in
  let step := fs / 8 in
  starts <- lift (py_range 0 (len rectified - win_size + 1) step) ;;
  mapM (window rectified time fs win_size) starts.

(** Line 111.  The count is taken from a float by [int], so the two
    divisions before it are rounded as Python rounds them; the duration
    enters the second one as a float. *)
Definition num_windows_for_baseline (baseline_duration_sec : Q) (fs : Z) (total : Z)
  : res exn Z :=
  let step := fs / 8 in
  per_window <- float_div (inject_Z step) (inject_Z fs) ;;
  q <- float_div (round64 baseline_duration_sec) per_window ;;
  n <- py_int_of_float q ;;
  Ok (Z.min n total).

(** Lines 110-117: the messages shown and [(rms_baseline, mnf_baseline)]. *)
Definition estimate_baseline (baseline_duration_sec : Q) (fs : Z)
  (rms_vals mnf_vals : list Q) : list diag * res fault (Q * Q) :=
  match num_windows_for_baseline baseline_duration_sec fs (len rms_vals) with
  | Err e => ([], Err (Raised e))
  | Ok num =>
      if num =? 0 then ([WarnBaseline], Ok (0%Q, 0%Q))
      else ([], rb <- np_mean (slice rms_vals 0 num) ;;
                mb <- np_mean (slice mnf_vals 0 num) ;;
                Ok (rb, mb))
  end.

(** Lines 120-124: [((slope_rms, p_value_rms), (slope_mnf, p_value_mnf))]. *)
Definition trend (t_vals rms_vals mnf_vals : list Q)
  : option (Q * Q) * option (Q * Q) :=
  if 1 <? len t_vals
  then (Some (linregress t_vals rms_vals), Some (linregress t_vals mnf_vals))
  else (None, None).

(** Lines 70-107 for the variables left by the header: the data frame, the
    windows and the sampling rate.  Line 70 uses [fs] as an integer, line 77
    divides [win_size] by it, line 83 builds the time axis [k / fs], line 86
    uses [resolution_bits] as an exponent. *)
Definition features_of_file (lines : list string) (v : header_vars)
  : res fault (dataframe * list (Q * Q * Q) * Z) :=
  fs <- lift (as_int (fs v)) ;;
  let win_size := fs / 4 in
  _ <- lift (py_div (inject_Z win_size) (inject_Z fs)) ;;
  raw <- lift (read_csv lines (emg_column_index v)) ;;
  time <- mapM (fun k => np_div (inject_Z (Z.of_nat k)) (inject_Z fs))
               (seq 0 (List.length raw)) ;;
  n_bits <- lift (as_int (resolution_bits v)) ;;
  sig <- condition raw n_bits fs ;;
  let rectified := snd sig in
  windows <- extract_features rectified time fs ;;
  Ok (mk_df raw time (fst (fst sig)) (snd (fst sig)) rectified, windows, fs).

(** Lines 31-127. *)
Definition process_emg_file (lines : list string) (baseline_duration_sec : Q)
  : list diag * res fault retval :=
  match extract_header json_loads lines with
  | (log, None) => (log, Ok NoneTuple)
  | (log, Some v) =>
      match features_of_file lines v with
      | Err e => (log, Err e)
      | Ok (d, windows, fs) =>
          let t_vals := map (fun w => fst (fst w)) windows in
          let rms_vals := map (fun w => snd (fst w)) windows in
          let mnf_vals := map (fun w => snd w) windows in
          match estimate_baseline baseline_duration_sec fs rms_vals mnf_vals with
          | (log', Err e) => (log ++ log', Err e)
          | (log', Ok (rms_baseline, mnf_baseline)) =>
              let tr := trend t_vals rms_vals mnf_vals in
              (log ++ log',
               Ok (Computed
                 (mk_analysis d t_vals rms_vals mnf_vals rms_baseline mnf_baseline
                    (option_map fst (fst tr)) (option_map snd (fst tr))
                    (option_map fst (snd tr)) (option_map snd (snd tr)))))
          end
      end
  end.

(** ** The script around the pipeline (lines 136-265) *)

(** One side of lines 215-216: the change in percent against a baseline.
    Lines 226-227 compare it with a threshold, so the subtraction, the
    division and the multiplication are rounded as numpy rounds them. *)
Definition change_percent (final baseline : Q) : res fault Q :=
  if negb (Qeq_bool baseline 0)
  then q <- np_float_div (np_float_sub final baseline) baseline ;;
       Ok (np_float_mul q 100)
  else Err NonFinite.

(** Lines 241-259. *)
Definition trend_report (a : analysis) (alpha : Q) : res fault (list diag) :=
  match slope_mnf a, slope_rms a with
  | Some s_mnf, Some s_rms =>
      match p_value_rms a, p_value_mnf a with
      | Some p_rms, Some p_mnf =>
          let is_fatigue_trend_mnf := Qltb s_mnf 0 && Qltb p_mnf alpha in
          let is_fatigue_trend_rms := Qltb s_rms 0 && Qltb p_rms alpha in
          Ok [ShowSlopes s_rms p_rms s_mnf p_mnf;
              StatusTrend (combined is_fatigue_trend_mnf is_fatigue_trend_rms)]
      | _, _ => Err (Raised TypeError)
      end
  | _, _ => Ok [WarnTrend]
  end.

(** The condition of line 211. *)
Definition guard (a : analysis) : bool :=
  (0 <? len (t_vals a)) && negb (Qeq_bool (rms_baseline a) 0)
  && negb (Qeq_bool (mnf_baseline a) 0).

(** Lines 211-262; the thresholds and [alpha] are the values of the sliders. *)
Definition fatigue_report (a : analysis) (threshold_mnf threshold_rms alpha : Q)
  : res fault (list diag) :=
  if guard a then
    final_rms <- lift (item (rms_vals a) (-1)) ;;
    final_mnf <- lift (item (mnf_vals a) (-1)) ;;
    rms_change_percent <- change_percent final_rms (rms_baseline a) ;;
    mnf_change_percent <- change_percent final_mnf (mnf_baseline a) ;;
    let is_fatigue_mnf := Qle_bool mnf_change_percent threshold_mnf in
    let is_fatigue_rms := Qle_bool rms_change_percent threshold_rms in
    trend_msgs <- trend_report a alpha ;;
    Ok ([ShowChange rms_change_percent mnf_change_percent;
         StatusPercent (combined is_fatigue_mnf is_fatigue_rms)]
        ++ trend_msgs ++ [InfoNote])
  else Ok [].

(** Lines 136-265: the messages shown for an upload.  The tuple returned by
    [process_emg_file] is unpacked into ten names (line 139). *)
Definition app (uploaded_file : option (list string))
  (threshold_mnf threshold_rms alpha : Q) : list diag * res fault unit :=
  match uploaded_file with
  | None => ([InfoUpload], Ok tt)
  | Some lines =>
      match process_emg_file lines 5 with
      | (log, Err e) => (log, Err e)
      | (log, Ok r) =>
          if negb (tuple_length r =? 10)%nat then (log, Err (Raised ValueError))
          else
            match r with
            | NoneTuple => (log ++ [ErrProcessFailed], Ok tt)
            | Computed a =>
                match fatigue_report a threshold_mnf threshold_rms alpha with
                | Err e => (log ++ [Success], Err e)
                | Ok msgs => (log ++ Success :: msgs, Ok tt)
                end
            end
      end
  end.

End Pipeline.

(** ** The worked examples in binary64

    The expressions of the worked examples (the calibration of a count, the
    change in percent, the number of baseline windows) are repeated here
    over the primitive IEEE 754 binary64 operations, to evaluate the
    examples as the program does and to compare [round64] with them. *)

Module Binary64.
Import PrimFloat.

(** The rational value of a finite float. *)
Definition float_value (x : float) : option Q :=
  match FloatOps.Prim2SF x with
  | SpecFloat.S754_zero _ => Some 0%Q
  | SpecFloat.S754_finite s m e =>
      let v := if e <? 0 then Zpos m # Z.to_pos (2 ^ (- e)) else inject_Z (Zpos m * 2 ^ e) in
      Some (if s then (- v)%Q else v)
  | _ => None
  end.

(** Line 28 on floats; [scale] is [2**n_bits]. *)
Definition convert_to_mv_binary64 (raw scale vcc gain : float) : float :=
  ((raw / scale - 0.5) * vcc * 1000 / gain)%float.

(** Lines 215-216 on floats, for a baseline that is not zero. *)
Definition change_percent_binary64 (final baseline : float) : float :=
  ((final - baseline) / baseline * 100)%float.

(** The quotient of line 111 on floats. *)
Definition baseline_quotient_binary64 (duration step fs : float) : float :=
  (duration / (step / fs))%float.

(** A small natural number as a float. *)
Definition float_of_nat (n : nat) : float :=
  Nat.iter n (fun x => (x + 1)%float) 0%float.

(** Whether, at the sampling rate [fs] and for the 5 s of the script, the
    quotient of line 111 on floats has the value the model computes. *)
Definition quotient_agrees (fs : nat) : bool :=
  match float_value (baseline_quotient_binary64 5 (float_of_nat (fs / 8)) (float_of_nat fs)) with
  | Some v =>
      Qeq_bool v
        (round64 (round64 5 / round64 (inject_Z (Z.of_nat fs / 8) / inject_Z (Z.of_nat fs))))
  | None => false
  end.

(** The literals [3.3], [0.85], [5.85], [2.727] and [3.03], as the nearest
    binary64. *)
Definition vcc_binary64 : float := 0x1.a666666666666p+1%float.
Definition final_rms_binary64 : float := 0x1.b333333333333p-1%float.
Definition duration_binary64 : float := 0x1.7666666666666p+2%float.
Definition final_near_threshold_binary64 : float := 0x1.5d0e560418937p+1%float.
Definition baseline_near_threshold_binary64 : float := 0x1.83d70a3d70a3dp+1%float.

End Binary64.

(** ** Sample recordings and stand-ins for the libraries

    Small executable stand-ins, used to run the pipeline on concrete
    recordings.  They keep the library behaviour the pipeline relies on:
    [butter] refuses critical frequencies outside [0 < Wn < 1], [filtfilt]
    refuses a signal no longer than its padding, [welch] returns
    non-negative frequencies and densities. *)

Definition dq : string := String (ascii_of_nat 34) EmptyString.

Definition quoted (s : string) : string := (dq ++ s ++ dq)%string.

Definition header_text (rate columns resolutions : string) : string :=
  ("{" ++ quoted "98:D3:31:B2:BB:7F" ++ ": {"
       ++ quoted "sampling rate" ++ ": " ++ rate ++ ", "
       ++ quoted "column" ++ ": [" ++ columns ++ "], "
       ++ quoted "resolution" ++ ": [" ++ resolutions ++ "]}}")%string.

Definition header_json (rate : Z) (columns : list string) (resolutions : list Z) : json :=
  JObj [("98:D3:31:B2:BB:7F"%string,
         JObj [("sampling rate"%string, JInt rate);
               ("column"%string, JArr (map JStr columns));
               ("resolution"%string, JArr (map JInt resolutions))])].

(** A header that declares no channel [A1]. *)
Definition text_without_a1 : string :=
  header_text "1000" (quoted "nSeq" ++ ", " ++ quoted "A2") "4, 10".
Definition json_without_a1 : json :=
  header_json 1000 ["nSeq"; "A2"]%string [4; 10].

(** A header that declares [A1] and a sampling rate of 500 Hz. *)
Definition text_500hz : string :=
  header_text "500" (quoted "nSeq" ++ ", " ++ quoted "A1") "4, 10".
Definition json_500hz : json :=
  header_json 500 ["nSeq"; "A1"]%string [4; 10].

Definition sample_loads (s : string) : option json :=
  if String.eqb s text_without_a1 then Some json_without_a1
  else if String.eqb s text_500hz then Some json_500hz
  else if String.eqb s "{}" then Some (JObj [])
  else None.

(** Fields of a row, separated by blanks. *)
Fixpoint fields (s : string) (cur : string) : list string :=
  match s with
  | EmptyString => match cur with EmptyString => [] | _ => [rev_string cur EmptyString] end
  | String c s' =>
      if is_space c
      then match cur with
           | EmptyString => fields s' EmptyString
           | _ => rev_string cur EmptyString :: fields s' EmptyString
           end
      else fields s' (String c cur)
  end.

Fixpoint decimal (s : string) (acc : Z) : option Z :=
  match s with
  | EmptyString => Some acc
  | String c s' =>
      let n := Z.of_nat (nat_of_ascii c) in
      if (48 <=? n) && (n <=? 57) then decimal s' (10 * acc + (n - 48)) else None
  end.

Definition sample_read_csv (lines : list string) (column : Z) : res exn (list Z) :=
  mapM (fun row => match nth_error (fields row EmptyString) (Z.to_nat column) with
                   | Some field => match decimal field 0 with
                                   | Some z => Ok z
                                   | None => Err ValueError
                                   end
                   | None => Err ParserError
                   end)
       (filter (fun l => negb (startswith_hash l)) lines).

Definition sample_butter (order : nat) (low high : Q) (kind : btype)
  : res exn (list Q * list Q) :=
  if Qltb 0 low && Qltb low high && Qltb high 1
  then Ok (repeat 1%Q (2 * order + 1), repeat 1%Q (2 * order + 1))
  else Err ValueError.

Definition sample_filtfilt (b a x : list Q) : res exn (list Q) :=
  if len x <=? padlen b a then Err ValueError else Ok x.

Definition sample_welch (segment : list Q) (fs nperseg : Z) : list Q * list Q :=
  (map (fun k => inject_Z (Z.of_nat k)) (seq 0 (List.length segment)),
   map (fun x => x * x)%Q segment).

Definition sample_linregress (x y : list Q) : Q * Q := (0%Q, 1%Q).

Definition sample_sqrt (x : Q) : Q := inject_Z (Z.sqrt (Qfloor x)).

(** A recording of [n] mid-scale samples with the six OpenSignals columns,
    after the two lines given as its head. *)
Definition recording (head : list string) (n : nat) : list string :=
  head ++ repeat "0 0 0 0 0 512"%string n.

Definition sample_process :=
  process_emg_file sample_loads sample_read_csv sample_butter sample_filtfilt
    sample_welch sample_linregress sample_sqrt.

Definition sample_app :=
  app sample_loads sample_read_csv sample_butter sample_filtfilt
    sample_welch sample_linregress sample_sqrt.

(** The analysis a run returned, when it returned one. *)
Definition computed (run : list diag * res fault retval) : option analysis :=
  match snd run with
  | Ok (Computed a) => Some a
  | _ => None
  end.

(** Forty samples without a header: enough for the filters, too few for a
    window at 1000 Hz. *)
Definition short_recording : list string :=
  recording ["0 0 0 0 0 512"; "0 0 0 0 0 512"]%string 38.

(** Three samples under a header that declares no channel [A1]. *)
Definition recording_without_a1 : list string :=
  recording ["# OpenSignals Text File Format"; "# " ++ text_without_a1]%string 3.

(** Forty samples under a header that declares 500 Hz. *)
Definition recording_500hz : list string :=
  recording ["# OpenSignals Text File Format"; "# " ++ text_500hz]%string 40.

(** A header that declares 500 Hz and no channel [A1], a decoder that knows
    it, and forty samples under it. *)
Definition text_500hz_without_a1 : string :=
  header_text "500" (quoted "nSeq" ++ ", " ++ quoted "A2") "4, 10".
Definition json_500hz_without_a1 : json :=
  header_json 500 ["nSeq"; "A2"]%string [4; 10].

Definition sample_loads_500hz (s : string) : option json :=
  if String.eqb s text_500hz_without_a1 then Some json_500hz_without_a1
  else sample_loads s.

Definition recording_500hz_without_a1 : list string :=
  recording ["# OpenSignals Text File Format"; "# " ++ text_500hz_without_a1]%string 40.

(** One window with [rms = 0.85] and [mnf = 95] against the baseline
    [(1.0, 100)]. *)
Definition one_window : analysis :=
  mk_analysis (mk_df [] [] [] [] []) [1 # 8] [round64 (85 # 100)] [95%Q] 1 100
    None None None None.

(** ** Session state and plot limits (lines 70-77, 186-188, 199-203) *)

(** The four entries [process_emg_file] stores in [st.session_state]. *)
Record session_state : Type := mk_session {
  state_fs : json;
  state_resolution_bits : json;
  state_emg_column_index : Z;
  state_win_size : Q
}.

(** Lines 70-77: the state stored once the header is read; [win_size] is
    kept in seconds. *)
Definition store_session (v : header_vars) : res exn session_state :=
  rate <- as_int (fs v) ;;
  let win_size := rate / 4 in
  seconds <- py_div (inject_Z win_size) (inject_Z rate) ;;
  Ok (mk_session (fs v) (resolution_bits v) (emg_column_index v) seconds).

(** [min] and [max] of a list: the first smallest and the first largest
    element; [ValueError] on an empty list. *)
Fixpoint min_from (m : Q) (l : list Q) : Q :=
  match l with
  | [] => m
  | y :: l' => min_from (if Qltb y m then y else m) l'
  end.

Fixpoint max_from (m : Q) (l : list Q) : Q :=
  match l with
  | [] => m
  | y :: l' => max_from (if Qltb m y then y else m) l'
  end.

Definition py_min (l : list Q) : res exn Q :=
  match l with
  | [] => Err ValueError
  | x :: l' => Ok (min_from x l')
  end.

Definition py_max (l : list Q) : res exn Q :=
  match l with
  | [] => Err ValueError
  | x :: l' => Ok (max_from x l')
  end.

(** Lines 186-188: the limits of the RMS axis, when they are set. *)
Definition rms_ylim (rms_vals : list Q) : res exn (option (Q * Q)) :=
  if 0 <? len rms_vals then
    rms_min <- py_min rms_vals ;;
    rms_max <- py_max rms_vals ;;
    Ok (Some (rms_min * (9 # 10), rms_max * (11 # 10))%Q)
  else Ok None.

(** Lines 199-203: the limits of the MNF axis, from the positive values. *)
Definition mnf_ylim (mnf_vals : list Q) : res exn (option (Q * Q)) :=
  if 0 <? len mnf_vals then
    let mnf_filtered := filter (fun x => Qltb 0 x) mnf_vals in
    match mnf_filtered with
    | [] => Ok None
    | _ =>
        mnf_min <- py_min mnf_filtered ;;
        mnf_max <- py_max mnf_filtered ;;
        let low := (mnf_min * (9 # 10))%Q in
        Ok (Some ((if Qltb 0 low then low else 0%Q), mnf_max * (11 # 10))%Q)
    end
  else Ok None.

(** ** More sample headers and stand-ins *)

(** A header whose resolution list is shorter than its column list. *)
Definition text_short_resolution : string :=
  header_text "1000" (quoted "nSeq" ++ ", " ++ quoted "A1") "4".
Definition json_short_resolution : json :=
  header_json 1000 ["nSeq"; "A1"]%string [4].

(** A header whose column entry is a number, with a rate of 2000 Hz. *)
Definition text_bad_column : string :=
  ("{" ++ quoted "98:D3:31:B2:BB:7F" ++ ": {"
       ++ quoted "sampling rate" ++ ": 2000, "
       ++ quoted "column" ++ ": 7}}")%string.
Definition json_bad_column : json :=
  JObj [("98:D3:31:B2:BB:7F"%string,
         JObj [("sampling rate"%string, JInt 2000);
               ("column"%string, JInt 7)])].

(** A header whose sampling rate is a string. *)
Definition text_rate_as_text : string :=
  header_text (quoted "1000") (quoted "nSeq" ++ ", " ++ quoted "A1") "4, 10".
Definition json_rate_as_text : json :=
  JObj [("98:D3:31:B2:BB:7F"%string,
         JObj [("sampling rate"%string, JStr "1000");
               ("column"%string, JArr [JStr "nSeq"; JStr "A1"]);
               ("resolution"%string, JArr [JInt 4; JInt 10])])].

Definition more_loads (s : string) : option json :=
  if String.eqb s text_short_resolution then Some json_short_resolution
  else if String.eqb s text_bad_column then Some json_bad_column
  else if String.eqb s text_rate_as_text then Some json_rate_as_text
  else sample_loads s.

Definition headed (text : string) (n : nat) : list string :=
  recording ["# OpenSignals Text File Format"; "# " ++ text]%string n.

(** Stand-ins that accept every sampling rate: a filter that flattens the
    signal, and a spectral estimate over the two frequencies 0 and 1. *)
Definition flat_butter (order : nat) (low high : Q) (kind : btype)
  : res exn (list Q * list Q) := Ok ([1%Q], [1%Q]).

Definition flat_filtfilt (b a x : list Q) : res exn (list Q) :=
  Ok (map (fun _ => 0%Q) x).

Definition two_bin_welch (segment : list Q) (fs nperseg : Z) : list Q * list Q :=
  ([0%Q; 1%Q], [np_sum (map (fun x => x * x)%Q segment); 1%Q]).






(** Three samples read at 8 Hz: two windows of two samples. *)
Definition vars_8hz : header_vars :=
  {| fs := JInt 8; resolution_bits := JInt 10; emg_column_index := 5 |}.

Definition tiny_features : res fault (dataframe * list (Q * Q * Q) * Z) :=
  features_of_file sample_read_csv flat_butter flat_filtfilt sample_welch sample_sqrt
    (recording [] 3) vars_8hz.

Definition tiny_windows : list (Q * Q * Q) :=
  match tiny_features with
  | Ok (_, ws, _) => ws
  | Err _ => []
  end.

Definition tiny_frame : option dataframe :=
  match tiny_features with
  | Ok (frame, _, _) => Some frame
  | Err _ => None
  end.

(** * Properties *)

(** ** General lemmas *)

Lemma mapM_Forall2 {E A B} (f : A -> res E B) (l : list A) (ys : list B) :
  mapM f l = Ok ys <-> Forall2 (fun x y => f x = Ok y) l ys.
Proof.
  revert ys; induction l as [|x l IH]; intros ys; simpl.
  - split; intros H.
    + inversion H; constructor.
    + inversion H; reflexivity.
  - split; intros H.
    + destruct (f x) as [y|e] eqn:Hx; simpl in H; [|discriminate].
      destruct (mapM f l) as [ys'|e] eqn:Hl; simpl in H; [|discriminate].
      inversion H; subst. constructor; [assumption|]. apply IH; reflexivity.
    + inversion H as [|? y ? ys' Hx Hl]; subst.
      rewrite Hx; simpl. apply IH in Hl. rewrite Hl; reflexivity.
Qed.

Lemma mapM_total {E A B} (f : A -> res E B) (l : list A) :
  (forall x, In x l -> exists y, f x = Ok y) -> exists ys, mapM f l = Ok ys.
Proof.
  induction l as [|x l IH]; intros H; simpl.
  - eexists; reflexivity.
  - destruct (H x (or_introl eq_refl)) as [y Hy]. rewrite Hy; simpl.
    destruct IH as [ys Hys]; [intros z Hz; apply H; right; exact Hz|].
    rewrite Hys; simpl. eexists; reflexivity.
Qed.

Lemma mapM_length {E A B} (f : A -> res E B) (l : list A) (ys : list B) :
  mapM f l = Ok ys -> List.length ys = List.length l.
Proof.
  intros H. apply mapM_Forall2 in H. symmetry. eapply Forall2_length; eassumption.
Qed.

Lemma len_nonneg {A} (l : list A) : 0 <= len l.
Proof. unfold len; lia. Qed.

(** The iterator of [range] with a positive step yields
    [i, i + step, i + 2*step, ...] while below [stop]. *)
Lemma range_up_spec (fuel : nat) : forall i stop step,
  0 < step -> (Z.to_nat (stop - i) <= fuel)%nat ->
  range_up fuel i stop step
  = map (fun k => i + Z.of_nat k * step)
        (seq 0 (Z.to_nat (if i <? stop then (stop - i - 1) / step + 1 else 0))).
Proof.
  induction fuel as [|fuel IH]; intros i stop step Hstep Hfuel; simpl.
  - destruct (Z.ltb_spec i stop); [lia | reflexivity].
  - destruct (Z.ltb_spec i stop) as [Hlt|Hge]; [|reflexivity].
    rewrite (IH (i + step) stop step Hstep) by lia.
    assert (Hq : 0 <= (stop - i - 1) / step) by (apply Z.div_pos; lia).
    replace (Z.to_nat ((stop - i - 1) / step + 1))
      with (S (Z.to_nat ((stop - i - 1) / step))) by lia.
    simpl. f_equal; [lia|].
    rewrite <- seq_shift, map_map.
    assert (Hcount : (if i + step <? stop then (stop - (i + step) - 1) / step + 1 else 0)
                     = (stop - i - 1) / step).
    { destruct (Z.ltb_spec (i + step) stop).
      - replace (stop - i - 1) with ((stop - (i + step) - 1) + 1 * step) by lia.
        rewrite Z.div_add by lia. reflexivity.
      - symmetry. apply Z.div_small. lia. }
    rewrite Hcount. apply map_ext. intros k. lia.
Qed.

Lemma slice_window_length {A} (l : list A) (i w : Z) :
  0 <= i -> 0 <= w -> i + w <= len l ->
  List.length (slice l i (i + w)) = Z.to_nat w.
Proof.
  intros Hi Hw Hle. unfold slice, clamp_index.
  destruct (Z.ltb_spec i 0); [lia|].
  destruct (Z.ltb_spec (i + w) 0); [lia|].
  rewrite length_firstn, length_skipn. unfold len in *. lia.
Qed.

Lemma slice_window {A} (l : list A) (i w : Z) :
  0 <= i -> 0 <= w -> i + w <= len l ->
  slice l i (i + w) = firstn (Z.to_nat w) (skipn (Z.to_nat i) l).
Proof.
  intros Hi Hw Hle. unfold slice, clamp_index.
  destruct (Z.ltb_spec i 0); [lia|].
  destruct (Z.ltb_spec (i + w) 0); [lia|].
  pose proof (len_nonneg l).
  rewrite !Z.max_r, !Z.min_r by lia.
  replace (i + w - i) with w by lia. reflexivity.
Qed.

Lemma Forall2_seq_impl {B} (P R : nat -> B -> Prop) (n start : nat) (l : list B) :
  (forall k w, (start <= k < start + n)%nat -> P k w -> R k w) ->
  Forall2 P (seq start n) l -> Forall2 R (seq start n) l.
Proof.
  revert start l. induction n as [|n IH]; intros start l Himp H; simpl in *.
  - inversion H; subst. constructor.
  - inversion H as [|k x ks xs Hk Hrest]; subst. constructor.
    + apply Himp; [lia | exact Hk].
    + apply IH; [|exact Hrest]. intros j y Hrange. apply Himp. lia.
Qed.

Lemma item_in_range {A} (l : list A) (k : Z) :
  0 <= k < len l -> exists x, item l k = Ok x.
Proof.
  intros Hk. unfold item.
  destruct (Z.ltb_spec k 0); [lia|].
  destruct (Z.ltb_spec k 0); [lia|].
  destruct (nth_error l (Z.to_nat k)) eqn:Hn; [eexists; reflexivity|].
  apply nth_error_None in Hn. unfold len in Hk. lia.
Qed.

Lemma np_div_nonzero (a b : Q) : ~ b == 0 -> np_div a b = Ok (a / b)%Q.
Proof.
  intros Hb. unfold np_div.
  destruct (Qeq_bool b 0) eqn:Heq; [|reflexivity].
  apply Qeq_bool_iff in Heq. contradiction.
Qed.

Lemma py_div_nonzero (a b : Q) : ~ b == 0 -> py_div a b = Ok (a / b)%Q.
Proof.
  intros Hb. unfold py_div.
  destruct (Qeq_bool b 0) eqn:Heq; [|reflexivity].
  apply Qeq_bool_iff in Heq. contradiction.
Qed.

Lemma np_mean_nonempty (l : list Q) :
  l <> [] -> np_mean l = Ok (np_sum l / inject_Z (len l))%Q.
Proof. destruct l; [congruence | reflexivity]. Qed.

Lemma inject_Z_nonzero (z : Z) : z <> 0 -> ~ inject_Z z == 0.
Proof.
  intros Hz H. unfold Qeq in H. simpl in H. lia.
Qed.

Lemma Qeq_bool_false (x y : Q) : ~ x == y -> Qeq_bool x y = false.
Proof.
  intros H. destruct (Qeq_bool x y) eqn:Heq; [|reflexivity].
  apply Qeq_bool_iff in Heq. contradiction.
Qed.

Lemma Qltb_lt (x y : Q) : Qltb x y = true <-> (x < y)%Q.
Proof.
  unfold Qltb. rewrite negb_true_iff. split; intros H.
  - apply Qnot_le_lt. intros Hle. apply Qle_bool_iff in Hle. congruence.
  - destruct (Qle_bool y x) eqn:Hle; [|reflexivity].
    apply Qle_bool_iff in Hle. exfalso. exact (Qlt_not_le _ _ H Hle).
Qed.

(** ** Rounding to binary64

    What the proofs use of [round64]: it depends on the value of its
    argument only, it keeps the sign, and it changes a positive value by
    less than a factor of two.  [Binary64Facts] compares it with the
    primitive floats on the inputs of the examples. *)

Lemma round64_comp (x y : Q) : x == y -> round64 x = round64 y.
Proof.
  intros H. unfold round64. rewrite (Qred_complete x y H). reflexivity.
Qed.

Lemma round64_zero (x : Q) : x == 0 -> round64 x = 0%Q.
Proof.
  intros H. rewrite (round64_comp x 0 H). reflexivity.
Qed.

Lemma nearest_even_ge (num den : Z) : num / den <= nearest_even num den.
Proof.
  unfold nearest_even.
  destruct (2 * (num mod den) <? den); [lia|].
  destruct (den <? 2 * (num mod den)); [lia|].
  destruct (Z.even (num / den)); lia.
Qed.

Lemma scaled_ge (n d : positive) (e : Z) :
  e <= Z.log2 (Zpos n) - Z.log2 (Zpos d) - 52 ->
  0 < snd (scaled n d e) <= fst (scaled n d e).
Proof.
  intros He.
  destruct (Z.log2_spec (Zpos n)) as [Hn1 Hn2]; [lia|].
  destruct (Z.log2_spec (Zpos d)) as [Hd1 Hd2]; [lia|].
  pose proof (Z.log2_nonneg (Zpos n)) as Ha.
  pose proof (Z.log2_nonneg (Zpos d)) as Hb.
  set (a := Z.log2 (Zpos n)) in *. set (b := Z.log2 (Zpos d)) in *.
  unfold scaled. destruct (Z.ltb_spec e 0) as [Hneg|Hpos]; cbn [fst snd].
  - split; [lia|].
    assert (H1 : 2 ^ Z.succ b <= 2 ^ (a + - e)) by (apply Z.pow_le_mono_r; lia).
    rewrite Z.pow_add_r in H1 by lia.
    assert (H2 : 2 ^ a * 2 ^ (- e) <= Zpos n * 2 ^ (- e)).
    { apply Z.mul_le_mono_nonneg_r; [apply Z.pow_nonneg; lia | exact Hn1]. }
    lia.
  - assert (Hp : 0 < 2 ^ e) by (apply Z.pow_pos_nonneg; lia).
    split; [nia|].
    assert (H1 : 2 ^ (Z.succ b + e) <= 2 ^ a) by (apply Z.pow_le_mono_r; lia).
    rewrite Z.pow_add_r in H1 by lia.
    assert (H2 : Zpos d * 2 ^ e <= 2 ^ Z.succ b * 2 ^ e).
    { apply Z.mul_le_mono_nonneg_r; lia. }
    lia.
Qed.

Lemma exponent_le (n d : positive) :
  exponent n d <= Z.log2 (Zpos n) - Z.log2 (Zpos d) - 52.
Proof.
  unfold exponent. destruct (_ <? _); lia.
Qed.

Lemma pow2_positive (e : Z) : (0 < pow2 e)%Q.
Proof.
  unfold pow2. destruct (Z.ltb_spec e 0); [reflexivity|].
  change 0%Q with (inject_Z 0). rewrite <- Zlt_Qlt. apply Z.pow_pos_nonneg; lia.
Qed.

Lemma round_pos_positive (n d : positive) : (0 < round_pos n d)%Q.
Proof.
  unfold round_pos.
  destruct (scaled_ge n d (exponent n d) (exponent_le n d)) as [Hden Hle].
  pose proof (nearest_even_ge (fst (scaled n d (exponent n d))) (snd (scaled n d (exponent n d)))) as Hm.
  assert (H1 : 1 <= fst (scaled n d (exponent n d)) / snd (scaled n d (exponent n d))).
  { apply Z.div_le_lower_bound; lia. }
  apply Qmult_lt_0_compat; [|apply pow2_positive].
  change 0%Q with (inject_Z 0). rewrite <- Zlt_Qlt. lia.
Qed.

Lemma round64_pos (x : Q) : (0 < x)%Q -> (0 < round64 x)%Q.
Proof.
  intros H. rewrite <- (Qred_correct x) in H. unfold round64.
  destruct (Qred x) as [[|n|n] d].
  - exfalso. unfold Qlt in H; simpl in H; lia.
  - apply round_pos_positive.
  - exfalso. unfold Qlt in H; simpl in H; lia.
Qed.

Lemma round64_neg (x : Q) : (x < 0)%Q -> (round64 x < 0)%Q.
Proof.
  intros H. rewrite <- (Qred_correct x) in H. unfold round64.
  destruct (Qred x) as [[|n|n] d].
  - exfalso. unfold Qlt in H; simpl in H; lia.
  - exfalso. unfold Qlt in H; simpl in H; lia.
  - pose proof (round_pos_positive n d). lra.
Qed.

Lemma round64_nonneg (x : Q) : (0 <= x)%Q -> (0 <= round64 x)%Q.
Proof.
  intros H. destruct (Qeq_dec x 0) as [E|E].
  - rewrite (round64_zero x E). apply Qle_refl.
  - apply Qlt_le_weak, round64_pos. lra.
Qed.

Lemma nearest_even_le (num den : Z) : nearest_even num den <= num / den + 1.
Proof.
  unfold nearest_even.
  destruct (2 * (num mod den) <? den); [lia|].
  destruct (den <? 2 * (num mod den)); [lia|].
  destruct (Z.even (num / den)); lia.
Qed.

Lemma scaled_value (n d : positive) (e : Z) :
  (inject_Z (fst (scaled n d e)) * pow2 e == (Zpos n # d) * inject_Z (snd (scaled n d e)))%Q.
Proof.
  unfold scaled, pow2. destruct (Z.ltb_spec e 0) as [He|He]; cbn [fst snd].
  - assert (Hp : 0 < 2 ^ (- e)) by (apply Z.pow_pos_nonneg; lia).
    unfold Qeq, Qmult, inject_Z; cbn [Qnum Qden].
    rewrite !Pos.mul_1_l, !Z.mul_1_r.
    rewrite Pos2Z.inj_mul, Z2Pos.id by exact Hp. ring.
  - unfold Qeq, Qmult, inject_Z; cbn [Qnum Qden].
    rewrite !Pos.mul_1_r, !Z.mul_1_r. ring.
Qed.

Lemma round_pos_bounds (n d : positive) :
  ((Zpos n # d) <= 2 * round_pos n d /\ round_pos n d <= 2 * (Zpos n # d))%Q.
Proof.
  unfold round_pos.
  destruct (scaled_ge n d (exponent n d) (exponent_le n d)) as [Hden Hle].
  pose proof (scaled_value n d (exponent n d)) as Hval.
  pose proof (pow2_positive (exponent n d)) as Hpow.
  set (num := fst (scaled n d (exponent n d))) in *.
  set (den := snd (scaled n d (exponent n d))) in *.
  pose proof (nearest_even_ge num den) as Hlo.
  pose proof (nearest_even_le num den) as Hhi.
  set (m := nearest_even num den) in *.
  assert (Hq : 1 <= num / den) by (apply Z.div_le_lower_bound; lia).
  pose proof (Z.mul_div_le num den Hden) as Hfloor.
  pose proof (Z.mul_succ_div_gt num den Hden) as Hceil.
  assert (H1 : num <= 2 * (den * m)) by nia.
  assert (H2 : den * m <= 2 * num) by nia.
  assert (Hdenq : (0 < inject_Z den)%Q).
  { change 0%Q with (inject_Z 0). rewrite <- Zlt_Qlt. exact Hden. }
  assert (H1q : (inject_Z num <= 2 * (inject_Z den * inject_Z m))%Q).
  { rewrite <- inject_Z_mult. change 2%Q with (inject_Z 2). rewrite <- inject_Z_mult.
    rewrite <- Zle_Qle. exact H1. }
  assert (H2q : (inject_Z den * inject_Z m <= 2 * inject_Z num)%Q).
  { rewrite <- inject_Z_mult. change 2%Q with (inject_Z 2). rewrite <- inject_Z_mult.
    rewrite <- Zle_Qle. exact H2. }
  set (x := (Zpos n # d)%Q) in *. set (p := pow2 (exponent n d)) in *.
  set (M := inject_Z m) in *. set (N := inject_Z num) in *. set (D := inject_Z den) in *.
  assert (E : (x == N * p / D)%Q).
  { rewrite Hval. field. intros H0. rewrite H0 in Hdenq. exact (Qlt_irrefl 0 Hdenq). }
  assert (Hinv : (0 < / D)%Q) by (apply Qinv_lt_0_compat; exact Hdenq).
  assert (Hid : (D * / D == 1)%Q).
  { apply Qmult_inv_r. intros H0. rewrite H0 in Hdenq. exact (Qlt_irrefl 0 Hdenq). }
  rewrite E. unfold Qdiv.
  set (i := (/ D)%Q) in *.
  assert (Hpi : (0 < p * i)%Q) by (apply Qmult_lt_0_compat; assumption).
  split.
  - assert (G : (N * (p * i) <= 2 * (D * M) * (p * i))%Q).
    { apply Qmult_le_compat_r; [exact H1q | apply Qlt_le_weak; exact Hpi]. }
    assert (G2 : (2 * (D * M) * (p * i) == 2 * (M * p) * (D * i))%Q) by ring.
    rewrite G2, Hid in G. lra.
  - assert (G : (D * M * (p * i) <= 2 * N * (p * i))%Q).
    { apply Qmult_le_compat_r; [exact H2q | apply Qlt_le_weak; exact Hpi]. }
    assert (G2 : (D * M * (p * i) == M * p * (D * i))%Q) by ring.
    rewrite G2, Hid in G. lra.
Qed.

Lemma round64_bounds (x : Q) :
  (0 < x)%Q -> (x <= 2 * round64 x /\ round64 x <= 2 * x)%Q.
Proof.
  intros H. pose proof (Qred_correct x) as Hred. rewrite <- Hred in H. unfold round64.
  destruct (Qred x) as [[|n|n] d].
  - exfalso. unfold Qlt in H; simpl in H; lia.
  - rewrite <- Hred. apply round_pos_bounds.
  - exfalso. unfold Qlt in H; simpl in H; lia.
Qed.

Lemma float_div_nonzero (a b : Q) : ~ b == 0 -> float_div a b = Ok (round64 (a / b)).
Proof.
  intros H. unfold float_div. destruct (Qeq_bool b 0) eqn:Hb; [|reflexivity].
  apply Qeq_bool_iff in Hb. contradiction.
Qed.

Lemma np_float_div_nonzero (a b : Q) :
  ~ b == 0 -> np_float_div a b = Ok (round64 (a / b)).
Proof.
  intros H. unfold np_float_div. destruct (Qeq_bool b 0) eqn:Hb; [|reflexivity].
  apply Qeq_bool_iff in Hb. contradiction.
Qed.

(** ** Calibration *)

Lemma half_scale (n : Z) : 1 <= n -> (inject_Z (2 ^ (n - 1)) / 2 ^ n == 1 # 2)%Q.
Proof.
  intros Hn.
  assert (Hpow : (2 ^ n == inject_Z (2 ^ (n - 1)) * 2)%Q).
  { change 2%Q with (inject_Z 2) at 1. rewrite <- Zpower_Qpower by lia.
    replace n with (Z.succ (n - 1)) at 1 by lia.
    rewrite Z.pow_succ_r by lia. rewrite inject_Z_mult. change (inject_Z 2) with 2%Q. ring. }
  assert (Hpos : (0 < inject_Z (2 ^ (n - 1)))%Q).
  { change 0%Q with (inject_Z 0). rewrite <- Zlt_Qlt. apply Z.pow_pos_nonneg; lia. }
  rewrite Hpow. field. intros H0. rewrite H0 in Hpos. apply (Qlt_irrefl 0). exact Hpos.
Qed.

Lemma calibrate_series (raws : list Z) (n_bits : Z) (vcc gain : Q) :
  ~ gain == 0 ->
  mapM (fun raw => convert_to_mv raw n_bits vcc gain) raws
  = Ok (map (fun raw => ((inject_Z raw / 2 ^ n_bits - (1 # 2)) * vcc * 1000 / gain)%Q) raws).
Proof.
  intros Hgain. induction raws as [|raw raws IH]; [reflexivity|].
  cbn [mapM map]. rewrite IH. unfold convert_to_mv at 1.
  rewrite np_div_nonzero by exact Hgain. reflexivity.
Qed.

(** C2. Calibration maps every raw count [raw] of the series to
    [((raw / 2^n_bits) - 0.5) * vcc * 1000 / gain], each element on its own;
    the defaults are [vcc = 3.3] and [gain = 1000]; the mid-scale count
    (512 at 10 bits) maps to 0. *)
Theorem C2_calibration (raws : list Z) (n_bits : Z) (vcc gain : Q) :
  ~ gain == 0 ->
  mapM (fun raw => convert_to_mv raw n_bits vcc gain) raws
  = Ok (map (fun raw => ((inject_Z raw / 2 ^ n_bits - (1 # 2)) * vcc * 1000 / gain)%Q) raws)
  /\ (default_vcc == 33 / 10 /\ default_gain == 1000)
  /\ (forall n, 1 <= n ->
        exists v, convert_to_mv (2 ^ (n - 1)) n default_vcc default_gain = Ok v /\ v == 0)
  /\ (exists v, convert_to_mv 512 10 default_vcc default_gain = Ok v /\ v == 0).
Proof.
  intros Hgain. split; [|split; [|split]].
  - apply calibrate_series; exact Hgain.
  - split; reflexivity.
  - intros n Hn. unfold convert_to_mv. rewrite np_div_nonzero by discriminate.
    eexists; split; [reflexivity|].
    rewrite (half_scale n Hn). unfold default_vcc, default_gain. reflexivity.
  - eexists; split; reflexivity.
Qed.

(** ** Conditioning *)

Lemma remove_dc_length (xs : list Q) :
  exists ys, remove_dc xs = Ok ys /\ len ys = len xs.
Proof.
  destruct xs as [|x xs]; [exists []; split; reflexivity|].
  unfold remove_dc. rewrite np_mean_nonempty by discriminate. cbn [bind].
  eexists; split; [reflexivity|]. unfold len. rewrite length_map. reflexivity.
Qed.

Lemma assign_column_ok (n : Z) (values out : list Q) :
  assign_column n values = Ok out -> out = values /\ len values = n.
Proof.
  unfold assign_column. destruct (Z.eqb_spec (len values) n); [|discriminate].
  intros H; inversion H; subst; split; reflexivity.
Qed.

Section Conditioning.

Variable butter : nat -> Q -> Q -> btype -> res exn (list Q * list Q).
Variable filtfilt : list Q -> list Q -> list Q -> res exn (list Q).

(** The first steps of [condition] always give a centred series of the
    length of the recording. *)
Lemma condition_unfold (raw : list Z) (n_bits fs : Z) :
  exists emg_mv centred,
    len emg_mv = len raw /\ len centred = len raw
    /\ condition butter filtfilt raw n_bits fs
       = (notched <- lift (y <- notch_filter butter filtfilt centred 50 fs 2 ;;
                           assign_column (len raw) y) ;;
          passed <- lift (y <- bandpass_filter butter filtfilt notched 20 450 fs 5 ;;
                          assign_column (len raw) y) ;;
          Ok (emg_mv, passed, map Qabs passed)).
Proof.
  unfold condition.
  rewrite (calibrate_series raw n_bits default_vcc default_gain) by discriminate.
  cbn [bind].
  set (emg_mv := map _ raw).
  assert (Hmv : len emg_mv = len raw) by (unfold emg_mv, len; rewrite length_map; reflexivity).
  destruct (remove_dc_length emg_mv) as [centred [Hc Hlen]].
  rewrite Hc. cbn [bind].
  exists emg_mv, centred. repeat split; [exact Hmv | congruence].
Qed.

Lemma condition_length (raw : list Z) (n_bits fs : Z) (emg_mv passed rectified : list Q) :
  condition butter filtfilt raw n_bits fs = Ok (emg_mv, passed, rectified) ->
  len emg_mv = len raw /\ len passed = len raw /\ len rectified = len raw.
Proof.
  destruct (condition_unfold raw n_bits fs) as [mv [centred [Hmv [_ Hc]]]].
  rewrite Hc. clear Hc. intros H.
  destruct (notch_filter butter filtfilt centred 50 fs 2) as [y|e]; [|discriminate].
  cbn [bind lift] in H.
  destruct (assign_column (len raw) y) as [notched|e]; [|discriminate].
  cbn [bind lift] in H.
  destruct (bandpass_filter butter filtfilt notched 20 450 fs 5) as [z|e]; [|discriminate].
  cbn [bind lift] in H.
  destruct (assign_column (len raw) z) as [out|e] eqn:Hout; [|discriminate].
  cbn [bind lift] in H. inversion H; subst.
  apply assign_column_ok in Hout. destruct Hout as [-> Hz].
  repeat split; [exact Hmv | exact Hz |].
  unfold len. rewrite length_map. exact Hz.
Qed.

Section Padding.

(** [filtfilt] raises [ValueError] for a signal that is not longer than its
    padding. *)
Hypothesis filtfilt_pad : forall b a x,
  len x <= padlen b a -> filtfilt b a x = Err ValueError.

Lemma notch_short (signal : list Q) (fs : Z) (low high : Q) (b a : list Q) :
  py_div (50 - 1) (inject_Z fs / 2) = Ok low ->
  py_div (50 + 1) (inject_Z fs / 2) = Ok high ->
  butter 2 low high Bandstop = Ok (b, a) ->
  len signal <= padlen b a ->
  notch_filter butter filtfilt signal 50 fs 2 = Err ValueError.
Proof.
  intros Hlow Hhigh Hba Hlen. unfold notch_filter.
  rewrite Hlow, Hhigh. cbn [bind]. rewrite Hba. cbn [bind fst snd].
  apply filtfilt_pad; exact Hlen.
Qed.

Lemma bandpass_short (signal : list Q) (fs : Z) (low high : Q) (b a : list Q) :
  py_div 20 (inject_Z fs / 2) = Ok low ->
  py_div 450 (inject_Z fs / 2) = Ok high ->
  butter 5 low high Band = Ok (b, a) ->
  len signal <= padlen b a ->
  bandpass_filter butter filtfilt signal 20 450 fs 5 = Err ValueError.
Proof.
  intros Hlow Hhigh Hba Hlen. unfold bandpass_filter.
  rewrite Hlow, Hhigh. cbn [bind]. rewrite Hba. cbn [bind fst snd].
  apply filtfilt_pad; exact Hlen.
Qed.

(** C8. A signal with no more samples than the padding of the zero-phase
    filter makes the notch filter, and likewise the bandpass filter, raise
    [ValueError]; the conditioning stage passes the exception on, and a
    signal it returns always has the length of the recording. *)
Theorem C8_short_signal (raw : list Z) (n_bits fs : Z) (low high : Q) (b a : list Q) :
  len raw <= padlen b a ->
  (py_div (50 - 1) (inject_Z fs / 2) = Ok low ->
   py_div (50 + 1) (inject_Z fs / 2) = Ok high ->
   butter 2 low high Bandstop = Ok (b, a) ->
   (forall signal, len signal = len raw ->
      notch_filter butter filtfilt signal 50 fs 2 = Err ValueError)
   /\ condition butter filtfilt raw n_bits fs = Err (Raised ValueError))
  /\ (py_div 20 (inject_Z fs / 2) = Ok low ->
      py_div 450 (inject_Z fs / 2) = Ok high ->
      butter 5 low high Band = Ok (b, a) ->
      (forall signal, len signal = len raw ->
         bandpass_filter butter filtfilt signal 20 450 fs 5 = Err ValueError)
      /\ exists e, condition butter filtfilt raw n_bits fs = Err (Raised e))
  /\ (forall emg_mv passed rectified,
        condition butter filtfilt raw n_bits fs = Ok (emg_mv, passed, rectified) ->
        len passed = len raw /\ len rectified = len raw).
Proof.
  intros Hshort.
  destruct (condition_unfold raw n_bits fs) as [mv [centred [Hmv [Hcen Hc]]]].
  split; [|split].
  - intros Hlow Hhigh Hba.
    assert (Hn : forall signal, len signal = len raw ->
              notch_filter butter filtfilt signal 50 fs 2 = Err ValueError).
    { intros signal Hs. apply (notch_short signal fs low high b a); try assumption.
      rewrite Hs; exact Hshort. }
    split; [exact Hn|].
    rewrite Hc, (Hn centred Hcen). reflexivity.
  - intros Hlow Hhigh Hba.
    assert (Hb : forall signal, len signal = len raw ->
              bandpass_filter butter filtfilt signal 20 450 fs 5 = Err ValueError).
    { intros signal Hs. apply (bandpass_short signal fs low high b a); try assumption.
      rewrite Hs; exact Hshort. }
    split; [exact Hb|].
    rewrite Hc.
    destruct (notch_filter butter filtfilt centred 50 fs 2) as [y|e];
      [|eexists; reflexivity].
    cbn [bind lift].
    destruct (assign_column (len raw) y) as [notched|e] eqn:Hy; [|eexists; reflexivity].
    apply assign_column_ok in Hy. destruct Hy as [-> Hy].
    cbn [bind lift]. rewrite (Hb y Hy). eexists; reflexivity.
  - intros emg_mv passed rectified H.
    destruct (condition_length raw n_bits fs _ _ _ H) as [_ [H1 H2]].
    split; assumption.
Qed.

End Padding.

Section Nyquist.

Variable json_loads : string -> option json.
Variable read_csv : list string -> Z -> res exn (list Z).
Variable welch : list Q -> Z -> Z -> list Q * list Q.
Variable linregress : list Q -> list Q -> Q * Q.
Variable np_sqrt : Q -> Q.

(** [butter] raises [ValueError] unless the critical frequencies satisfy
    [0 < Wn < 1]. *)
Hypothesis butter_critical : forall order low high kind,
  ~ (0 < low /\ high < 1)%Q -> butter order low high kind = Err ValueError.

Lemma high_cutoff (rate : Z) :
  0 < rate <= 900 ->
  exists high, py_div 450 (inject_Z rate / 2) = Ok high /\ (1 <= high)%Q.
Proof.
  intros Hr.
  assert (Hpos : (0 < inject_Z rate / 2)%Q).
  { apply Qlt_shift_div_l; [reflexivity|]. rewrite Qmult_0_l.
    change 0%Q with (inject_Z 0). rewrite <- Zlt_Qlt. lia. }
  rewrite py_div_nonzero by (intros H0; rewrite H0 in Hpos; exact (Qlt_irrefl 0 Hpos)).
  eexists; split; [reflexivity|].
  apply Qle_shift_div_l; [exact Hpos|]. rewrite Qmult_1_l.
  apply Qle_shift_div_r; [reflexivity|].
  change (450 * 2)%Q with (inject_Z 900). rewrite <- Zle_Qle. lia.
Qed.

Lemma bandpass_fails (rate : Z) (signal : list Q) :
  0 < rate <= 900 ->
  bandpass_filter butter filtfilt signal 20 450 rate 5 = Err ValueError.
Proof.
  intros Hr. destruct (high_cutoff rate Hr) as [high [Hh Hge]].
  unfold bandpass_filter. rewrite Hh.
  destruct (py_div 20 (inject_Z rate / 2)) as [low|e] eqn:Hl.
  - cbn [bind]. rewrite butter_critical; [reflexivity|].
    intros [_ Hlt]. exact (Qlt_not_le _ _ Hlt Hge).
  - unfold py_div in Hh, Hl.
    destruct (Qeq_bool (inject_Z rate / 2) 0); discriminate.
Qed.

Lemma condition_fails (rate : Z) (raw : list Z) (n_bits : Z) :
  0 < rate <= 900 ->
  exists e, condition butter filtfilt raw n_bits rate = Err (Raised e).
Proof.
  intros Hr. destruct (condition_unfold raw n_bits rate) as [mv [centred [_ [_ Hc]]]].
  rewrite Hc.
  destruct (notch_filter butter filtfilt centred 50 rate 2) as [y|e];
    [|eexists; reflexivity].
  cbn [bind lift].
  destruct (assign_column (len raw) y) as [notched|e]; [|eexists; reflexivity].
  cbn [bind lift]. rewrite (bandpass_fails rate notched Hr). eexists; reflexivity.
Qed.

Lemma time_column (rate : Z) (n : nat) :
  rate <> 0 ->
  exists time, mapM (fun k => np_div (inject_Z (Z.of_nat k)) (inject_Z rate)) (seq 0 n) = Ok time.
Proof.
  intros Hr. apply mapM_total. intros k _.
  rewrite np_div_nonzero by (apply inject_Z_nonzero; exact Hr).
  eexists; reflexivity.
Qed.

(** C10. The sampling rate of the header is used as it is: for a rate
    [0 < fs <= 900] the bandpass cutoff [450 / (fs / 2)] is at least 1, the
    design of the bandpass filter raises, and [process_emg_file] ends with an
    exception after the messages of the header, without a result. *)
Theorem C10_low_sampling_rate (rate : Z) :
  0 < rate <= 900 ->
  (exists high, py_div 450 (inject_Z rate / 2) = Ok high /\ (1 <= high)%Q)
  /\ (forall signal,
        bandpass_filter butter filtfilt signal 20 450 rate 5 = Err ValueError)
  /\ (forall raw n_bits,
        exists e, condition butter filtfilt raw n_bits rate = Err (Raised e))
  /\ (forall lines d log v,
        extract_header json_loads lines = (log, Some v) ->
        as_int (fs v) = Ok rate ->
        exists e,
          process_emg_file json_loads read_csv butter filtfilt welch linregress np_sqrt
            lines d
          = (log, Err (Raised e))).
Proof.
  intros Hr. split; [exact (high_cutoff rate Hr)|].
  split; [intros signal; exact (bandpass_fails rate signal Hr)|].
  split; [intros raw n_bits; exact (condition_fails rate raw n_bits Hr)|].
  intros lines d log v Hh Hfs.
  assert (Hf : exists e,
            features_of_file read_csv butter filtfilt welch np_sqrt lines v = Err (Raised e)).
  { unfold features_of_file. rewrite Hfs. cbn [lift bind].
    rewrite py_div_nonzero by (apply inject_Z_nonzero; lia). cbn [lift bind].
    destruct (read_csv lines (emg_column_index v)) as [raw|e]; [|eexists; reflexivity].
    cbn [lift bind].
    destruct (time_column rate (List.length raw)) as [time Ht]; [lia|].
    rewrite Ht. cbn [bind].
    destruct (as_int (resolution_bits v)) as [n_bits|e]; [|eexists; reflexivity].
    cbn [lift bind].
    destruct (condition_fails rate raw n_bits Hr) as [e He].
    rewrite He. eexists; reflexivity. }
  destruct Hf as [e He]. exists e.
  unfold process_emg_file. rewrite Hh, He. reflexivity.
Qed.

End Nyquist.

End Conditioning.

(** ** Windows *)

Section Windows.

Variable read_csv : list string -> Z -> res exn (list Z).
Variable butter : nat -> Q -> Q -> btype -> res exn (list Q * list Q).
Variable filtfilt : list Q -> list Q -> list Q -> res exn (list Q).
Variable welch : list Q -> Z -> Z -> list Q * list Q.
Variable np_sqrt : Q -> Q.

Lemma mnf_of_total (segment : list Q) (fs win_size : Z) :
  exists v, mnf_of welch segment fs win_size = Ok v.
Proof.
  unfold mnf_of, np_div, Qltb.
  destruct (Qle_bool (np_sum (snd (welch segment fs (Z.min 128 win_size)))) 0) eqn:Hle; simpl.
  - eexists; reflexivity.
  - destruct (Qeq_bool (np_sum (snd (welch segment fs (Z.min 128 win_size)))) 0) eqn:Heq.
    + apply Qeq_bool_iff in Heq. rewrite Heq in Hle. discriminate.
    + eexists; reflexivity.
Qed.

Lemma window_total (rectified time : list Q) (fs win_size i : Z) :
  0 < win_size -> 0 <= i -> i + win_size <= len rectified -> len time = len rectified ->
  exists w, window welch np_sqrt rectified time fs win_size i = Ok w.
Proof.
  intros Hw Hi Hfit Htime. unfold window.
  destruct (item_in_range time (i + win_size / 2)) as [t Ht].
  { assert (0 <= win_size / 2 < win_size) by (split; [apply Z.div_pos; lia | apply Z.div_lt_upper_bound; lia]).
    lia. }
  rewrite Ht; simpl.
  assert (Hlen := slice_window_length rectified i win_size Hi (Z.lt_le_incl _ _ Hw) Hfit).
  unfold rms_of, np_mean.
  destruct (slice rectified i (i + win_size)) as [|x seg] eqn:Hseg.
  { simpl in Hlen. lia. }
  cbn [map bind].
  destruct (mnf_of_total (x :: seg) fs win_size) as [v Hv]. rewrite Hv. simpl.
  eexists; reflexivity.
Qed.

(** The windows of a signal of [N] samples, for positive sizes. *)
Lemma extract_features_windows (rectified time : list Q) (fs N : Z) :
  8 <= fs -> len rectified = N -> len time = N ->
  let win_size := fs / 4 in
  let step := fs / 8 in
  let count := if win_size <=? N then (N - win_size) / step + 1 else 0 in
  exists ws,
    extract_features welch np_sqrt rectified time fs = Ok ws /\
    len ws = count /\
    Forall2 (fun k w => window welch np_sqrt rectified time fs win_size
                          (Z.of_nat k * step) = Ok w)
            (seq 0 (Z.to_nat count)) ws.
Proof.
  intros Hfs HN Htime win_size step count.
  assert (Hstep : 0 < step) by (apply Z.div_str_pos; lia).
  assert (Hwin : 0 < win_size) by (apply Z.div_str_pos; lia).
  assert (HN0 : 0 <= N) by (rewrite <- HN; apply len_nonneg).
  unfold extract_features. fold win_size. fold step.
  unfold py_range.
  destruct (Z.eqb_spec step 0); [lia|].
  destruct (Z.ltb_spec 0 step); [|lia].
  rewrite HN.
  rewrite range_up_spec by lia. cbn [lift bind].
  assert (Hcount : (if 0 <? N - win_size + 1 then (N - win_size + 1 - 0 - 1) / step + 1 else 0)
                   = count).
  { unfold count. destruct (Z.ltb_spec 0 (N - win_size + 1)), (Z.leb_spec win_size N); try lia.
    replace (N - win_size + 1 - 0 - 1) with (N - win_size) by lia. reflexivity. }
  rewrite Hcount.
  assert (Hcount0 : 0 <= count).
  { unfold count. destruct (Z.leb_spec win_size N); [|lia].
    assert (0 <= (N - win_size) / step) by (apply Z.div_pos; lia). lia. }
  destruct (mapM_total (window welch np_sqrt rectified time fs win_size)
              (map (fun k => 0 + Z.of_nat k * step) (seq 0 (Z.to_nat count)))) as [ws Hws].
  { intros i Hi. apply in_map_iff in Hi. destruct Hi as [k [Hk Hin]]. subst i.
    apply in_seq in Hin.
    apply window_total; [lia | lia | | congruence].
    rewrite HN. unfold count in Hin.
    destruct (Z.leb_spec win_size N); [|simpl in Hin; lia].
    assert (Z.of_nat k <= (N - win_size) / step) by lia.
    assert (step * ((N - win_size) / step) <= N - win_size) by (apply Z.mul_div_le; lia).
    nia. }
  exists ws. split; [exact Hws|]. split.
  - unfold len. rewrite (mapM_length _ _ _ Hws), length_map, length_seq. lia.
  - apply mapM_Forall2 in Hws.
    clear - Hws. remember (seq 0 (Z.to_nat count)) as ks. clear Heqks.
    revert ws Hws. induction ks as [|k ks IH]; intros ws Hws; simpl in Hws; inversion Hws; subst.
    + constructor.
    + constructor; [assumption | apply IH; assumption].
Qed.


Lemma window_contents (rectified time : list Q) (fs win_size i : Z) (w : Q * Q * Q) :
  0 <= i -> 0 <= win_size -> i + win_size <= len rectified ->
  window welch np_sqrt rectified time fs win_size i = Ok w ->
  let segment := firstn (Z.to_nat win_size) (skipn (Z.to_nat i) rectified) in
  len segment = win_size
  /\ item time (i + win_size / 2) = Ok (fst (fst w))
  /\ rms_of np_sqrt segment = Ok (snd (fst w))
  /\ mnf_of welch segment fs win_size = Ok (snd w).
Proof.
  intros Hi Hw Hfit Hwin segment.
  unfold window in Hwin. rewrite (slice_window rectified i win_size Hi Hw Hfit) in Hwin.
  fold segment in Hwin.
  split.
  { unfold len, segment. rewrite <- (slice_window rectified i win_size Hi Hw Hfit).
    rewrite slice_window_length by assumption. lia. }
  destruct (item time (i + win_size / 2)) as [t|e]; [|discriminate].
  cbn [lift bind] in Hwin.
  destruct (rms_of np_sqrt segment) as [rms|e]; [|discriminate]. cbn [bind] in Hwin.
  destruct (mnf_of welch segment fs win_size) as [mnf|e]; [|discriminate].
  cbn [bind] in Hwin. injection Hwin as <-. repeat split.
Qed.

(** C1. Feature extraction slides a window of [fs // 4] samples with stride
    [fs // 8] over the rectified signal: the windows start at
    [0, step, 2*step, ...], window [k] lies inside the signal and its
    features are those of the [win_size] rectified samples from index
    [k * step] on, its time that of the sample in its middle.  A recording
    of [N] samples gives [(N - win_size) // step + 1] windows when
    [N >= win_size] and none otherwise.  The windows [process_emg_file]
    extracts from a file are those of the rectified column of its data
    frame, so their count is the same. *)
Theorem C1_window_count (rectified times : list Q) (fs N : Z) :
  8 <= fs -> len rectified = N -> len times = N ->
  let win_size := fs / 4 in
  let step := fs / 8 in
  let count := if win_size <=? N then (N - win_size) / step + 1 else 0 in
  (exists ws,
     extract_features welch np_sqrt rectified times fs = Ok ws /\
     len ws = count /\
     Forall2 (fun k w =>
                let i := Z.of_nat k * step in
                let segment := firstn (Z.to_nat win_size) (skipn (Z.to_nat i) rectified) in
                i + win_size <= N
                /\ len segment = win_size
                /\ item times (i + win_size / 2) = Ok (fst (fst w))
                /\ rms_of np_sqrt segment = Ok (snd (fst w))
                /\ mnf_of welch segment fs win_size = Ok (snd w))
             (seq 0 (Z.to_nat count)) ws)
  /\ (forall lines v frame ws,
        features_of_file read_csv butter filtfilt welch np_sqrt lines v
        = Ok (frame, ws, fs) ->
        len (emg_raw frame) = N ->
        len (emg_rectified frame) = N /\ len (time frame) = N
        /\ extract_features welch np_sqrt (emg_rectified frame) (time frame) fs = Ok ws
        /\ len ws = count).
Proof.
  intros Hfs HN Htime win_size step count.
  assert (Hstep : 0 < step) by (apply Z.div_str_pos; lia).
  assert (Hwin : 0 < win_size) by (apply Z.div_str_pos; lia).
  split.
  - destruct (extract_features_windows rectified times fs N Hfs HN Htime)
      as [ws [Hrun [Hcount Hall]]].
    exists ws. split; [exact Hrun|]. split; [exact Hcount|].
    apply Forall2_seq_impl
      with (P := fun k w => window welch np_sqrt rectified times fs (fs / 4)
                              (Z.of_nat k * (fs / 8)) = Ok w);
      [|exact Hall].
    intros k w Hk Hw. cbv zeta.
    fold win_size in Hk, Hw |- *. fold step in Hk, Hw |- *.
    assert (Hfit : Z.of_nat k * step + win_size <= N).
    { destruct (Z.leb_spec win_size N); [|simpl in Hk; lia].
      assert (Z.of_nat k <= (N - win_size) / step) by lia.
      assert (step * ((N - win_size) / step) <= N - win_size) by (apply Z.mul_div_le; lia).
      nia. }
    split; [exact Hfit|].
    apply (window_contents rectified times fs win_size (Z.of_nat k * step) w);
      [nia | lia | rewrite HN; exact Hfit | exact Hw].
  - intros lines v frame ws. unfold features_of_file.
    destruct (as_int _) as [rate|e]; [|discriminate]. cbn [lift bind].
    destruct (py_div (inject_Z (rate / 4)) (inject_Z rate)) as [w|e]; [|discriminate].
    cbn [lift bind].
    destruct (read_csv lines (emg_column_index v)) as [raw|e]; [|discriminate].
    cbn [lift bind].
    destruct (mapM (fun k => np_div (inject_Z (Z.of_nat k)) (inject_Z rate))
                (seq 0 (List.length raw))) as [time'|e] eqn:Ht; [|discriminate].
    cbn [bind].
    destruct (as_int (resolution_bits v)) as [n_bits|e]; [|discriminate].
    cbn [lift bind].
    destruct (condition butter filtfilt raw n_bits rate) as [[[mv passed] rect]|e] eqn:Hc;
      [|discriminate].
    cbn [bind snd fst].
    destruct (extract_features welch np_sqrt rect time' rate) as [ws'|e] eqn:He; [|discriminate].
    cbn [bind]. intros H Hraw. injection H as Hframe Hws Hrate.
    rewrite <- Hframe in Hraw. simpl in Hraw.
    rewrite Hrate in Hc, Ht, He. rewrite Hws in He.
    destruct (condition_length butter filtfilt raw n_bits fs mv passed rect Hc) as [_ [_ Hrect]].
    assert (Htime' : len time' = N).
    { rewrite <- Hraw. unfold len. rewrite (mapM_length _ _ _ Ht), length_seq. reflexivity. }
    rewrite Hraw in Hrect.
    destruct (extract_features_windows rect time' fs N Hfs Hrect Htime')
      as [ws'' [Hrun [Hcount _]]].
    rewrite <- Hframe. cbn [emg_rectified time].
    split; [exact Hrect|]. split; [exact Htime'|]. split; [exact He|].
    rewrite Hrun in He. injection He as <-. exact Hcount.
Qed.

End Windows.

(** ** Features of a window *)

Lemma np_sum_zero (l : list Q) : Forall (fun x => x == 0) l -> np_sum l == 0.
Proof.
  induction 1 as [|x l Hx _ IH]; simpl; [reflexivity|].
  rewrite Hx, IH. reflexivity.
Qed.

Lemma np_sum_nonneg (l : list Q) : Forall (fun x => 0 <= x)%Q l -> (0 <= np_sum l)%Q.
Proof.
  induction 1 as [|x l Hx _ IH]; simpl; [apply Qle_refl|].
  replace 0%Q with (0 + 0)%Q by reflexivity. apply Qplus_le_compat; assumption.
Qed.

Lemma np_mul_nonneg (xs ys : list Q) :
  Forall (fun x => 0 <= x)%Q xs -> Forall (fun y => 0 <= y)%Q ys ->
  Forall (fun z => 0 <= z)%Q (np_mul xs ys).
Proof.
  intros Hx. revert ys. induction Hx as [|x xs Hx0 _ IH]; intros ys Hy; simpl; [constructor|].
  destruct Hy as [|y ys Hy0 Hy]; constructor.
  - apply Qmult_le_0_compat; assumption.
  - apply IH; exact Hy.
Qed.

Lemma squares_nonneg (l : list Q) : Forall (fun x => 0 <= x)%Q (map (fun x => x ^ 2)%Q l).
Proof.
  induction l as [|x l IH]; simpl; constructor; [|exact IH].
  change (0 <= x * x)%Q. apply Qsqr_nonneg.
Qed.

Lemma squares_zero (l : list Q) :
  Forall (fun x => x == 0) l -> Forall (fun x => x == 0) (map (fun x => x ^ 2)%Q l).
Proof.
  induction 1 as [|x l Hx _ IH]; simpl; constructor; [|exact IH].
  change (x * x == 0). rewrite Hx. reflexivity.
Qed.

Lemma len_positive {A} (l : list A) : l <> [] -> (0 < inject_Z (len l))%Q.
Proof.
  intros Hl. change 0%Q with (inject_Z 0). rewrite <- Zlt_Qlt.
  destruct l; [congruence|]. unfold len. simpl. lia.
Qed.

Lemma np_mean_nonneg (l : list Q) (m : Q) :
  Forall (fun x => 0 <= x)%Q l -> np_mean l = Ok m -> (0 <= m)%Q.
Proof.
  intros Hl Hm. destruct l as [|x l]; [discriminate|].
  rewrite np_mean_nonempty in Hm by discriminate. inversion Hm; subst.
  apply Qle_shift_div_l; [apply len_positive; discriminate|].
  rewrite Qmult_0_l. exact (np_sum_nonneg (x :: l) Hl).
Qed.

Lemma np_mean_zero (l : list Q) :
  l <> [] -> Forall (fun x => x == 0) l -> exists m, np_mean l = Ok m /\ m == 0.
Proof.
  intros Hne Hl. rewrite np_mean_nonempty by exact Hne.
  eexists; split; [reflexivity|].
  rewrite (np_sum_zero l Hl). unfold Qdiv. apply Qmult_0_l.
Qed.

Section Spectrum.

Variable welch : list Q -> Z -> Z -> list Q * list Q.
Variable np_sqrt : Q -> Q.

Lemma mnf_of_cases (segment : list Q) (fs win_size : Z) :
  let fP := welch segment fs (Z.min 128 win_size) in
  ((0 < np_sum (snd fP))%Q ->
     mnf_of welch segment fs win_size
     = Ok (np_sum (np_mul (fst fP) (snd fP)) / np_sum (snd fP))%Q)
  /\ ((np_sum (snd fP) <= 0)%Q -> mnf_of welch segment fs win_size = Ok 0%Q).
Proof.
  intros fP. unfold mnf_of. fold fP. split; intros H.
  - rewrite (proj2 (Qltb_lt 0 (np_sum (snd fP))) H).
    apply np_div_nonzero. intros H0. rewrite H0 in H. exact (Qlt_irrefl 0 H).
  - destruct (Qltb 0 (np_sum (snd fP))) eqn:Hlt; [|reflexivity].
    apply Qltb_lt in Hlt. exfalso. exact (Qlt_not_le _ _ Hlt H).
Qed.

Section Degenerate.

(** numpy's square root of zero is zero; Welch's estimate of a signal that
    is zero throughout is zero at every frequency. *)
Hypothesis np_sqrt_zero : forall x, x == 0 -> np_sqrt x == 0.
Hypothesis welch_zero : forall segment fs nperseg,
  Forall (fun x => x == 0) segment ->
  Forall (fun p => p == 0) (snd (welch segment fs nperseg)).

(** C7. The mean frequency of a window is [sum(f * Pxx) / sum(Pxx)] over
    the Welch estimate taken with [nperseg = min(128, win_size)], and 0 when
    [sum(Pxx)] is zero; it never divides by zero.  A window that is zero
    throughout has [rms = 0] and [mnf = 0]. *)
Theorem C7_mean_frequency (segment : list Q) (fs win_size : Z) :
  let fP := welch segment fs (Z.min 128 win_size) in
  let f := fst fP in
  let Pxx := snd fP in
  ((0 < np_sum Pxx)%Q ->
     mnf_of welch segment fs win_size = Ok (np_sum (np_mul f Pxx) / np_sum Pxx)%Q)
  /\ (np_sum Pxx == 0 -> mnf_of welch segment fs win_size = Ok 0%Q)
  /\ (exists v, mnf_of welch segment fs win_size = Ok v)
  /\ (segment <> [] -> Forall (fun x => x == 0) segment ->
        (exists rms, rms_of np_sqrt segment = Ok rms /\ rms == 0)
        /\ mnf_of welch segment fs win_size = Ok 0%Q).
Proof.
  intros fP f Pxx.
  destruct (mnf_of_cases segment fs win_size) as [Hpos Hzero].
  fold fP in Hpos, Hzero. fold f in Hpos. fold Pxx in Hpos, Hzero.
  split; [exact Hpos|]. split; [|split].
  - intros H0. apply Hzero. rewrite H0. apply Qle_refl.
  - destruct (Qlt_le_dec 0 (np_sum Pxx)) as [H|H].
    + eexists; exact (Hpos H).
    + eexists; exact (Hzero H).
  - intros Hne Hseg. split.
    + unfold rms_of.
      destruct (np_mean_zero (map (fun x => x ^ 2)%Q segment)) as [m [Hm Hm0]].
      * destruct segment; [congruence | discriminate].
      * apply squares_zero; exact Hseg.
      * rewrite Hm. cbn [bind]. eexists; split; [reflexivity|].
        apply np_sqrt_zero; exact Hm0.
    + apply Hzero. unfold Pxx, fP.
      rewrite (np_sum_zero _ (welch_zero segment fs (Z.min 128 win_size) Hseg)).
      apply Qle_refl.
Qed.

End Degenerate.

Section NonNegative.

(** numpy's square root of a non-negative number is non-negative; the
    frequencies and the densities of Welch's estimate are non-negative. *)
Hypothesis np_sqrt_nonneg : forall x, (0 <= x)%Q -> (0 <= np_sqrt x)%Q.
Hypothesis welch_nonneg : forall segment fs nperseg,
  Forall (fun x => 0 <= x)%Q (fst (welch segment fs nperseg))
  /\ Forall (fun p => 0 <= p)%Q (snd (welch segment fs nperseg)).

Lemma rms_of_nonneg (segment : list Q) (rms : Q) :
  rms_of np_sqrt segment = Ok rms -> (0 <= rms)%Q.
Proof.
  unfold rms_of. intros H.
  destruct (np_mean (map (fun x => x ^ 2)%Q segment)) as [m|e] eqn:Hm; [|discriminate].
  cbn [bind] in H. inversion H; subst.
  apply np_sqrt_nonneg. apply (np_mean_nonneg _ _ (squares_nonneg segment) Hm).
Qed.

Lemma mnf_of_nonneg (segment : list Q) (fs win_size : Z) (mnf : Q) :
  mnf_of welch segment fs win_size = Ok mnf -> (0 <= mnf)%Q.
Proof.
  intros H.
  destruct (welch_nonneg segment fs (Z.min 128 win_size)) as [Hf HP].
  destruct (mnf_of_cases segment fs win_size) as [Hpos Hzero].
  destruct (Qlt_le_dec 0 (np_sum (snd (welch segment fs (Z.min 128 win_size))))) as [Hs|Hs].
  - rewrite (Hpos Hs) in H. inversion H; subst.
    apply Qle_shift_div_l; [exact Hs|]. rewrite Qmult_0_l.
    apply np_sum_nonneg. apply np_mul_nonneg; assumption.
  - rewrite (Hzero Hs) in H. inversion H; subst. apply Qle_refl.
Qed.

(** C9. Every window produced by feature extraction has [rms >= 0] and
    [mnf >= 0]. *)
Theorem C9_features_nonnegative (rectified time : list Q) (fs : Z) (ws : list (Q * Q * Q)) :
  extract_features welch np_sqrt rectified time fs = Ok ws ->
  Forall (fun w => 0 <= snd (fst w) /\ 0 <= snd w)%Q ws.
Proof.
  unfold extract_features. intros H.
  destruct (py_range 0 (len rectified - fs / 4 + 1) (fs / 8)) as [starts|e]; [|discriminate].
  cbn [lift bind] in H. apply mapM_Forall2 in H.
  induction H as [|i w starts ws Hw _ IH]; constructor; [|exact IH].
  unfold window in Hw.
  destruct (item time (i + fs / 4 / 2)) as [t|e]; [|discriminate]. cbn [lift bind] in Hw.
  destruct (rms_of np_sqrt (slice rectified i (i + fs / 4))) as [rms|e] eqn:Hrms; [|discriminate].
  cbn [bind] in Hw.
  destruct (mnf_of welch (slice rectified i (i + fs / 4)) fs (fs / 4)) as [mnf|e] eqn:Hmnf;
    [|discriminate].
  cbn [bind] in Hw. inversion Hw; subst. simpl. split.
  - exact (rms_of_nonneg _ _ Hrms).
  - exact (mnf_of_nonneg _ _ _ _ Hmnf).
Qed.

End NonNegative.

End Spectrum.

(** ** Baseline *)

Lemma py_int_nonneg (x : Q) : (0 <= x)%Q -> py_int x = Qfloor x.
Proof.
  destruct x as [n d]. unfold Qle, py_int, Qfloor; simpl. intros H.
  apply Z.quot_div_nonneg; lia.
Qed.

Lemma slice_prefix {A} (l : list A) (k : Z) :
  0 <= k <= len l -> slice l 0 k = firstn (Z.to_nat k) l.
Proof.
  intros Hk. unfold slice.
  assert (H0 : clamp_index (len l) 0 = 0).
  { unfold clamp_index. simpl. pose proof (len_nonneg l). lia. }
  assert (Hk' : clamp_index (len l) k = k).
  { unfold clamp_index. destruct (Z.ltb_spec k 0); lia. }
  rewrite H0, Hk'. simpl. f_equal. lia.
Qed.

Lemma per_window_positive (fs : Z) :
  8 <= fs -> (0 < inject_Z (fs / 8) / inject_Z fs)%Q.
Proof.
  intros Hfs.
  assert (0 < fs / 8) by (apply Z.div_str_pos; lia).
  apply Qlt_shift_div_l.
  - change 0%Q with (inject_Z 0). rewrite <- Zlt_Qlt. lia.
  - rewrite Qmult_0_l. change 0%Q with (inject_Z 0). rewrite <- Zlt_Qlt. lia.
Qed.

Lemma per_window_bound (fs : Z) :
  8 <= fs -> (1 # 16 <= inject_Z (fs / 8) / inject_Z fs)%Q.
Proof.
  intros Hfs.
  assert (Hstep : 0 < fs / 8) by (apply Z.div_str_pos; lia).
  pose proof (Z.mul_succ_div_gt fs 8 ltac:(lia)) as Hgt.
  apply Qle_shift_div_l.
  - change 0%Q with (inject_Z 0). rewrite <- Zlt_Qlt. lia.
  - unfold Qle, Qmult, inject_Z; cbn [Qnum Qden]. lia.
Qed.

Lemma per_window_rounded (fs : Z) :
  8 <= fs -> (1 # 32 <= round64 (inject_Z (fs / 8) / inject_Z fs))%Q.
Proof.
  intros Hfs. pose proof (per_window_bound fs Hfs) as Hb.
  destruct (round64_bounds (inject_Z (fs / 8) / inject_Z fs)) as [Hlo _]; lra.
Qed.

Lemma baseline_quotient_bounds (d : Q) (fs : Z) :
  8 <= fs -> (0 <= d)%Q ->
  (0 <= round64 (round64 d / round64 (inject_Z (fs / 8) / inject_Z fs))
   /\ round64 (round64 d / round64 (inject_Z (fs / 8) / inject_Z fs)) <= 128 * d)%Q.
Proof.
  intros Hfs Hd.
  pose proof (per_window_rounded fs Hfs) as Hper.
  set (per := round64 (inject_Z (fs / 8) / inject_Z fs)) in *.
  assert (Hper0 : (0 < per)%Q) by lra.
  pose proof (round64_nonneg d Hd) as HD0.
  assert (HD : (round64 d <= 2 * d)%Q).
  { destruct (Qeq_dec d 0) as [E|E].
    - rewrite (round64_zero d E), E. discriminate.
    - destruct (round64_bounds d) as [_ H]; [lra | exact H]. }
  set (D := round64 d) in *.
  assert (Hq0 : (0 <= D / per)%Q).
  { apply Qle_shift_div_l; [exact Hper0|]. rewrite Qmult_0_l. exact HD0. }
  assert (Hq : (D / per <= 64 * d)%Q).
  { apply Qle_shift_div_r; [exact Hper0|]. nra. }
  split; [apply round64_nonneg; exact Hq0|].
  destruct (Qeq_dec (D / per) 0) as [E|E].
  - rewrite (round64_zero _ E). lra.
  - destruct (round64_bounds (D / per)) as [_ H]; lra.
Qed.

Lemma py_int_of_float_nonneg (x : Q) :
  (0 <= x)%Q -> (x < inject_Z (2 ^ 1024))%Q -> py_int_of_float x = Ok (Qfloor x).
Proof.
  intros H0 Hfin. unfold py_int_of_float.
  destruct (Qle_bool (inject_Z (2 ^ 1024)) (Qabs x)) eqn:Hle.
  - apply Qle_bool_iff in Hle. rewrite Qabs_pos in Hle by exact H0.
    exfalso. exact (Qlt_not_le _ _ Hfin Hle).
  - rewrite py_int_nonneg by exact H0. reflexivity.
Qed.

Lemma num_windows_nonneg (d : Q) (fs total : Z) :
  8 <= fs -> (0 <= d)%Q ->
  (round64 (round64 d / round64 (inject_Z (fs / 8) / inject_Z fs)) < inject_Z (2 ^ 1024))%Q ->
  num_windows_for_baseline d fs total
  = Ok (Z.min (Qfloor (round64 (round64 d / round64 (inject_Z (fs / 8) / inject_Z fs))))
          total)
  /\ 0 <= Qfloor (round64 (round64 d / round64 (inject_Z (fs / 8) / inject_Z fs))).
Proof.
  intros Hfs Hd Hfin.
  pose proof (per_window_rounded fs Hfs) as Hper.
  destruct (baseline_quotient_bounds d fs Hfs Hd) as [Hq _].
  split.
  - unfold num_windows_for_baseline.
    rewrite float_div_nonzero by (apply inject_Z_nonzero; lia). cbn [bind].
    rewrite float_div_nonzero by (intros H0; rewrite H0 in Hper; exact (Hper eq_refl)).
    cbn [bind]. rewrite py_int_of_float_nonneg by assumption. reflexivity.
  - change 0 with (Qfloor 0). apply Qfloor_resp_le. exact Hq.
Qed.

(** The 5 s of the script are far from the overflow. *)
Lemma five_seconds_finite (fs : Z) :
  8 <= fs ->
  (round64 (round64 5 / round64 (inject_Z (fs / 8) / inject_Z fs)) < inject_Z (2 ^ 1024))%Q.
Proof.
  intros Hfs.
  destruct (baseline_quotient_bounds 5 fs Hfs) as [_ H]; [discriminate|].
  apply Qle_lt_trans with (128 * 5)%Q; [exact H | reflexivity].
Qed.

(** C3 (as amended). For a baseline duration that is not negative, the
    number of baseline windows is [min(floor(q), total_windows)], where [q]
    is [baseline_duration_sec / (step / fs)] as the program computes it, each
    of the two divisions rounded to binary64, provided that [q] is finite
    (below [2^1024]).  When the number is 0 the baseline is (0, 0) and the
    warning is shown; otherwise the baseline is the mean of exactly the
    first [num] values of [rms_vals] and of [mnf_vals], and no window from
    index [num] on contributes: recordings that agree on their first [num]
    windows have the same baseline. *)
Theorem C3_baseline_prefix (d : Q) (fs : Z) (rms mnf : list Q) :
  8 <= fs -> (0 <= d)%Q -> len mnf = len rms ->
  (round64 (round64 d / round64 (inject_Z (fs / 8) / inject_Z fs)) < inject_Z (2 ^ 1024))%Q ->
  let q := round64 (round64 d / round64 (inject_Z (fs / 8) / inject_Z fs)) in
  let num := Z.min (Qfloor q) (len rms) in
  num_windows_for_baseline d fs (len rms) = Ok num
  /\ (num = 0 -> estimate_baseline d fs rms mnf = ([WarnBaseline], Ok (0%Q, 0%Q)))
  /\ (num <> 0 ->
        0 < num <= len rms
        /\ estimate_baseline d fs rms mnf
           = ([], Ok ((np_sum (firstn (Z.to_nat num) rms) / inject_Z num)%Q,
                      (np_sum (firstn (Z.to_nat num) mnf) / inject_Z num)%Q))
        /\ forall rms' mnf',
             len rms' = len rms -> len mnf' = len rms ->
             firstn (Z.to_nat num) rms' = firstn (Z.to_nat num) rms ->
             firstn (Z.to_nat num) mnf' = firstn (Z.to_nat num) mnf ->
             estimate_baseline d fs rms' mnf' = estimate_baseline d fs rms mnf).
Proof.
  intros Hfs Hd Hlen Hfin q num.
  destruct (num_windows_nonneg d fs (len rms) Hfs Hd Hfin) as [Hnum Hfloor].
  fold q in Hnum, Hfloor. fold num in Hnum.
  assert (Hrange : 0 <= num <= len rms).
  { unfold num. split; [apply Z.min_glb; [exact Hfloor | apply len_nonneg] | apply Z.le_min_r]. }
  split; [exact Hnum|]. split.
  - intros H0. unfold estimate_baseline. rewrite Hnum, H0. reflexivity.
  - intros Hnz.
    assert (Hmean : forall l, len l = len rms ->
              np_mean (slice l 0 num)
              = Ok (np_sum (firstn (Z.to_nat num) l) / inject_Z num)%Q).
    { intros l Hl. rewrite slice_prefix by lia.
      rewrite np_mean_nonempty.
      - unfold len at 1. rewrite length_firstn. unfold len in Hl, Hrange.
        replace (Z.of_nat (Nat.min (Z.to_nat num) (List.length l))) with num by lia.
        reflexivity.
      - intros Hnil. apply (f_equal (@List.length Q)) in Hnil.
        rewrite length_firstn in Hnil. simpl in Hnil. unfold len in Hl, Hrange. lia. }
    assert (Hcode : forall r m, len r = len rms -> len m = len rms ->
              estimate_baseline d fs r m
              = ([], Ok ((np_sum (firstn (Z.to_nat num) r) / inject_Z num)%Q,
                         (np_sum (firstn (Z.to_nat num) m) / inject_Z num)%Q))).
    { intros r m Hr Hm. unfold estimate_baseline. rewrite Hr, Hnum.
      destruct (Z.eqb_spec num 0); [contradiction|].
      rewrite (Hmean r Hr), (Hmean m Hm). reflexivity. }
    split; [lia|]. split.
    + apply Hcode; [reflexivity | exact Hlen].
    + intros rms' mnf' Hr Hm Hpr Hpm.
      rewrite (Hcode rms' mnf' Hr Hm), (Hcode rms mnf eq_refl Hlen), Hpr, Hpm. reflexivity.
Qed.

(** ** Classification *)

Lemma item_last {A} (init : list A) (x : A) : item (init ++ [x]) (-1) = Ok x.
Proof.
  unfold item, len. rewrite length_app. simpl.
  destruct (Z.ltb_spec (Z.of_nat (List.length init + 1) + -1) 0); [lia|].
  replace (Z.to_nat (Z.of_nat (List.length init + 1) + -1)) with (List.length init) by lia.
  rewrite nth_error_app2 by lia. rewrite Nat.sub_diag. reflexivity.
Qed.

Lemma change_percent_defined (final baseline : Q) :
  ~ baseline == 0 ->
  change_percent final baseline
  = Ok (round64 (round64 (round64 (final - baseline) / baseline) * 100)).
Proof.
  intros Hb. unfold change_percent.
  destruct (Qeq_bool baseline 0) eqn:Heq.
  - apply Qeq_bool_iff in Heq. contradiction.
  - simpl. rewrite np_float_div_nonzero by exact Hb. reflexivity.
Qed.

Lemma guard_true (a : analysis) :
  guard a = true
  <-> 0 < len (t_vals a) /\ ~ rms_baseline a == 0 /\ ~ mnf_baseline a == 0.
Proof.
  unfold guard. rewrite !andb_true_iff, !negb_true_iff, Z.ltb_lt.
  split.
  - intros [[Ht Hr] Hm]. repeat split; [exact Ht | |]; intros H; apply Qeq_bool_iff in H; congruence.
  - intros [Ht [Hr Hm]]. repeat split; [exact Ht | |]; apply Qeq_bool_false; assumption.
Qed.

Lemma fatigue_report_open (a : analysis) (threshold_mnf threshold_rms alpha : Q)
  (rms_init mnf_init : list Q) (final_rms final_mnf : Q) (trend_msgs : list diag) :
  guard a = true ->
  rms_vals a = rms_init ++ [final_rms] ->
  mnf_vals a = mnf_init ++ [final_mnf] ->
  trend_report a alpha = Ok trend_msgs ->
  let rms_change :=
    round64 (round64 (round64 (final_rms - rms_baseline a) / rms_baseline a) * 100) in
  let mnf_change :=
    round64 (round64 (round64 (final_mnf - mnf_baseline a) / mnf_baseline a) * 100) in
  fatigue_report a threshold_mnf threshold_rms alpha
  = Ok ([ShowChange rms_change mnf_change;
         StatusPercent
           (combined (Qle_bool mnf_change threshold_mnf)
                     (Qle_bool rms_change threshold_rms))]
        ++ trend_msgs ++ [InfoNote]).
Proof.
  intros Hguard Hrms Hmnf Htrend rms_change mnf_change.
  unfold fatigue_report. rewrite Hguard.
  apply guard_true in Hguard. destruct Hguard as [_ [Hrb Hmb]].
  rewrite Hrms, Hmnf, !item_last. cbn [lift bind].
  rewrite !change_percent_defined by assumption. cbn [bind].
  rewrite Htrend. reflexivity.
Qed.

Lemma fatigue_report_closed (a : analysis) (threshold_mnf threshold_rms alpha : Q) :
  guard a = false -> fatigue_report a threshold_mnf threshold_rms alpha = Ok [].
Proof.
  intros Hguard. unfold fatigue_report. rewrite Hguard. reflexivity.
Qed.

(** C4. The percentage rule is evaluated only when a window exists and both
    baseline components are non-zero: otherwise the fatigue section shows
    nothing.  When it is evaluated it takes the final window, computes
    [(final - baseline) / baseline * 100] for RMS and for MNF (in binary64,
    each operation rounded), flags fatigue by MNF iff the MNF change is at
    most its threshold and fatigue by RMS iff the RMS change is at most its
    threshold, and reports both / MNF only / RMS only / neither, in this
    order of priority.  With baselines 1.0 and 100, final values 0.85 and 95
    and both thresholds at -10 the verdict is RMS only. *)
Theorem C4_percentage_rule (a : analysis) (threshold_mnf threshold_rms alpha : Q) :
  (~ (0 < len (t_vals a) /\ ~ rms_baseline a == 0 /\ ~ mnf_baseline a == 0) ->
     fatigue_report a threshold_mnf threshold_rms alpha = Ok [])
  /\ (0 < len (t_vals a) /\ ~ rms_baseline a == 0 /\ ~ mnf_baseline a == 0 ->
      forall rms_init mnf_init final_rms final_mnf trend_msgs,
        rms_vals a = rms_init ++ [final_rms] ->
        mnf_vals a = mnf_init ++ [final_mnf] ->
        trend_report a alpha = Ok trend_msgs ->
        let rms_change :=
          round64 (round64 (round64 (final_rms - rms_baseline a) / rms_baseline a) * 100) in
        let mnf_change :=
          round64 (round64 (round64 (final_mnf - mnf_baseline a) / mnf_baseline a) * 100) in
        let is_fatigue_mnf := Qle_bool mnf_change threshold_mnf in
        let is_fatigue_rms := Qle_bool rms_change threshold_rms in
        fatigue_report a threshold_mnf threshold_rms alpha
        = Ok ([ShowChange rms_change mnf_change;
               StatusPercent (combined is_fatigue_mnf is_fatigue_rms)]
              ++ trend_msgs ++ [InfoNote])
        /\ (is_fatigue_mnf = true <-> (mnf_change <= threshold_mnf)%Q)
        /\ (is_fatigue_rms = true <-> (rms_change <= threshold_rms)%Q))
  /\ (combined true true = Both /\ combined true false = MnfOnly
      /\ combined false true = RmsOnly /\ combined false false = Neither)
  /\ fatigue_report one_window (-10) (-10) alpha
     = Ok [ShowChange (round64 (round64 (round64 (round64 (85 # 100) - 1) / 1) * 100))
                      (round64 (round64 (round64 (95 - 100) / 100) * 100));
           StatusPercent RmsOnly; WarnTrend; InfoNote].
Proof.
  split; [|split; [|split]].
  - intros Hguard. apply fatigue_report_closed.
    destruct (guard a) eqn:Hg; [|reflexivity].
    apply guard_true in Hg. contradiction.
  - intros Hguard rms_init mnf_init final_rms final_mnf trend_msgs Hrms Hmnf Htrend
      rms_change mnf_change is_fatigue_mnf is_fatigue_rms.
    apply guard_true in Hguard.
    split; [|split].
    + apply (fatigue_report_open a _ _ _ rms_init mnf_init); assumption.
    + apply Qle_bool_iff.
    + apply Qle_bool_iff.
  - repeat split.
  - vm_compute. reflexivity.
Qed.

Section Trend.

Variable linregress : list Q -> list Q -> Q * Q.

(** The analysis returned for given windows and baseline: the trend fields
    are those of lines 120-124. *)
Lemma trend_short (t r m : list Q) :
  len t <= 1 -> trend linregress t r m = (None, None).
Proof.
  intros H. unfold trend. destruct (Z.ltb_spec 1 (len t)); [lia | reflexivity].
Qed.

Lemma trend_long (t r m : list Q) :
  1 < len t -> trend linregress t r m = (Some (linregress t r), Some (linregress t m)).
Proof.
  intros H. unfold trend. destruct (Z.ltb_spec 1 (len t)); [reflexivity | lia].
Qed.

(** C5 (as amended). The trend results exist iff more than one window
    exists.  The trend rule is reported under the guard of the percentage
    rule only: there, without trend results the classification is skipped
    with a warning; with them, fatigue by trend holds for MNF iff
    [slope_mnf < 0] and [p_value_mnf < alpha] (the same for RMS), and the
    four-way verdict is shown as a trend status of its own, after the
    percentage status.  When the guard fails neither is shown. *)
Theorem C5_trend_rule (d : dataframe) (t r m : list Q)
  (rb mb threshold_mnf threshold_rms alpha : Q) :
  let tr := trend linregress t r m in
  let a := mk_analysis d t r m rb mb
             (option_map fst (fst tr)) (option_map snd (fst tr))
             (option_map fst (snd tr)) (option_map snd (snd tr)) in
  let s_rms := fst (linregress t r) in
  let p_rms := snd (linregress t r) in
  let s_mnf := fst (linregress t m) in
  let p_mnf := snd (linregress t m) in
  let by_mnf := Qltb s_mnf 0 && Qltb p_mnf alpha in
  let by_rms := Qltb s_rms 0 && Qltb p_rms alpha in
  (len t <= 1 ->
     slope_rms a = None /\ p_value_rms a = None
     /\ slope_mnf a = None /\ p_value_mnf a = None
     /\ trend_report a alpha = Ok [WarnTrend])
  /\ (1 < len t ->
        slope_rms a = Some s_rms /\ p_value_rms a = Some p_rms
        /\ slope_mnf a = Some s_mnf /\ p_value_mnf a = Some p_mnf
        /\ trend_report a alpha
           = Ok [ShowSlopes s_rms p_rms s_mnf p_mnf; StatusTrend (combined by_mnf by_rms)])
  /\ (by_mnf = true <-> (s_mnf < 0 /\ p_mnf < alpha)%Q)
  /\ (by_rms = true <-> (s_rms < 0 /\ p_rms < alpha)%Q)
  /\ (guard a = false -> fatigue_report a threshold_mnf threshold_rms alpha = Ok [])
  /\ (guard a = true ->
        forall r0 final_rms m0 final_mnf,
          r = r0 ++ [final_rms] -> m = m0 ++ [final_mnf] ->
          exists rms_change mnf_change v trend_msgs,
            trend_report a alpha = Ok trend_msgs
            /\ fatigue_report a threshold_mnf threshold_rms alpha
               = Ok ([ShowChange rms_change mnf_change; StatusPercent v]
                     ++ trend_msgs ++ [InfoNote])).
Proof.
  intros tr a s_rms p_rms s_mnf p_mnf by_mnf by_rms.
  assert (Hshort : len t <= 1 ->
            slope_rms a = None /\ p_value_rms a = None
            /\ slope_mnf a = None /\ p_value_mnf a = None
            /\ trend_report a alpha = Ok [WarnTrend]).
  { intros Hlen. unfold a, tr, trend_report. simpl.
    rewrite (trend_short t r m Hlen). simpl. repeat split. }
  assert (Hlong : 1 < len t ->
            slope_rms a = Some s_rms /\ p_value_rms a = Some p_rms
            /\ slope_mnf a = Some s_mnf /\ p_value_mnf a = Some p_mnf
            /\ trend_report a alpha
               = Ok [ShowSlopes s_rms p_rms s_mnf p_mnf; StatusTrend (combined by_mnf by_rms)]).
  { intros Hlen. unfold a, tr, trend_report. simpl.
    rewrite (trend_long t r m Hlen). simpl. repeat split. }
  split; [exact Hshort|]. split; [exact Hlong|].
  split; [|split; [|split]].
  - unfold by_mnf. rewrite andb_true_iff, !Qltb_lt. reflexivity.
  - unfold by_rms. rewrite andb_true_iff, !Qltb_lt. reflexivity.
  - apply fatigue_report_closed.
  - intros Hguard r0 final_rms m0 final_mnf Hr Hm.
    assert (Htrend : exists trend_msgs, trend_report a alpha = Ok trend_msgs).
    { destruct (Z.ltb_spec 1 (len t)) as [Hlen|Hlen].
      - destruct (Hlong Hlen) as [_ [_ [_ [_ H]]]]. eexists; exact H.
      - destruct (Hshort Hlen) as [_ [_ [_ [_ H]]]]. eexists; exact H. }
    destruct Htrend as [trend_msgs Htrend].
    do 3 eexists. exists trend_msgs. split; [exact Htrend|].
    apply (fatigue_report_open a _ _ _ r0 m0 final_rms final_mnf); assumption.
Qed.

End Trend.

(** ** The header and the result of the pipeline *)

Section Process.

Variable json_loads : string -> option json.
Variable read_csv : list string -> Z -> res exn (list Z).
Variable butter : nat -> Q -> Q -> btype -> res exn (list Q * list Q).
Variable filtfilt : list Q -> list Q -> list Q -> res exn (list Q).
Variable welch : list Q -> Z -> Z -> list Q * list Q.
Variable linregress : list Q -> list Q -> Q * Q.
Variable np_sqrt : Q -> Q.

Lemma extract_header_absent (lines : list string) :
  has_header lines = false ->
  extract_header json_loads lines = ([WarnHeaderMissing], Some default_vars).
Proof.
  intros H. unfold extract_header, try_header. rewrite H. reflexivity.
Qed.

Lemma extract_header_no_channel (lines : list string)
  (device_id : string) (entries : list (string * json)) (others : list (string * json)) :
  has_header lines = true ->
  json_loads (strip (drop_first (nth 1 lines EmptyString)))
  = Some (JObj ((device_id, JObj entries) :: others)) ->
  py_in "A1" (dict_get entries "column" (JArr [])) = Ok false ->
  extract_header json_loads lines = ([ErrChannelMissing], None).
Proof.
  intros Hh Hj Hin. unfold extract_header, try_header.
  rewrite Hh, Hj. unfold read_header. rewrite Hin. reflexivity.
Qed.

(** Everything [process_emg_file] shows or returns after the header comes
    from the variables the header left. *)
Lemma process_after_header (lines : list string) (d : Q) (log : list diag) (v : header_vars) :
  extract_header json_loads lines = (log, Some v) ->
  exists log' outcome,
    process_emg_file json_loads read_csv butter filtfilt welch linregress np_sqrt lines d
    = (log ++ log', outcome)
    /\ outcome <> Ok NoneTuple
    /\ (forall e, features_of_file read_csv butter filtfilt welch np_sqrt lines v = Err e ->
          log' = [] /\ outcome = Err e).
Proof.
  intros Hh. unfold process_emg_file. rewrite Hh.
  destruct (features_of_file read_csv butter filtfilt welch np_sqrt lines v)
    as [[[df ws] fsz]|e] eqn:Hf.
  - destruct (estimate_baseline d fsz (map (fun w => snd (fst w)) ws) (map (fun w => snd w) ws))
      as [log' [[rb mb]|e]].
    + do 2 eexists. split; [reflexivity|]. split; [discriminate|]. intros e He; discriminate.
    + do 2 eexists. split; [reflexivity|]. split; [discriminate|]. intros e' He; discriminate.
  - exists [], (Err e). rewrite app_nil_r. split; [reflexivity|].
    split; [discriminate|]. intros e' He. inversion He; subst. split; reflexivity.
Qed.


(** C6. A header line that decodes to JSON and whose column layout has no
    channel "A1" makes [process_emg_file] show an error and return the tuple
    of [None]; the script then stops at the unpacking and shows no computed
    result.  Without a header line the pipeline warns and goes on with the
    defaults 1000 Hz, column 5, 10 bits. *)
Theorem C6_missing_channel (lines : list string) (device_id : string)
  (entries others : list (string * json)) (d threshold_mnf threshold_rms alpha : Q) :
  has_header lines = true ->
  json_loads (strip (drop_first (nth 1 lines EmptyString)))
  = Some (JObj ((device_id, JObj entries) :: others)) ->
  py_in "A1" (dict_get entries "column" (JArr [])) = Ok false ->
  process_emg_file json_loads read_csv butter filtfilt welch linregress np_sqrt lines d
  = ([ErrChannelMissing], Ok NoneTuple)
  /\ app json_loads read_csv butter filtfilt welch linregress np_sqrt
       (Some lines) threshold_mnf threshold_rms alpha
     = ([ErrChannelMissing], Err (Raised ValueError))
  /\ (forall lines',
        has_header lines' = false ->
        extract_header json_loads lines' = ([WarnHeaderMissing], Some default_vars)
        /\ fs default_vars = JInt 1000
        /\ emg_column_index default_vars = 5
        /\ resolution_bits default_vars = JInt 10
        /\ exists log' outcome,
             process_emg_file json_loads read_csv butter filtfilt welch linregress np_sqrt
               lines' d
             = (WarnHeaderMissing :: log', outcome)
             /\ outcome <> Ok NoneTuple
             /\ (forall e,
                   features_of_file read_csv butter filtfilt welch np_sqrt lines' default_vars
                   = Err e -> outcome = Err e)).
Proof.
  intros Hh Hj Hin.
  assert (Hp : process_emg_file json_loads read_csv butter filtfilt welch linregress np_sqrt
                 lines d = ([ErrChannelMissing], Ok NoneTuple)).
  { unfold process_emg_file.
    rewrite (extract_header_no_channel lines device_id entries others Hh Hj Hin).
    reflexivity. }
  split; [exact Hp|]. split.
  - unfold app, process_emg_file.
    rewrite (extract_header_no_channel lines device_id entries others Hh Hj Hin).
    reflexivity.
  - intros lines' Hno.
    pose proof (extract_header_absent lines' Hno) as Hdef.
    split; [exact Hdef|]. repeat (split; [reflexivity|]).
    destruct (process_after_header lines' d _ _ Hdef) as [log' [outcome [Hrun [Hnot Herr]]]].
    exists log', outcome. split; [exact Hrun|]. split; [exact Hnot|].
    intros e He. apply (Herr e He).
Qed.

End Process.

(** ** The theorems on sample recordings *)

Lemma sample_sqrt_nonneg (x : Q) : (0 <= x)%Q -> (0 <= sample_sqrt x)%Q.
Proof.
  intros _. unfold sample_sqrt. change 0%Q with (inject_Z 0).
  rewrite <- Zle_Qle. apply Z.sqrt_nonneg.
Qed.

Lemma sample_sqrt_zero (x : Q) : x == 0 -> sample_sqrt x == 0.
Proof.
  intros Hx. unfold sample_sqrt. rewrite Hx. reflexivity.
Qed.

Lemma sample_welch_nonneg (segment : list Q) (fs nperseg : Z) :
  Forall (fun x => 0 <= x)%Q (fst (sample_welch segment fs nperseg))
  /\ Forall (fun p => 0 <= p)%Q (snd (sample_welch segment fs nperseg)).
Proof.
  unfold sample_welch; simpl. split.
  - apply Forall_forall. intros x Hx. apply in_map_iff in Hx.
    destruct Hx as [k [<- _]]. change 0%Q with (inject_Z 0). rewrite <- Zle_Qle. lia.
  - apply Forall_forall. intros x Hx. apply in_map_iff in Hx.
    destruct Hx as [y [<- _]]. apply Qsqr_nonneg.
Qed.

Lemma sample_welch_zero (segment : list Q) (fs nperseg : Z) :
  Forall (fun x => x == 0) segment ->
  Forall (fun p => p == 0) (snd (sample_welch segment fs nperseg)).
Proof.
  unfold sample_welch; simpl.
  induction 1 as [|x l Hx _ IH]; simpl; constructor; [|exact IH].
  rewrite Hx. reflexivity.
Qed.

Lemma sample_filtfilt_pad (b a x : list Q) :
  len x <= padlen b a -> sample_filtfilt b a x = Err ValueError.
Proof.
  intros H. unfold sample_filtfilt.
  destruct (Z.leb_spec (len x) (padlen b a)); [reflexivity | lia].
Qed.

Lemma sample_butter_critical (order : nat) (low high : Q) (kind : btype) :
  ~ (0 < low /\ high < 1)%Q -> sample_butter order low high kind = Err ValueError.
Proof.
  intros H. unfold sample_butter.
  destruct (Qltb 0 low) eqn:H0; [|reflexivity].
  destruct (Qltb high 1) eqn:H1; [|rewrite andb_false_r; reflexivity].
  exfalso. apply H. split; apply Qltb_lt; assumption.
Qed.

Lemma C1_window_count_witness :
  (exists ws,
     extract_features sample_welch sample_sqrt (repeat 0%Q 4000) (repeat 0%Q 4000) 1000 = Ok ws
     /\ len ws = 31)
  /\ (exists w0 w1,
        extract_features sample_welch sample_sqrt [1; 2; 3]%Q [0; 1 # 8; 2 # 8]%Q 8
        = Ok [w0; w1]
        /\ rms_of sample_sqrt [1; 2]%Q = Ok (snd (fst w0))
        /\ mnf_of sample_welch [1; 2]%Q 8 2 = Ok (snd w0)
        /\ item [0; 1 # 8; 2 # 8]%Q 1 = Ok (fst (fst w0))
        /\ rms_of sample_sqrt [2; 3]%Q = Ok (snd (fst w1))
        /\ mnf_of sample_welch [2; 3]%Q 8 2 = Ok (snd w1)
        /\ item [0; 1 # 8; 2 # 8]%Q 2 = Ok (fst (fst w1))).
Proof.
  split.
  - destruct (C1_window_count sample_read_csv sample_butter sample_filtfilt
                sample_welch sample_sqrt (repeat 0%Q 4000) (repeat 0%Q 4000) 1000 4000)
      as [[ws [Hrun [Hcount _]]] _].
    + lia.
    + vm_compute; reflexivity.
    + vm_compute; reflexivity.
    + exists ws. split; [exact Hrun | exact Hcount].
  - destruct (C1_window_count sample_read_csv sample_butter sample_filtfilt
                sample_welch sample_sqrt [1; 2; 3]%Q [0; 1 # 8; 2 # 8]%Q 8 3)
      as [[ws [Hrun [_ Hall]]] _].
    + lia.
    + reflexivity.
    + reflexivity.
    + change (seq 0 (Z.to_nat (if 8 / 4 <=? 3 then (3 - 8 / 4) / (8 / 8) + 1 else 0)))
        with [0%nat; 1%nat] in Hall.
      inversion Hall as [|k0 w0 ks0 ws0 H0 Hall0]; subst.
      inversion Hall0 as [|k1 w1 ks1 ws1 H1 Hall1]; subst.
      inversion Hall1; subst.
      cbv zeta in H0, H1.
      destruct H0 as [_ [_ [Ht0 [Hr0 Hm0]]]].
      destruct H1 as [_ [_ [Ht1 [Hr1 Hm1]]]].
      exists w0, w1. split; [exact Hrun|].
      split; [exact Hr0|]. split; [exact Hm0|]. split; [exact Ht0|].
      split; [exact Hr1|]. split; [exact Hm1|]. exact Ht1.
Defined.

Lemma C2_calibration_witness :
  mapM (fun raw => convert_to_mv raw 10 default_vcc default_gain) [0; 512; 1023]
  = Ok (map (fun raw => ((inject_Z raw / 2 ^ 10 - (1 # 2)) * default_vcc * 1000
                         / default_gain)%Q) [0; 512; 1023]).
Proof.
  apply (C2_calibration [0; 512; 1023] 10 default_vcc default_gain).
  discriminate.
Defined.

(** Against C3 as it was stated.  [int] truncates where the claim takes
    the floor: a duration of -0.05 s gives no baseline window where the
    floor is -1, and a duration of -1 s gives [num = -8], the slice
    [[:-8]] and the mean of the first two of ten windows.  The quotient is
    the rounded one: for the float [5.85] at 940 Hz the program counts 47
    windows where the floor of the exact quotient is 46; and a duration of
    [2^1023] s gives an infinite quotient, on which [int] raises.  The
    prefix need not be a proper one: with three windows and 5 s all three
    are taken, and the last one changes the baseline. *)
Lemma C3_counterexample_baseline_count :
  num_windows_for_baseline (-1 # 20) 1000 10 = Ok 0
  /\ Z.min (Qfloor (round64 (round64 (-1 # 20)
                             / round64 (inject_Z (1000 / 8) / inject_Z 1000)))) 10
     = -1
  /\ Z.min (Qfloor ((-1 # 20) / (inject_Z (1000 / 8) / inject_Z 1000))) 10 = -1
  /\ num_windows_for_baseline (-1) 1000 10 = Ok (-8)
  /\ estimate_baseline (-1) 1000 [1; 2; 3; 4; 5; 6; 7; 8; 9; 10]%Q
       [10; 20; 30; 40; 50; 60; 70; 80; 90; 100]%Q
     = ([], Ok ((np_sum [1; 2] / 2)%Q, (np_sum [10; 20] / 2)%Q))
  /\ num_windows_for_baseline (round64 (585 # 100)) 940 100 = Ok 47
  /\ Z.min (Qfloor (round64 (585 # 100) / (inject_Z (940 / 8) / inject_Z 940))) 100 = 46
  /\ num_windows_for_baseline (inject_Z (2 ^ 1023)) 1000 10 = Err OverflowError
  /\ estimate_baseline (inject_Z (2 ^ 1023)) 1000 [1; 2]%Q [10; 20]%Q
     = ([], Err (Raised OverflowError))
  /\ num_windows_for_baseline 5 1000 (len [2; 4; 6]%Q) = Ok (len [2; 4; 6]%Q)
  /\ estimate_baseline 5 1000 [2; 4; 6]%Q [20; 40; 60]%Q
     = ([], Ok ((np_sum [2; 4; 6] / 3)%Q, (np_sum [20; 40; 60] / 3)%Q))
  /\ estimate_baseline 5 1000 [2; 4; 9]%Q [20; 40; 60]%Q
     = ([], Ok ((np_sum [2; 4; 9] / 3)%Q, (np_sum [20; 40; 60] / 3)%Q)).
Proof.
  repeat split; vm_compute; reflexivity.
Qed.

Lemma C3_baseline_prefix_witness :
  num_windows_for_baseline (1 # 4) 1000 3 = Ok 2
  /\ estimate_baseline (1 # 4) 1000 [2; 4; 6]%Q [20; 40; 60]%Q
     = ([], Ok ((np_sum [2; 4] / 2)%Q, (np_sum [20; 40] / 2)%Q))
  /\ estimate_baseline (1 # 4) 1000 [2; 4; 100]%Q [20; 40; 7]%Q
     = estimate_baseline (1 # 4) 1000 [2; 4; 6]%Q [20; 40; 60]%Q.
Proof.
  pose proof (C3_baseline_prefix (1 # 4) 1000 [2; 4; 6]%Q [20; 40; 60]%Q) as H.
  cbv zeta in H.
  destruct H as [Hnum [_ H]].
  - lia.
  - discriminate.
  - reflexivity.
  - vm_compute. reflexivity.
  - destruct H as [_ [Hmean Hrest]]; [vm_compute; discriminate|].
    split; [exact Hnum|]. split; [exact Hmean|].
    apply Hrest; reflexivity.
Defined.

Lemma C4_percentage_rule_witness :
  fatigue_report one_window (-10) (-10) (5 # 100)
  = Ok [ShowChange (round64 (round64 (round64 (round64 (85 # 100) - 1) / 1) * 100))
                   (round64 (round64 (round64 (95 - 100) / 100) * 100));
        StatusPercent RmsOnly; WarnTrend; InfoNote]
  /\ fatigue_report
       (mk_analysis (mk_df [] [] [] [] []) [] [] [] 0 0 None None None None)
       (-10) (-10) (5 # 100)
     = Ok [].
Proof.
  split.
  - destruct (C4_percentage_rule one_window (-10) (-10) (5 # 100)) as [_ [H _]].
    destruct H with (rms_init := @nil Q) (mnf_init := @nil Q)
                    (final_rms := round64 (85 # 100)) (final_mnf := 95%Q)
                    (trend_msgs := [WarnTrend]) as [Hreport _].
    + split; [reflexivity | split; discriminate].
    + reflexivity.
    + reflexivity.
    + reflexivity.
    + vm_compute in Hreport. vm_compute. exact Hreport.
  - destruct (C4_percentage_rule
                (mk_analysis (mk_df [] [] [] [] []) [] [] [] 0 0 None None None None)
                (-10) (-10) (5 # 100)) as [H _].
    apply H. intros [Hlen _]. discriminate Hlen.
Defined.

Lemma C5_counterexample_no_windows :
  option_map t_vals (computed (sample_process short_recording 5)) = Some []
  /\ option_map slope_rms (computed (sample_process short_recording 5)) = Some None
  /\ option_map slope_mnf (computed (sample_process short_recording 5)) = Some None
  /\ sample_app (Some short_recording) (-10) (-10) (5 # 100)
     = ([WarnHeaderMissing; WarnBaseline; Success], Ok tt)
  /\ ~ In WarnTrend (fst (sample_app (Some short_recording) (-10) (-10) (5 # 100))).
Proof.
  assert (H : sample_app (Some short_recording) (-10) (-10) (5 # 100)
              = ([WarnHeaderMissing; WarnBaseline; Success], Ok tt))
    by (vm_compute; reflexivity).
  split; [vm_compute; reflexivity|].
  split; [vm_compute; reflexivity|].
  split; [vm_compute; reflexivity|].
  split; [exact H|].
  rewrite H. simpl. intros [H1|[H1|[H1|[]]]]; discriminate.
Qed.

Lemma C5_trend_rule_witness :
  trend_report
    (mk_analysis (mk_df [] [] [] [] []) [1 # 8; 2 # 8] [1; 2]%Q [3; 4]%Q 1 3
       (Some 0%Q) (Some 1%Q) (Some 0%Q) (Some 1%Q)) (5 # 100)
  = Ok [ShowSlopes 0 1 0 1; StatusTrend Neither].
Proof.
  destruct (C5_trend_rule sample_linregress (mk_df [] [] [] [] [])
              [1 # 8; 2 # 8] [1; 2]%Q [3; 4]%Q 1 3 (-10) (-10) (5 # 100))
    as [_ [H _]].
  destruct H as [_ [_ [_ [_ H]]]]; [reflexivity | exact H].
Defined.

Lemma C6_missing_channel_witness :
  sample_process recording_without_a1 5 = ([ErrChannelMissing], Ok NoneTuple)
  /\ sample_app (Some recording_without_a1) (-10) (-10) (5 # 100)
     = ([ErrChannelMissing], Err (Raised ValueError)).
Proof.
  destruct (C6_missing_channel sample_loads sample_read_csv sample_butter sample_filtfilt
              sample_welch sample_linregress sample_sqrt recording_without_a1
              "98:D3:31:B2:BB:7F"
              [("sampling rate"%string, JInt 1000);
               ("column"%string, JArr [JStr "nSeq"; JStr "A2"]);
               ("resolution"%string, JArr [JInt 4; JInt 10])]
              [] 5 (-10) (-10) (5 # 100)) as [H1 [H2 _]].
  - reflexivity.
  - vm_compute; reflexivity.
  - reflexivity.
  - split; [exact H1 | exact H2].
Defined.

Lemma C7_mean_frequency_witness :
  (exists rms, rms_of sample_sqrt [0; 0]%Q = Ok rms /\ rms == 0)
  /\ mnf_of sample_welch [0; 0]%Q 1000 250 = Ok 0%Q.
Proof.
  destruct (C7_mean_frequency sample_welch sample_sqrt sample_sqrt_zero sample_welch_zero
              [0; 0]%Q 1000 250) as [_ [_ [_ H]]].
  apply H.
  - discriminate.
  - repeat constructor.
Defined.

Lemma C8_short_signal_witness :
  condition sample_butter sample_filtfilt (repeat 512 10) 10 1000 = Err (Raised ValueError).
Proof.
  destruct (C8_short_signal sample_butter sample_filtfilt sample_filtfilt_pad
              (repeat 512 10) 10 1000
              ((50 - 1) / (inject_Z 1000 / 2))%Q ((50 + 1) / (inject_Z 1000 / 2))%Q
              (repeat 1%Q 5) (repeat 1%Q 5)) as [H _].
  - vm_compute; discriminate.
  - destruct H as [_ H]; [vm_compute; reflexivity .. | exact H].
Defined.

Lemma C9_features_nonnegative_witness :
  Forall (fun w => 0 <= snd (fst w) /\ 0 <= snd w)%Q
    [(1 # 8, 1%Q, 4 # 5); (2 # 8, 2%Q, 9 # 13)].
Proof.
  apply (C9_features_nonnegative sample_welch sample_sqrt sample_sqrt_nonneg
           sample_welch_nonneg [1; 2; 3]%Q [0; 1 # 8; 2 # 8]%Q 8).
  vm_compute; reflexivity.
Defined.

(** Against C10 as it was stated.  A header that declares 500 Hz and no
    channel [A1]: the function shows the message of line 60 and returns the
    tuple of line 61 before any filter is designed; nothing is raised.  The
    same forty samples under a header that declares 500 Hz and [A1] end in
    [ValueError]. *)
Lemma C10_counterexample_missing_channel :
  sample_loads_500hz text_500hz_without_a1
  = Some (header_json 500 ["nSeq"; "A2"]%string [4; 10])
  /\ process_emg_file sample_loads_500hz sample_read_csv sample_butter sample_filtfilt
       sample_welch sample_linregress sample_sqrt recording_500hz_without_a1 5
     = ([ErrChannelMissing], Ok NoneTuple)
  /\ process_emg_file sample_loads_500hz sample_read_csv sample_butter sample_filtfilt
       sample_welch sample_linregress sample_sqrt recording_500hz 5
     = ([], Err (Raised ValueError)).
Proof.
  repeat split; vm_compute; reflexivity.
Qed.

Lemma C10_low_sampling_rate_witness :
  exists e, sample_process recording_500hz 5 = ([], Err (Raised e)).
Proof.
  destruct (C10_low_sampling_rate sample_butter sample_filtfilt sample_loads sample_read_csv
              sample_welch sample_linregress sample_sqrt sample_butter_critical 500)
    as [_ [_ [_ H]]].
  - lia.
  - apply (H recording_500hz 5%Q []
             {| fs := JInt 500; resolution_bits := JInt 10; emg_column_index := 1 |}).
    + vm_compute; reflexivity.
    + reflexivity.
Defined.

(** The worked examples with the primitive floating-point operations: the
    mid-scale count maps to exactly [0.0]; the RMS change of the example is
    at most [-10] and the MNF change is not.  On these inputs, and on two
    inputs where the rounding decides the result, [round64] gives the value
    of the primitive operations: a baseline of [5.85] s at 940 Hz, where the
    rounded quotient is 47 and the exact one is below it, and the values
    [2.727] against [3.03], where the rounded change is exactly [-10]. *)
Module Binary64Facts.
Import PrimFloat Binary64.

Lemma midscale_binary64 :
  convert_to_mv_binary64 512 1024 vcc_binary64 1000 = 0%float.
Proof. vm_compute. reflexivity. Qed.

Lemma example_changes_binary64 :
  (change_percent_binary64 final_rms_binary64 1 <=? -10)%float = true
  /\ (change_percent_binary64 95 100 <=? -10)%float = false.
Proof. split; vm_compute; reflexivity. Qed.

Lemma literals_rounded :
  option_map Qred (float_value final_rms_binary64) = Some (Qred (round64 (85 # 100)))
  /\ option_map Qred (float_value duration_binary64) = Some (Qred (round64 (585 # 100)))
  /\ option_map Qred (float_value final_near_threshold_binary64)
     = Some (Qred (round64 (2727 # 1000)))
  /\ option_map Qred (float_value baseline_near_threshold_binary64)
     = Some (Qred (round64 (303 # 100))).
Proof. repeat split; vm_compute; reflexivity. Qed.

Lemma baseline_quotient_rounded :
  baseline_quotient_binary64 duration_binary64 117 940 = 47%float
  /\ option_map Qred (float_value (baseline_quotient_binary64 duration_binary64 117 940))
     = Some (Qred (round64 (round64 (585 # 100) / round64 (inject_Z 117 / inject_Z 940))))
  /\ num_windows_for_baseline (round64 (585 # 100)) 940 100 = Ok 47.
Proof. repeat split; vm_compute; reflexivity. Qed.

(** For every sampling rate from 8 to 2048 Hz the model and the primitive
    floats give the same quotient for the 5 s of the script. *)
Lemma baseline_quotient_rounded_rates :
  forallb quotient_agrees (seq 8 2041) = true.
Proof. vm_compute. reflexivity. Qed.

Lemma change_percent_rounded :
  change_percent_binary64 final_near_threshold_binary64 baseline_near_threshold_binary64
  = (-10)%float
  /\ option_map (fun c => Ok (Qred c))
       (float_value (change_percent_binary64 final_near_threshold_binary64
                       baseline_near_threshold_binary64))
     = Some (bind (change_percent (round64 (2727 # 1000)) (round64 (303 # 100)))
               (fun c => @Ok fault Q (Qred c)))
  /\ option_map (fun c => Ok (Qred c))
       (float_value (change_percent_binary64 final_rms_binary64 1))
     = Some (bind (change_percent (round64 (85 # 100)) 1) (fun c => @Ok fault Q (Qred c)))
  /\ option_map (fun c => Ok (Qred c)) (float_value (change_percent_binary64 95 100))
     = Some (bind (change_percent 95 100) (fun c => @Ok fault Q (Qred c))).
Proof. repeat split; vm_compute; reflexivity. Qed.

End Binary64Facts.

(** A header that decodes to an empty object names no device: the header
    code falls back to the defaults with an error message. *)
Lemma empty_header_falls_back :
  extract_header sample_loads ["# OpenSignals Text File Format"; "#{}"]%string
  = ([ErrHeaderOther IndexError], Some default_vars).
Proof. vm_compute. reflexivity. Qed.

(** * Further properties of the code *)

(** ** The header *)

Lemma find_index_spec {A} (p : A -> bool) (l : list A) (i : nat) :
  find_index p l = Some i ->
  (exists x, nth_error l i = Some x /\ p x = true)
  /\ (forall j y, (j < i)%nat -> nth_error l j = Some y -> p y = false).
Proof.
  revert i. induction l as [|x l IH]; intros i H; simpl in H; [discriminate|].
  destruct (p x) eqn:Hp.
  - inversion H; subst. split; [exists x; split; [reflexivity | exact Hp]|].
    intros j y Hj; lia.
  - destruct (find_index p l) as [k|] eqn:Hk; [|discriminate].
    simpl in H. inversion H; subst.
    destruct (IH k eq_refl) as [Hx Hbefore]. split; [exact Hx|].
    intros [|j] y Hj Hy; simpl in Hy.
    + inversion Hy; subst. exact Hp.
    + apply (Hbefore j y); [lia | exact Hy].
Qed.

Lemma find_index_existsb {A} (p : A -> bool) (l : list A) (i : nat) :
  find_index p l = Some i -> existsb p l = true.
Proof.
  intros H. destruct (find_index_spec p l i H) as [[x [Hx Hp]] _].
  apply existsb_exists. exists x. split; [|exact Hp].
  eapply nth_error_In; exact Hx.
Qed.

Lemma is_str_true (s : string) (j : json) : is_str s j = true -> j = JStr s.
Proof.
  destruct j; simpl; try discriminate. intros H. apply String.eqb_eq in H. congruence.
Qed.

Section HeaderCases.

Variable json_loads : string -> option json.

(** X1. When the column list of the header holds "A1" and the resolution
    list is long enough, no message is shown; the column index is the first
    position of "A1", the resolution is the entry at that position, and the
    sampling rate is the one of the header, or 1000 when it has none. *)
Theorem header_channel_found (lines : list string) (device_id : string)
  (entries others : list (string * json)) (columns resolution : list json)
  (i : nat) (bits : json) :
  has_header lines = true ->
  json_loads (strip (drop_first (nth 1 lines EmptyString)))
  = Some (JObj ((device_id, JObj entries) :: others)) ->
  dict_get entries "column" (JArr []) = JArr columns ->
  dict_get entries "resolution" (JArr []) = JArr resolution ->
  find_index (is_str "A1") columns = Some i ->
  nth_error resolution i = Some bits ->
  extract_header json_loads lines
  = ([], Some {| fs := dict_get entries "sampling rate" (JInt 1000);
                 resolution_bits := bits;
                 emg_column_index := Z.of_nat i |})
  /\ nth_error columns i = Some (JStr "A1")
  /\ (forall j, (j < i)%nat -> nth_error columns j <> Some (JStr "A1")).
Proof.
  intros Hh Hj Hc Hr Hi Hb.
  destruct (find_index_spec _ _ _ Hi) as [[x [Hx Hp]] Hbefore].
  apply is_str_true in Hp. subst x.
  split; [|split; [exact Hx|]].
  - unfold extract_header, try_header. rewrite Hh, Hj. unfold read_header.
    rewrite Hc, Hr. cbn [py_in py_index py_len py_getitem fs resolution_bits emg_column_index].
    rewrite (find_index_existsb _ _ _ Hi), Hi.
    assert (Hlt : (i < List.length resolution)%nat)
      by (apply nth_error_Some; congruence).
    destruct (Z.ltb_spec (Z.of_nat i) (Z.of_nat (List.length resolution))); [|lia].
    rewrite Nat2Z.id, Hb. reflexivity.
  - intros j Hlt Hnth. specialize (Hbefore j _ Hlt Hnth). simpl in Hbefore.
    discriminate.
Qed.

(** X2. When "A1" is in the column list but the resolution list has no
    entry at its position, the column index is still taken from the header,
    the resolution stays 10 and the warning of line 58 is shown. *)
Theorem header_resolution_missing (lines : list string) (device_id : string)
  (entries others : list (string * json)) (columns resolution : list json) (i : nat) :
  has_header lines = true ->
  json_loads (strip (drop_first (nth 1 lines EmptyString)))
  = Some (JObj ((device_id, JObj entries) :: others)) ->
  dict_get entries "column" (JArr []) = JArr columns ->
  dict_get entries "resolution" (JArr []) = JArr resolution ->
  find_index (is_str "A1") columns = Some i ->
  (List.length resolution <= i)%nat ->
  extract_header json_loads lines
  = ([WarnResolutionMissing],
     Some {| fs := dict_get entries "sampling rate" (JInt 1000);
             resolution_bits := JInt 10;
             emg_column_index := Z.of_nat i |}).
Proof.
  intros Hh Hj Hc Hr Hi Hlen.
  unfold extract_header, try_header. rewrite Hh, Hj. unfold read_header.
  rewrite Hc, Hr. cbn [py_in py_index py_len fs resolution_bits emg_column_index].
  rewrite (find_index_existsb _ _ _ Hi), Hi.
  destruct (Z.ltb_spec (Z.of_nat i) (Z.of_nat (List.length resolution))); [lia|].
  reflexivity.
Qed.

(** X3. Whatever the file, the header code shows at most one message; the
    resolution differs from the default 10 only when it shows none; after
    the messages for a missing header or undecodable JSON all three
    variables have their defaults; and the function returns early only with
    the message of line 60. *)
Theorem header_messages (lines : list string) (log : list diag) (r : option header_vars) :
  extract_header json_loads lines = (log, r) ->
  (List.length log <= 1)%nat
  /\ (forall v, r = Some v -> resolution_bits v <> JInt 10 -> log = [])
  /\ (forall v, r = Some v -> log = [WarnHeaderMissing] \/ log = [ErrJsonDecode] ->
        v = default_vars)
  /\ (r = None <-> log = [ErrChannelMissing]).
Proof.
  unfold extract_header, try_header.
  destruct (has_header lines).
  2:{ intros H; inversion H; subst. repeat split; try (simpl; lia); try discriminate.
      - intros v Hv Hb. inversion Hv; subst. exfalso; apply Hb; reflexivity.
      - intros v Hv _. inversion Hv; reflexivity. }
  destruct (json_loads _) as [header_json|].
  2:{ intros H; inversion H; subst. repeat split; try (simpl; lia); try discriminate.
      - intros v Hv Hb. inversion Hv; subst. exfalso; apply Hb; reflexivity.
      - intros v Hv _. inversion Hv; reflexivity. }
  assert (Hdefault : forall e,
            (match e with
             | JSONDecodeError => ([] ++ [ErrJsonDecode], Some default_vars)
             | _ => ([] ++ [ErrHeaderOther e], Some default_vars)
             end) = (log, r) ->
            e <> JSONDecodeError ->
            (List.length log <= 1)%nat
            /\ (forall v, r = Some v -> resolution_bits v <> JInt 10 -> log = [])
            /\ (forall v, r = Some v -> log = [WarnHeaderMissing] \/ log = [ErrJsonDecode] ->
                  v = default_vars)
            /\ (r = None <-> log = [ErrChannelMissing])).
  { intros e H He. destruct e; try (exfalso; apply He; reflexivity);
      inversion H; subst; repeat split; try (simpl; lia); try discriminate;
      try (intros v Hv Hb; inversion Hv; subst; exfalso; apply Hb; reflexivity);
      try (intros v Hv _; inversion Hv; reflexivity). }
  unfold read_header.
  destruct header_json as [| | | | |kvs];
    try (intros H; apply (Hdefault AttributeError H); discriminate).
  destruct kvs as [|[device_id info] kvs];
    [intros H; apply (Hdefault IndexError H); discriminate|].
  destruct info as [| | | | |entries];
    try (intros H; apply (Hdefault AttributeError H); discriminate).
  cbn [fs resolution_bits emg_column_index default_vars].
  assert (Hother : forall e (v : header_vars),
            resolution_bits v = JInt 10 -> e <> JSONDecodeError ->
            (match e with
             | JSONDecodeError => ([] ++ [ErrJsonDecode], Some v)
             | _ => ([] ++ [ErrHeaderOther e], Some v)
             end) = (log, r) ->
            (List.length log <= 1)%nat
            /\ (forall v, r = Some v -> resolution_bits v <> JInt 10 -> log = [])
            /\ (forall v, r = Some v -> log = [WarnHeaderMissing] \/ log = [ErrJsonDecode] ->
                  v = default_vars)
            /\ (r = None <-> log = [ErrChannelMissing])).
  { intros e v Hv He H. destruct e; try (exfalso; apply He; reflexivity);
      inversion H; subst; repeat split; try (simpl; lia); try discriminate;
      try (intros v' Hv' Hb; inversion Hv'; subst; exfalso; apply Hb; exact Hv);
      try (intros v' Hv' [Hl|Hl]; discriminate). }
  assert (Hin : forall c e, py_in "A1" c = Err e -> e <> JSONDecodeError).
  { intros c e. destruct c; simpl; intros H; inversion H; discriminate. }
  assert (Hidx : forall c e, py_index c "A1" = Err e -> e <> JSONDecodeError).
  { intros c e. destruct c; simpl; try (intros H; inversion H; discriminate).
    - destruct (String.index 0 "A1" s); intros H; inversion H; discriminate.
    - destruct (find_index (is_str "A1") l); intros H; inversion H; discriminate. }
  assert (Hlen : forall c e, py_len c = Err e -> e <> JSONDecodeError).
  { intros c e. destruct c; simpl; intros H; inversion H; discriminate. }
  assert (Hget : forall c k e, py_getitem c k = Err e -> e <> JSONDecodeError).
  { intros c k e. destruct c; simpl; try (intros H; inversion H; discriminate).
    - destruct (String.get (Z.to_nat k) s); intros H; inversion H; discriminate.
    - destruct (nth_error l (Z.to_nat k)); intros H; inversion H; discriminate. }
  destruct (py_in "A1" (dict_get entries "column" (JArr []))) as [[|]|e] eqn:Ein.
  - destruct (py_index (dict_get entries "column" (JArr [])) "A1") as [idx|e] eqn:Eidx.
    + destruct (py_len (dict_get entries "resolution" (JArr []))) as [n|e] eqn:Elen.
      * destruct (idx <? n).
        -- destruct (py_getitem (dict_get entries "resolution" (JArr [])) idx) as [bits|e] eqn:Eget.
           ++ intros H; inversion H; subst.
              repeat split; try (simpl; lia); try discriminate.
              intros v Hv [Hl|Hl]; discriminate.
           ++ apply Hother; [reflexivity | exact (Hget _ _ _ Eget)].
        -- intros H; inversion H; subst.
           repeat split; try (simpl; lia); try discriminate.
           ++ intros v Hv Hb. inversion Hv; subst. exfalso; apply Hb; reflexivity.
           ++ intros v Hv [Hl|Hl]; discriminate.
      * apply Hother; [reflexivity | exact (Hlen _ _ Elen)].
    + apply Hother; [reflexivity | exact (Hidx _ _ Eidx)].
  - intros H; inversion H; subst.
    repeat split; try (simpl; lia); try discriminate.
  - apply Hother; [reflexivity | exact (Hin _ _ Ein)].
Qed.

(** X4. An exception after line 49 leaves the sampling rate of the header
    in place: when the column entry is not a container, the message of line
    68 is shown, the column index and the resolution keep their defaults,
    and the sampling rate is the header's. *)
Theorem header_keeps_rate_on_error (lines : list string) (device_id : string)
  (entries others : list (string * json)) (e : exn) :
  has_header lines = true ->
  json_loads (strip (drop_first (nth 1 lines EmptyString)))
  = Some (JObj ((device_id, JObj entries) :: others)) ->
  py_in "A1" (dict_get entries "column" (JArr [])) = Err e ->
  extract_header json_loads lines
  = ([ErrHeaderOther e],
     Some {| fs := dict_get entries "sampling rate" (JInt 1000);
             resolution_bits := JInt 10;
             emg_column_index := 5 |}).
Proof.
  intros Hh Hj Hin.
  unfold extract_header, try_header. rewrite Hh, Hj. unfold read_header. rewrite Hin.
  assert (He : e = TypeError).
  { destruct (dict_get entries "column" (JArr [])); simpl in Hin; congruence. }
  subst e. reflexivity.
Qed.

End HeaderCases.

(** ** The pipeline and the script *)

Lemma fatigue_report_messages (a : analysis) (threshold_mnf threshold_rms alpha : Q)
  (msgs : list diag) :
  fatigue_report a threshold_mnf threshold_rms alpha = Ok msgs ->
  ~ In ErrProcessFailed msgs.
Proof.
  unfold fatigue_report. destruct (guard a); [|intros H; inversion H; intros []].
  destruct (lift (item (rms_vals a) (-1))) as [x|e]; [|discriminate]. cbn [bind].
  destruct (lift (item (mnf_vals a) (-1))) as [y|e]; [|discriminate]. cbn [bind].
  destruct (change_percent x (rms_baseline a)) as [rc|e]; [|discriminate]. cbn [bind].
  destruct (change_percent y (mnf_baseline a)) as [mc|e]; [|discriminate]. cbn [bind].
  destruct (trend_report a alpha) as [tm|e] eqn:Ht; [|discriminate]. cbn [bind].
  intros H; inversion H; subst. clear H.
  unfold trend_report in Ht.
  destruct (slope_mnf a), (slope_rms a), (p_value_rms a), (p_value_mnf a);
    inversion Ht; subst; simpl; intuition discriminate.
Qed.



Section Script.

Variable json_loads : string -> option json.
Variable read_csv : list string -> Z -> res exn (list Z).
Variable butter : nat -> Q -> Q -> btype -> res exn (list Q * list Q).
Variable filtfilt : list Q -> list Q -> list Q -> res exn (list Q).
Variable welch : list Q -> Z -> Z -> list Q * list Q.
Variable linregress : list Q -> list Q -> Q * Q.
Variable np_sqrt : Q -> Q.

Lemma header_log_clean (lines : list string) (log : list diag) (r : option header_vars) :
  extract_header json_loads lines = (log, r) -> ~ In ErrProcessFailed log.
Proof.
  intros H. unfold extract_header in H.
  destruct (try_header json_loads lines default_vars) as [[v l] x] eqn:Htry.
  assert (Hl : l = [] \/ l = [ErrChannelMissing] \/ l = [WarnHeaderMissing]
               \/ l = [WarnResolutionMissing]).
  { unfold try_header, read_header in Htry.
    repeat match type of Htry with
           | context [match ?t with _ => _ end] => destruct t
           end;
      inversion Htry; subst; auto. }
  destruct x as [| |e]; [| |destruct e]; inversion H; subst;
    destruct Hl as [->|[->|[->| ->]]]; simpl; intuition discriminate.
Qed.

Lemma features_of_file_inv (lines : list string) (v : header_vars)
  (frame : dataframe) (ws : list (Q * Q * Q)) (rate : Z) :
  features_of_file read_csv butter filtfilt welch np_sqrt lines v = Ok (frame, ws, rate) ->
  exists raw time n_bits mv passed,
    as_int (fs v) = Ok rate /\ rate <> 0
    /\ read_csv lines (emg_column_index v) = Ok raw
    /\ mapM (fun k => np_div (inject_Z (Z.of_nat k)) (inject_Z rate))
            (seq 0 (List.length raw)) = Ok time
    /\ as_int (resolution_bits v) = Ok n_bits
    /\ condition butter filtfilt raw n_bits rate = Ok (mv, passed, map Qabs passed)
    /\ extract_features welch np_sqrt (map Qabs passed) time rate = Ok ws
    /\ frame = mk_df raw time mv passed (map Qabs passed).
Proof.
  unfold features_of_file.
  destruct (as_int (fs v)) as [rate'|e]; [|discriminate]. cbn [lift bind].
  destruct (py_div (inject_Z (rate' / 4)) (inject_Z rate')) as [w|e] eqn:Hw; [|discriminate].
  cbn [lift bind].
  destruct (read_csv lines (emg_column_index v)) as [raw|e]; [|discriminate].
  cbn [lift bind].
  destruct (mapM (fun k => np_div (inject_Z (Z.of_nat k)) (inject_Z rate'))
              (seq 0 (List.length raw))) as [time|e] eqn:Ht; [|discriminate].
  cbn [bind].
  destruct (as_int (resolution_bits v)) as [n_bits|e]; [|discriminate].
  cbn [lift bind].
  destruct (condition butter filtfilt raw n_bits rate') as [[[mv passed] rect]|e] eqn:Hc;
    [|discriminate].
  cbn [bind snd fst].
  destruct (extract_features welch np_sqrt rect time rate') as [ws'|e] eqn:He; [|discriminate].
  cbn [bind]. intros H. injection H as Hframe Hws Hrate. subst rate' ws'.
  assert (Hrect : rect = map Qabs passed).
  { destruct (condition_unfold butter filtfilt raw n_bits rate) as [mv' [c [_ [_ Hu]]]].
    rewrite Hu in Hc.
    destruct (lift (y <- notch_filter butter filtfilt c 50 rate 2 ;; assign_column (len raw) y))
      as [n1|e]; [|discriminate].
    cbn [bind] in Hc.
    destruct (lift (y <- bandpass_filter butter filtfilt n1 20 450 rate 5 ;;
                    assign_column (len raw) y)) as [n2|e]; [|discriminate].
    cbn [bind] in Hc. inversion Hc; reflexivity. }
  subst rect.
  exists raw, time, n_bits, mv, passed.
  repeat split; try assumption; try reflexivity.
  - intros H0. subst rate. unfold py_div in Hw. simpl in Hw. discriminate.
  - symmetry; exact Hframe.
Qed.

Lemma process_failed_not_in (uploaded_file : option (list string))
  (threshold_mnf threshold_rms alpha : Q) :
  ~ In ErrProcessFailed
      (fst (app json_loads read_csv butter filtfilt welch linregress np_sqrt
              uploaded_file threshold_mnf threshold_rms alpha)).
Proof.
  unfold app. destruct uploaded_file as [lines|]; [|simpl; intuition discriminate].
  assert (Hlog : forall log r,
            process_emg_file json_loads read_csv butter filtfilt welch linregress np_sqrt
              lines 5 = (log, r) -> ~ In ErrProcessFailed log).
  { unfold process_emg_file. intros log r.
    destruct (extract_header json_loads lines) as [log0 [v|]] eqn:Hh.
    - pose proof (header_log_clean lines log0 _ Hh) as Hclean.
      destruct (features_of_file read_csv butter filtfilt welch np_sqrt lines v)
        as [[[frame ws] rate]|e].
      + unfold estimate_baseline.
        destruct (num_windows_for_baseline 5 rate _) as [num|e].
        * destruct (num =? 0).
          -- intros H; inversion H; subst. rewrite in_app_iff. simpl. intuition discriminate.
          -- destruct (np_mean _) as [rb|e]; cbn [bind].
             ++ destruct (np_mean _) as [mb|e]; cbn [bind];
                  intros H; inversion H; subst; rewrite app_nil_r; exact Hclean.
             ++ intros H; inversion H; subst; rewrite app_nil_r; exact Hclean.
        * intros H; inversion H; subst; rewrite app_nil_r; exact Hclean.
      + intros H; inversion H; subst; exact Hclean.
    - intros H; inversion H; subst. exact (header_log_clean lines log _ Hh). }
  destruct (process_emg_file json_loads read_csv butter filtfilt welch linregress np_sqrt
              lines 5) as [log [r|e]] eqn:Hp; [|simpl; exact (Hlog _ _ eq_refl)].
  pose proof (Hlog _ _ eq_refl) as Hclean.
  destruct r as [|a]; [simpl; exact Hclean|].
  cbn [tuple_length Nat.eqb negb].
  destruct (fatigue_report a threshold_mnf threshold_rms alpha) as [msgs|e] eqn:Hf; simpl.
  - rewrite in_app_iff. simpl.
    pose proof (fatigue_report_messages _ _ _ _ _ Hf). intuition discriminate.
  - rewrite in_app_iff. simpl. intuition discriminate.
Qed.

(** X5. Whatever file is uploaded, the message of line 142 is never shown:
    the tuple of line 61 does not unpack into the ten names of line 139. *)
Theorem process_failed_never_shown (uploaded_file : option (list string))
  (threshold_mnf threshold_rms alpha : Q) :
  Forall (fun m => m <> ErrProcessFailed)
    (fst (app json_loads read_csv butter filtfilt welch linregress np_sqrt
            uploaded_file threshold_mnf threshold_rms alpha)).
Proof.
  apply Forall_forall. intros m Hin Hm. subst m.
  exact (process_failed_not_in uploaded_file threshold_mnf threshold_rms alpha Hin).
Qed.


(** X7. A sampling rate that is not a number stops the pipeline with
    [TypeError] at line 70, and a sampling rate of 0 with
    [ZeroDivisionError] at line 77, in both cases before the data are read
    and after the messages of the header only. *)
Theorem invalid_sampling_rate (lines : list string) (d : Q) (log : list diag)
  (v : header_vars) :
  extract_header json_loads lines = (log, Some v) ->
  (forall e, as_int (fs v) = Err e ->
     e = TypeError
     /\ process_emg_file json_loads read_csv butter filtfilt welch linregress np_sqrt lines d
        = (log, Err (Raised TypeError)))
  /\ (as_int (fs v) = Ok 0 ->
      process_emg_file json_loads read_csv butter filtfilt welch linregress np_sqrt lines d
      = (log, Err (Raised ZeroDivisionError))).
Proof.
  intros Hh. split.
  - intros e He.
    assert (e = TypeError) by (destruct (fs v); simpl in He; congruence). subst e.
    split; [reflexivity|].
    unfold process_emg_file, features_of_file. rewrite Hh, He. reflexivity.
  - intros H0. unfold process_emg_file, features_of_file. rewrite Hh, H0. reflexivity.
Qed.

(** X8. A recording that passes the filters but has fewer samples than one
    window gives no window: the pipeline warns about the baseline, returns
    empty series, the baseline (0, 0) and no trend, and the script shows the
    success message without a fatigue section. *)
Theorem short_recording_result (lines : list string) (log : list diag) (v : header_vars)
  (frame : dataframe) (ws : list (Q * Q * Q)) (rate : Z)
  (threshold_mnf threshold_rms alpha : Q) :
  extract_header json_loads lines = (log, Some v) ->
  features_of_file read_csv butter filtfilt welch np_sqrt lines v = Ok (frame, ws, rate) ->
  8 <= rate ->
  len (emg_raw frame) < rate / 4 ->
  ws = []
  /\ process_emg_file json_loads read_csv butter filtfilt welch linregress np_sqrt lines 5
     = (log ++ [WarnBaseline],
        Ok (Computed (mk_analysis frame [] [] [] 0 0 None None None None)))
  /\ app json_loads read_csv butter filtfilt welch linregress np_sqrt
       (Some lines) threshold_mnf threshold_rms alpha
     = (log ++ [WarnBaseline; Success], Ok tt).
Proof.
  intros Hh Hf Hrate Hshort.
  destruct (features_of_file_inv lines v frame ws rate Hf)
    as [raw [time [n_bits [mv [passed [_ [_ [_ [Ht [_ [Hc [He Hframe]]]]]]]]]]]].
  subst frame. simpl in Hshort.
  destruct (condition_length butter filtfilt raw n_bits rate _ _ _ Hc) as [_ [_ Hrect]].
  assert (Htime : len time = len raw).
  { unfold len. rewrite (mapM_length _ _ _ Ht), length_seq. reflexivity. }
  destruct (extract_features_windows welch np_sqrt (map Qabs passed) time rate (len raw)
              Hrate Hrect Htime) as [ws' [Hrun [Hcount _]]].
  rewrite Hrun in He. injection He as <-.
  destruct (Z.leb_spec (rate / 4) (len raw)); [lia|].
  assert (Hws : ws' = []).
  { destruct ws'; [reflexivity|]. unfold len in Hcount. simpl in Hcount. lia. }
  subst ws'. split; [reflexivity|].
  assert (Hp : process_emg_file json_loads read_csv butter filtfilt welch linregress np_sqrt
                 lines 5
               = (log ++ [WarnBaseline],
                  Ok (Computed
                        (mk_analysis (mk_df raw time mv passed (map Qabs passed))
                           [] [] [] 0 0 None None None None)))).
  { unfold process_emg_file. rewrite Hh, Hf. cbn [map].
    unfold estimate_baseline.
    destruct (num_windows_nonneg 5 rate (len (@nil Q)) Hrate) as [Hnum Hfloor];
      [discriminate | exact (five_seconds_finite rate Hrate) |].
    rewrite Hnum. change (len (@nil Q)) with 0.
    rewrite Z.min_r by exact Hfloor.
    reflexivity. }
  split; [exact Hp|].
  unfold app. rewrite Hp. cbn [tuple_length Nat.eqb negb].
  rewrite fatigue_report_closed by reflexivity.
  rewrite <- app_assoc. reflexivity.
Qed.

End Script.

(** ** The data frame and the windows *)

Lemma mapM_nth {E A B} (f : A -> res E B) (l : list A) (ys : list B) (k : nat) (x : A) :
  mapM f l = Ok ys -> nth_error l k = Some x ->
  exists y, nth_error ys k = Some y /\ f x = Ok y.
Proof.
  intros H. apply mapM_Forall2 in H. revert k.
  induction H as [|a b l ys Hab _ IH]; intros k Hk.
  - destruct k; discriminate.
  - destruct k as [|k]; simpl in *.
    + inversion Hk; subst. exists b. split; [reflexivity | exact Hab].
    + apply IH; exact Hk.
Qed.

Lemma Forall2_nth_right {A B} (R : A -> B -> Prop) (l : list A) (l' : list B)
  (k : nat) (y : B) :
  Forall2 R l l' -> nth_error l' k = Some y ->
  exists x, nth_error l k = Some x /\ R x y.
Proof.
  intros H. revert k. induction H as [|a b l ys Hab _ IH]; intros k Hk.
  - destruct k; discriminate.
  - destruct k as [|k]; simpl in *.
    + inversion Hk; subst. exists a. split; [reflexivity | exact Hab].
    + apply IH; exact Hk.
Qed.

Lemma nth_error_seq0 (n k x : nat) :
  nth_error (seq 0 n) k = Some x -> x = k /\ (k < n)%nat.
Proof.
  rewrite nth_error_seq. destruct (Nat.ltb_spec k n); [|discriminate].
  intros E; inversion E; subst; split; lia.
Qed.

Lemma item_nth {A} (l : list A) (k : Z) (x : A) :
  0 <= k -> item l k = Ok x -> nth_error l (Z.to_nat k) = Some x.
Proof.
  intros Hk. unfold item.
  destruct (Z.ltb_spec k 0); [lia|].
  destruct (Z.ltb_spec k 0); [lia|].
  destruct (nth_error l (Z.to_nat k)); intros E; inversion E; reflexivity.
Qed.

Section Frame.

Variable read_csv : list string -> Z -> res exn (list Z).
Variable butter : nat -> Q -> Q -> btype -> res exn (list Q * list Q).
Variable filtfilt : list Q -> list Q -> list Q -> res exn (list Q).
Variable welch : list Q -> Z -> Z -> list Q * list Q.
Variable np_sqrt : Q -> Q.

Lemma time_entries (rate : Z) (n : nat) (time : list Q) :
  mapM (fun k => np_div (inject_Z (Z.of_nat k)) (inject_Z rate)) (seq 0 n) = Ok time ->
  rate <> 0 ->
  forall k, (k < n)%nat ->
    nth_error time k = Some (inject_Z (Z.of_nat k) / inject_Z rate)%Q.
Proof.
  intros Ht Hrate k Hk.
  assert (Hseq : nth_error (seq 0 n) k = Some k).
  { rewrite nth_error_seq. destruct (Nat.ltb_spec k n); [reflexivity | lia]. }
  destruct (mapM_nth _ _ _ _ _ Ht Hseq) as [y [Hy Hdiv]].
  rewrite np_div_nonzero in Hdiv by (apply inject_Z_nonzero; exact Hrate).
  inversion Hdiv; subst. exact Hy.
Qed.

(** X9. In the data frame of a run every column has one row per sample of
    the recording, the time of row [k] is [k / fs], and the rectified signal
    is the absolute value of the filtered one, so it is never negative. *)
Theorem frame_columns (lines : list string) (v : header_vars)
  (frame : dataframe) (ws : list (Q * Q * Q)) (rate : Z) :
  features_of_file read_csv butter filtfilt welch np_sqrt lines v = Ok (frame, ws, rate) ->
  let N := len (emg_raw frame) in
  len (time frame) = N /\ len (emg_mv frame) = N
  /\ len (emg_processed frame) = N /\ len (emg_rectified frame) = N
  /\ (forall k, (k < List.length (emg_raw frame))%nat ->
        nth_error (time frame) k = Some (inject_Z (Z.of_nat k) / inject_Z rate)%Q)
  /\ emg_rectified frame = map Qabs (emg_processed frame)
  /\ Forall (fun x => 0 <= x)%Q (emg_rectified frame).
Proof.
  intros Hf.
  destruct (features_of_file_inv read_csv butter filtfilt welch np_sqrt lines v frame ws rate Hf)
    as [raw [time [n_bits [mv [passed [_ [Hrate [_ [Ht [_ [Hc [_ Hframe]]]]]]]]]]]].
  subst frame. simpl.
  destruct (condition_length butter filtfilt raw n_bits rate _ _ _ Hc) as [Hmv [Hp Hrect]].
  split; [unfold len; rewrite (mapM_length _ _ _ Ht), length_seq; reflexivity|].
  split; [exact Hmv|]. split; [exact Hp|]. split; [exact Hrect|].
  split; [exact (time_entries rate _ time Ht Hrate)|].
  split; [reflexivity|].
  apply Forall_forall. intros x Hx. apply in_map_iff in Hx.
  destruct Hx as [y [<- _]]. apply Qabs_nonneg.
Qed.

(** X10. The time of the window number [k] is the time of its middle sample,
    [(k * step + win_size // 2) / fs], so the window times increase
    strictly. *)
Theorem window_times (lines : list string) (v : header_vars)
  (frame : dataframe) (ws : list (Q * Q * Q)) (rate : Z) :
  features_of_file read_csv butter filtfilt welch np_sqrt lines v = Ok (frame, ws, rate) ->
  8 <= rate ->
  (forall k w, nth_error ws k = Some w ->
     fst (fst w) = (inject_Z (Z.of_nat k * (rate / 8) + rate / 4 / 2) / inject_Z rate)%Q)
  /\ (forall j k wj wk, (j < k)%nat ->
        nth_error ws j = Some wj -> nth_error ws k = Some wk ->
        (fst (fst wj) < fst (fst wk))%Q).
Proof.
  intros Hf Hrate.
  destruct (features_of_file_inv read_csv butter filtfilt welch np_sqrt lines v frame ws rate Hf)
    as [raw [time [n_bits [mv [passed [_ [Hnz [_ [Ht [_ [Hc [He _]]]]]]]]]]]].
  destruct (condition_length butter filtfilt raw n_bits rate _ _ _ Hc) as [_ [_ Hrect]].
  assert (Htime : len time = len raw).
  { unfold len. rewrite (mapM_length _ _ _ Ht), length_seq. reflexivity. }
  destruct (extract_features_windows welch np_sqrt (map Qabs passed) time rate (len raw)
              Hrate Hrect Htime) as [ws' [Hrun [_ Hall]]].
  rewrite Hrun in He. injection He as <-.
  assert (Hstep : 0 < rate / 8) by (apply Z.div_str_pos; lia).
  assert (Hhalf : 0 <= rate / 4 / 2) by (apply Z.div_pos; [apply Z.div_pos|]; lia).
  assert (Hformula : forall k w, nth_error ws' k = Some w ->
            fst (fst w)
            = (inject_Z (Z.of_nat k * (rate / 8) + rate / 4 / 2) / inject_Z rate)%Q).
  { intros k w Hw.
    destruct (Forall2_nth_right _ _ _ _ _ Hall Hw) as [k' [Hk' Hwin]].
    apply nth_error_seq0 in Hk'. destruct Hk' as [-> _].
    unfold window in Hwin.
    destruct (item time (Z.of_nat k * (rate / 8) + rate / 4 / 2)) as [t|e] eqn:Hitem;
      [|discriminate].
    cbn [lift bind] in Hwin.
    destruct (rms_of np_sqrt _) as [rms|e]; [|discriminate]. cbn [bind] in Hwin.
    destruct (mnf_of welch _ rate (rate / 4)) as [mnf|e]; [|discriminate].
    cbn [bind] in Hwin. inversion Hwin; subst. simpl.
    apply item_nth in Hitem; [|lia].
    assert (Hlt : (Z.to_nat (Z.of_nat k * (rate / 8) + rate / 4 / 2) < List.length raw)%nat).
    { assert (Hsome : nth_error time (Z.to_nat (Z.of_nat k * (rate / 8) + rate / 4 / 2))
                      <> None) by congruence.
      apply nth_error_Some in Hsome.
      rewrite (mapM_length _ _ _ Ht), length_seq in Hsome. exact Hsome. }
    rewrite (time_entries rate _ time Ht Hnz _ Hlt) in Hitem.
    inversion Hitem; subst. rewrite Z2Nat.id by lia. reflexivity. }
  split; [exact Hformula|].
  intros j k wj wk Hjk Hj Hk.
  rewrite (Hformula j wj Hj), (Hformula k wk Hk).
  assert (Hpos : (0 < inject_Z rate)%Q).
  { change 0%Q with (inject_Z 0). rewrite <- Zlt_Qlt. lia. }
  unfold Qdiv. apply Qmult_lt_compat_r; [apply Qinv_lt_0_compat; exact Hpos|].
  rewrite <- Zlt_Qlt. nia.
Qed.

End Frame.

(** ** Numbers *)

(** X14. With the default reference voltage and gain, a count in the range
    of the converter, [0 <= raw < 2^n_bits], is mapped into
    [-1.65 <= mV < 1.65], and a larger count to a larger or equal value. *)
Theorem calibration_range (raw raw' : Z) (n_bits : Z) :
  0 <= n_bits -> 0 <= raw <= raw' -> raw' < 2 ^ n_bits ->
  exists v v',
    convert_to_mv raw n_bits default_vcc default_gain = Ok v
    /\ convert_to_mv raw' n_bits default_vcc default_gain = Ok v'
    /\ (- (165 # 100) <= v)%Q /\ (v <= v')%Q /\ (v' < 165 # 100)%Q.
Proof.
  intros Hn Hraw Hmax.
  unfold convert_to_mv. rewrite !np_div_nonzero by discriminate.
  do 2 eexists. split; [reflexivity|]. split; [reflexivity|].
  assert (Hp : (0 < 2 ^ n_bits)%Q) by (apply Qpower_0_lt; reflexivity).
  assert (Hpow : (2 ^ n_bits == inject_Z (2 ^ n_bits))%Q).
  { rewrite Zpower_Qpower by exact Hn. reflexivity. }
  assert (H0 : (0 <= inject_Z raw / 2 ^ n_bits)%Q).
  { apply Qle_shift_div_l; [exact Hp|]. rewrite Qmult_0_l.
    change 0%Q with (inject_Z 0). rewrite <- Zle_Qle. lia. }
  assert (H1 : (inject_Z raw / 2 ^ n_bits <= inject_Z raw' / 2 ^ n_bits)%Q).
  { unfold Qdiv. apply Qmult_le_compat_r; [rewrite <- Zle_Qle; lia|].
    apply Qlt_le_weak, Qinv_lt_0_compat. exact Hp. }
  assert (H2 : (inject_Z raw' / 2 ^ n_bits < 1)%Q).
  { apply Qlt_shift_div_r; [exact Hp|]. rewrite Qmult_1_l, Hpow.
    rewrite <- Zlt_Qlt. exact Hmax. }
  unfold default_vcc, default_gain.
  set (q := (inject_Z raw / 2 ^ n_bits)%Q) in *.
  set (q' := (inject_Z raw' / 2 ^ n_bits)%Q) in *.
  unfold Qdiv. change (/ 1000)%Q with (1 # 1000)%Q.
  repeat split; lra.
Qed.

(** X15. For a positive baseline the change in percent has the sign of
    [final - baseline], also after the three roundings.  So a final value
    that is not below the baseline is never flagged under a negative
    threshold, and a final value equal to the baseline has a change of
    exactly 0: it is flagged exactly when the threshold is not negative,
    which on the sliders of lines 223-224 is their maximum 0. *)
Theorem percent_change_sign (final baseline threshold : Q) :
  (0 < baseline)%Q ->
  exists change,
    change_percent final baseline = Ok change
    /\ (final < baseline -> change < 0)%Q
    /\ (baseline < final -> 0 < change)%Q
    /\ (final == baseline ->
          change == 0 /\ (Qle_bool change threshold = true <-> 0 <= threshold)%Q)
    /\ (baseline <= final -> threshold < 0 -> Qle_bool change threshold = false)%Q.
Proof.
  intros Hb.
  assert (Hnz : ~ baseline == 0) by (intros H0; rewrite H0 in Hb; exact (Qlt_irrefl 0 Hb)).
  rewrite change_percent_defined by exact Hnz.
  eexists. split; [reflexivity|].
  assert (Hinv : (0 < / baseline)%Q) by (apply Qinv_lt_0_compat; exact Hb).
  assert (Hneg : (final < baseline ->
                  round64 (round64 (round64 (final - baseline) / baseline) * 100) < 0)%Q).
  { intros Hlt. apply round64_neg.
    assert (H1 : (round64 (final - baseline) < 0)%Q) by (apply round64_neg; lra).
    assert (H2 : (round64 (round64 (final - baseline) / baseline) < 0)%Q).
    { apply round64_neg. unfold Qdiv.
      set (x := round64 (final - baseline)) in *. set (y := (/ baseline)%Q) in *. nra. }
    lra. }
  assert (Hpos : (baseline < final ->
                  0 < round64 (round64 (round64 (final - baseline) / baseline) * 100))%Q).
  { intros Hlt. apply round64_pos.
    assert (H1 : (0 < round64 (final - baseline))%Q) by (apply round64_pos; lra).
    assert (H2 : (0 < round64 (round64 (final - baseline) / baseline))%Q).
    { apply round64_pos. unfold Qdiv.
      set (x := round64 (final - baseline)) in *. set (y := (/ baseline)%Q) in *. nra. }
    lra. }
  assert (Hzero : final == baseline ->
                  round64 (round64 (round64 (final - baseline) / baseline) * 100) = 0%Q).
  { intros Heq.
    rewrite (round64_zero (final - baseline)) by lra.
    rewrite (round64_zero (0 / baseline)) by (unfold Qdiv; ring).
    apply round64_zero. ring. }
  split; [exact Hneg|]. split; [exact Hpos|]. split.
  - intros Heq. rewrite (Hzero Heq). split; [reflexivity|]. apply Qle_bool_iff.
  - intros Hle Hthr.
    destruct (Qle_bool _ threshold) eqn:Hflag; [|reflexivity].
    apply Qle_bool_iff in Hflag. exfalso.
    destruct (Qlt_le_dec baseline final) as [Hlt|Hge].
    + pose proof (Hpos Hlt). lra.
    + assert (Heq : final == baseline) by lra.
      rewrite (Hzero Heq) in Hflag. lra.
Qed.

(** X16. With the 5 s of the script and a sampling rate that is a multiple
    of 8, the time between two windows is exactly an eighth of a second,
    also in binary64, and the baseline takes the first 40 windows, or all
    of them when there are fewer. *)
Theorem baseline_of_five_seconds (fs total : Z) :
  8 <= fs -> fs mod 8 = 0 ->
  num_windows_for_baseline 5 fs total = Ok (Z.min 40 total).
Proof.
  intros Hfs Hmod. unfold num_windows_for_baseline.
  assert (Hstep : 0 < fs / 8) by (apply Z.div_str_pos; lia).
  assert (Hstepq : (0 < inject_Z (fs / 8))%Q).
  { change 0%Q with (inject_Z 0). rewrite <- Zlt_Qlt. lia. }
  assert (Hfs8 : fs = 8 * (fs / 8)) by (apply Z.div_exact; lia).
  assert (E : (inject_Z (fs / 8) / inject_Z fs == 1 # 8)%Q).
  { rewrite Hfs8 at 2. rewrite inject_Z_mult. change (inject_Z 8) with 8%Q. field.
    intros H0. rewrite H0 in Hstepq. exact (Qlt_irrefl 0 Hstepq). }
  rewrite float_div_nonzero by (apply inject_Z_nonzero; lia). cbn [bind].
  rewrite (round64_comp _ _ E).
  rewrite float_div_nonzero by (intros H0; vm_compute in H0; discriminate H0).
  cbn [bind].
  assert (K : py_int_of_float (round64 (round64 5 / round64 (1 # 8))) = Ok 40)
    by (vm_compute; reflexivity).
  rewrite K. reflexivity.
Qed.

(** ** The mean frequency *)

Lemma weighted_sum_bound (B : Q) (f P : list Q) :
  (0 <= B)%Q ->
  Forall (fun x => x <= B)%Q f -> Forall (fun p => 0 <= p)%Q P ->
  (np_sum (np_mul f P) <= B * np_sum P)%Q.
Proof.
  intros HB Hf. revert P. induction Hf as [|x f Hx _ IH]; intros P HP.
  - simpl. apply Qmult_le_0_compat; [exact HB | apply np_sum_nonneg; exact HP].
  - destruct HP as [|p P Hp HP].
    + simpl. rewrite Qmult_0_r. apply Qle_refl.
    + cbn [np_mul np_sum fold_right]. fold (np_sum (np_mul f P)). fold (np_sum P).
      specialize (IH P HP).
      assert (x * p <= B * p)%Q by (apply Qmult_le_compat_r; assumption).
      lra.
Qed.

Section FrequencyBound.

Variable welch : list Q -> Z -> Z -> list Q * list Q.

(** Welch's densities are not negative, and its frequencies do not exceed
    a bound [B], the Nyquist frequency. *)
Variable B : Q.
Hypothesis B_nonneg : (0 <= B)%Q.
Hypothesis welch_bounded : forall segment fs nperseg,
  Forall (fun x => x <= B)%Q (fst (welch segment fs nperseg))
  /\ Forall (fun p => 0 <= p)%Q (snd (welch segment fs nperseg)).

(** X17. The mean frequency of a window never exceeds the largest frequency
    of the spectral estimate. *)
Theorem mnf_at_most_largest_frequency (segment : list Q) (fs win_size : Z) :
  exists mnf, mnf_of welch segment fs win_size = Ok mnf /\ (mnf <= B)%Q.
Proof.
  destruct (welch_bounded segment fs (Z.min 128 win_size)) as [Hf HP].
  destruct (mnf_of_cases welch segment fs win_size) as [Hpos Hzero].
  destruct (Qlt_le_dec 0 (np_sum (snd (welch segment fs (Z.min 128 win_size))))) as [Hs|Hs].
  - rewrite (Hpos Hs). eexists. split; [reflexivity|].
    apply Qle_shift_div_r; [exact Hs|].
    apply weighted_sum_bound; assumption.
  - rewrite (Hzero Hs). eexists. split; [reflexivity | exact B_nonneg].
Qed.

End FrequencyBound.

(** ** Sampling rate, session state and plot limits *)

Section NegativeRate.

Variable json_loads : string -> option json.
Variable read_csv : list string -> Z -> res exn (list Z).
Variable butter : nat -> Q -> Q -> btype -> res exn (list Q * list Q).
Variable filtfilt : list Q -> list Q -> list Q -> res exn (list Q).
Variable welch : list Q -> Z -> Z -> list Q * list Q.
Variable linregress : list Q -> list Q -> Q * Q.
Variable np_sqrt : Q -> Q.

(** [butter] raises [ValueError] unless the critical frequencies satisfy
    [0 < Wn < 1]. *)
Hypothesis butter_rejects : forall order low high kind,
  ~ (0 < low /\ high < 1)%Q -> butter order low high kind = Err ValueError.

(** X18. A negative sampling rate gives negative critical frequencies: the
    notch filter raises [ValueError] for every signal, and
    [process_emg_file] ends with an exception after the messages of the
    header. *)
Theorem negative_sampling_rate (rate : Z) :
  rate < 0 ->
  (forall signal, notch_filter butter filtfilt signal 50 rate 2 = Err ValueError)
  /\ (forall lines d log v,
        extract_header json_loads lines = (log, Some v) ->
        as_int (fs v) = Ok rate ->
        exists e,
          process_emg_file json_loads read_csv butter filtfilt welch linregress np_sqrt
            lines d
          = (log, Err (Raised e))).
Proof.
  intros Hr.
  assert (Hnyq : (inject_Z rate / 2 < 0)%Q).
  { apply Qlt_shift_div_r; [reflexivity|]. rewrite Qmult_0_l.
    change 0%Q with (inject_Z 0). rewrite <- Zlt_Qlt. exact Hr. }
  assert (Hnz : ~ inject_Z rate / 2 == 0).
  { intros H0. rewrite H0 in Hnyq. exact (Qlt_irrefl 0 Hnyq). }
  assert (Hnotch : forall signal,
            notch_filter butter filtfilt signal 50 rate 2 = Err ValueError).
  { intros signal. unfold notch_filter.
    rewrite !py_div_nonzero by exact Hnz. cbn [bind].
    rewrite butter_rejects; [reflexivity|].
    intros [Hlow _].
    set (nyq := (inject_Z rate / 2)%Q) in *.
    assert (H1 : (0 < (50 - 1) / nyq * - nyq)%Q).
    { apply Qmult_lt_0_compat; [exact Hlow | lra]. }
    assert (H2 : ((50 - 1) / nyq * - nyq == - (49))%Q) by (field; exact Hnz).
    rewrite H2 in H1. discriminate H1. }
  split; [exact Hnotch|].
  intros lines d log v Hh Hfs.
  assert (Hf : exists e,
            features_of_file read_csv butter filtfilt welch np_sqrt lines v = Err (Raised e)).
  { unfold features_of_file. rewrite Hfs. cbn [lift bind].
    rewrite py_div_nonzero by (apply inject_Z_nonzero; lia). cbn [lift bind].
    destruct (read_csv lines (emg_column_index v)) as [raw|e]; [|eexists; reflexivity].
    cbn [lift bind].
    destruct (mapM_total (fun k => np_div (inject_Z (Z.of_nat k)) (inject_Z rate))
                (seq 0 (List.length raw))) as [time Ht].
    { intros k _. rewrite np_div_nonzero by (apply inject_Z_nonzero; lia).
      eexists; reflexivity. }
    rewrite Ht. cbn [bind].
    destruct (as_int (resolution_bits v)) as [n_bits|e]; [|eexists; reflexivity].
    cbn [lift bind].
    destruct (condition_unfold butter filtfilt raw n_bits rate) as [mv [c [_ [_ Hc]]]].
    rewrite Hc, (Hnotch c). eexists; reflexivity. }
  destruct Hf as [e He]. exists e.
  unfold process_emg_file. rewrite Hh, He. reflexivity.
Qed.

End NegativeRate.

(** X19. For a positive sampling rate the state stored at lines 74-77 holds
    the variables of the header unchanged, and a window length in seconds
    that is at most a quarter of a second and falls short of it by less than
    one sample. *)
Theorem session_window_seconds (v : header_vars) (rate : Z) :
  as_int (fs v) = Ok rate -> 0 < rate ->
  exists s,
    store_session v = Ok s
    /\ state_fs s = fs v
    /\ state_resolution_bits s = resolution_bits v
    /\ state_emg_column_index s = emg_column_index v
    /\ (state_win_size s <= 1 # 4)%Q
    /\ ((1 # 4) - 1 / inject_Z rate < state_win_size s)%Q.
Proof.
  intros Hfs Hr. unfold store_session. rewrite Hfs. cbn [bind].
  rewrite py_div_nonzero by (apply inject_Z_nonzero; lia). cbn [bind].
  eexists. split; [reflexivity|]. cbn.
  assert (Hb : (0 < inject_Z rate)%Q).
  { change 0%Q with (inject_Z 0). rewrite <- Zlt_Qlt. exact Hr. }
  assert (Hlow : (4 * inject_Z (rate / 4) <= inject_Z rate)%Q).
  { change 4%Q with (inject_Z 4). rewrite <- inject_Z_mult, <- Zle_Qle.
    apply Z.mul_div_le. lia. }
  assert (Hhigh : (inject_Z rate < 4 * inject_Z (rate / 4) + 4)%Q).
  { change 4%Q with (inject_Z 4). rewrite <- inject_Z_mult, <- inject_Z_plus, <- Zlt_Qlt.
    pose proof (Z.mod_pos_bound rate 4). pose proof (Z.div_mod rate 4). lia. }
  set (a := inject_Z (rate / 4)) in *. set (b := inject_Z rate) in *.
  repeat split.
  - apply Qle_shift_div_r; [exact Hb|]. lra.
  - apply Qlt_shift_div_l; [exact Hb|].
    assert (E : (((1 # 4) - 1 / b) * b == (1 # 4) * b - 1)%Q).
    { field. intros H0. rewrite H0 in Hb. exact (Qlt_irrefl 0 Hb). }
    rewrite E. lra.
Qed.

Lemma min_from_spec (l : list Q) : forall m,
  (min_from m l <= m)%Q
  /\ Forall (fun y => min_from m l <= y)%Q l
  /\ In (min_from m l) (m :: l).
Proof.
  induction l as [|y l IH]; intros m; simpl.
  - split; [apply Qle_refl|]. split; [constructor | left; reflexivity].
  - destruct (IH (if Qltb y m then y else m)) as [H1 [H2 H3]].
    destruct (Qltb y m) eqn:Hlt.
    + apply Qltb_lt in Hlt. split; [lra|]. split.
      * constructor; assumption.
      * destruct H3 as [H3|H3]; [right; left; exact H3 | right; right; exact H3].
    + assert (Hge : (m <= y)%Q).
      { apply Qnot_lt_le. intros H. apply Qltb_lt in H. congruence. }
      split; [exact H1|]. split.
      * constructor; [lra | assumption].
      * destruct H3 as [H3|H3]; [left; exact H3 | right; right; exact H3].
Qed.

Lemma max_from_spec (l : list Q) : forall m,
  (m <= max_from m l)%Q
  /\ Forall (fun y => y <= max_from m l)%Q l
  /\ In (max_from m l) (m :: l).
Proof.
  induction l as [|y l IH]; intros m; simpl.
  - split; [apply Qle_refl|]. split; [constructor | left; reflexivity].
  - destruct (IH (if Qltb m y then y else m)) as [H1 [H2 H3]].
    destruct (Qltb m y) eqn:Hlt.
    + apply Qltb_lt in Hlt. split; [lra|]. split.
      * constructor; assumption.
      * destruct H3 as [H3|H3]; [right; left; exact H3 | right; right; exact H3].
    + assert (Hge : (y <= m)%Q).
      { apply Qnot_lt_le. intros H. apply Qltb_lt in H. congruence. }
      split; [exact H1|]. split.
      * constructor; [lra | assumption].
      * destruct H3 as [H3|H3]; [left; exact H3 | right; right; exact H3].
Qed.

Lemma min_max_bounds (x : Q) (l : list Q) :
  Forall (fun y => min_from x l <= y <= max_from x l)%Q (x :: l)
  /\ In (min_from x l) (x :: l) /\ In (max_from x l) (x :: l).
Proof.
  destruct (min_from_spec l x) as [H1 [H2 H3]].
  destruct (max_from_spec l x) as [G1 [G2 G3]].
  split; [|split; assumption].
  constructor; [split; assumption|].
  rewrite Forall_forall in *. intros y Hy. split; [apply H2 | apply G2]; exact Hy.
Qed.

(** X20. When the RMS values are not negative and there is at least one,
    the limits of the RMS axis are set and every value lies between them. *)
Theorem rms_axis_holds_values (rms_vals : list Q) :
  rms_vals <> [] -> Forall (fun x => 0 <= x)%Q rms_vals ->
  exists low high,
    rms_ylim rms_vals = Ok (Some (low, high))
    /\ Forall (fun x => low <= x <= high)%Q rms_vals.
Proof.
  intros Hne Hpos. destruct rms_vals as [|x l]; [congruence|].
  unfold rms_ylim. replace (0 <? len (x :: l)) with true
    by (symmetry; apply Z.ltb_lt; unfold len; simpl; lia).
  cbn [py_min py_max bind].
  do 2 eexists. split; [reflexivity|].
  destruct (min_max_bounds x l) as [Hb [Hmin Hmax]].
  rewrite Forall_forall in Hpos, Hb. apply Forall_forall. intros y Hy.
  specialize (Hb y Hy). pose proof (Hpos _ Hmin). pose proof (Hpos _ Hmax).
  pose proof (Hpos y Hy). lra.
Qed.

(** X21. The limits of the MNF axis are computed without error; they are
    left unset exactly when no MNF value is positive; when set, the lower
    limit is positive, every positive value lies between the limits, and
    the windows with [mnf = 0] fall below the axis. *)
Theorem mnf_axis_limits (mnf_vals : list Q) :
  (exists limits, mnf_ylim mnf_vals = Ok limits)
  /\ (mnf_ylim mnf_vals = Ok None <-> Forall (fun x => x <= 0)%Q mnf_vals)
  /\ (forall low high, mnf_ylim mnf_vals = Ok (Some (low, high)) ->
        (0 < low)%Q
        /\ Forall (fun x => 0 < x -> low <= x <= high)%Q mnf_vals
        /\ Forall (fun x => x <= 0 -> x < low)%Q mnf_vals).
Proof.
  assert (Hfilter : filter (fun x => Qltb 0 x) mnf_vals = []
                    <-> Forall (fun x => x <= 0)%Q mnf_vals).
  { induction mnf_vals as [|x l IH]; simpl.
    - split; [constructor | reflexivity].
    - destruct (Qltb 0 x) eqn:Hx.
      + split; [discriminate|]. intros H. inversion H; subst.
        apply Qltb_lt in Hx. lra.
      + rewrite IH. split; intros H.
        * constructor; [|exact H]. apply Qnot_lt_le. intros G.
          apply Qltb_lt in G. congruence.
        * inversion H; assumption. }
  unfold mnf_ylim.
  destruct (Z.ltb_spec 0 (len mnf_vals)) as [Hlen|Hlen].
  2:{ assert (mnf_vals = []) by (destruct mnf_vals; [reflexivity | unfold len in Hlen; simpl in Hlen; lia]).
      subst. split; [eexists; reflexivity|]. split; [split; [constructor | reflexivity]|].
      intros low high H; discriminate. }
  destruct (filter (fun x => Qltb 0 x) mnf_vals) as [|x l] eqn:Hf.
  - split; [eexists; reflexivity|]. split.
    + split; [intros _; apply Hfilter; reflexivity | reflexivity].
    + intros low high H; discriminate.
  - cbn [py_min py_max bind].
    split; [eexists; reflexivity|]. split.
    + split; [discriminate|]. intros H. apply Hfilter in H. discriminate.
    + intros low high H. inversion H; subst. clear H.
      destruct (min_max_bounds x l) as [Hb [Hmin Hmax]].
      rewrite <- Hf in Hb, Hmin, Hmax.
      apply filter_In in Hmin. destruct Hmin as [_ Hminpos]. apply Qltb_lt in Hminpos.
      assert (Hlow : (0 < min_from x l * (9 # 10))%Q) by lra.
      rewrite (proj2 (Qltb_lt _ _) Hlow).
      split; [exact Hlow|]. rewrite Forall_forall in Hb. split.
      * apply Forall_forall. intros y Hy Hypos.
        assert (Hin : In y (filter (fun x => Qltb 0 x) mnf_vals)).
        { apply filter_In. split; [exact Hy | apply Qltb_lt; exact Hypos]. }
        specialize (Hb y Hin). lra.
      * apply Forall_forall. intros y _ Hy0. lra.
Qed.

(** ** The further properties on sample inputs *)

Lemma header_channel_found_witness :
  extract_header sample_loads recording_500hz
  = ([], Some {| fs := JInt 500; resolution_bits := JInt 10; emg_column_index := 1 |}).
Proof.
  destruct (header_channel_found sample_loads recording_500hz "98:D3:31:B2:BB:7F"
              [("sampling rate"%string, JInt 500);
               ("column"%string, JArr [JStr "nSeq"; JStr "A1"]);
               ("resolution"%string, JArr [JInt 4; JInt 10])]
              [] [JStr "nSeq"; JStr "A1"] [JInt 4; JInt 10] 1 (JInt 10)) as [H _].
  - reflexivity.
  - vm_compute; reflexivity.
  - reflexivity.
  - reflexivity.
  - reflexivity.
  - reflexivity.
  - exact H.
Defined.

Lemma header_resolution_missing_witness :
  extract_header more_loads (headed text_short_resolution 2)
  = ([WarnResolutionMissing],
     Some {| fs := JInt 1000; resolution_bits := JInt 10; emg_column_index := 1 |}).
Proof.
  apply (header_resolution_missing more_loads (headed text_short_resolution 2)
           "98:D3:31:B2:BB:7F"
           [("sampling rate"%string, JInt 1000);
            ("column"%string, JArr [JStr "nSeq"; JStr "A1"]);
            ("resolution"%string, JArr [JInt 4])]
           [] [JStr "nSeq"; JStr "A1"] [JInt 4] 1).
  - reflexivity.
  - vm_compute; reflexivity.
  - reflexivity.
  - reflexivity.
  - reflexivity.
  - simpl; lia.
Defined.

Lemma header_messages_witness :
  (List.length (fst (extract_header more_loads (headed text_short_resolution 2))) <= 1)%nat.
Proof.
  destruct (header_messages more_loads (headed text_short_resolution 2)
              [WarnResolutionMissing]
              (Some {| fs := JInt 1000; resolution_bits := JInt 10;
                       emg_column_index := 1 |})) as [H _].
  - vm_compute; reflexivity.
  - exact H.
Defined.

Lemma header_keeps_rate_on_error_witness :
  extract_header more_loads (headed text_bad_column 2)
  = ([ErrHeaderOther TypeError],
     Some {| fs := JInt 2000; resolution_bits := JInt 10; emg_column_index := 5 |}).
Proof.
  apply (header_keeps_rate_on_error more_loads (headed text_bad_column 2)
           "98:D3:31:B2:BB:7F"
           [("sampling rate"%string, JInt 2000); ("column"%string, JInt 7)] [] TypeError).
  - reflexivity.
  - vm_compute; reflexivity.
  - reflexivity.
Defined.


Lemma invalid_sampling_rate_witness :
  process_emg_file more_loads sample_read_csv sample_butter sample_filtfilt
    sample_welch sample_linregress sample_sqrt (headed text_rate_as_text 2) 5
  = ([], Err (Raised TypeError)).
Proof.
  destruct (invalid_sampling_rate more_loads sample_read_csv sample_butter sample_filtfilt
              sample_welch sample_linregress sample_sqrt (headed text_rate_as_text 2) 5 []
              {| fs := JStr "1000"; resolution_bits := JInt 10; emg_column_index := 1 |})
    as [H _].
  - vm_compute; reflexivity.
  - destruct (H TypeError) as [_ Hp]; [reflexivity | exact Hp].
Defined.

Lemma short_recording_result_witness :
  sample_app (Some short_recording) (-10) (-10) (5 # 100)
  = ([WarnHeaderMissing] ++ [WarnBaseline; Success], Ok tt).
Proof.
  destruct (features_of_file sample_read_csv sample_butter sample_filtfilt sample_welch
              sample_sqrt short_recording default_vars) as [[[frame ws] rate]|e] eqn:Hf.
  - pose proof Hf as Hrun. vm_compute in Hrun. injection Hrun as Hframe Hws Hrate.
    destruct (short_recording_result sample_loads sample_read_csv sample_butter
                sample_filtfilt sample_welch sample_linregress sample_sqrt
                short_recording [WarnHeaderMissing] default_vars frame ws rate
                (-10) (-10) (5 # 100)) as [_ [_ H]].
    + reflexivity.
    + exact Hf.
    + rewrite <- Hrate. lia.
    + rewrite <- Hrate, <- Hframe. vm_compute. reflexivity.
    + exact H.
  - exfalso. vm_compute in Hf. discriminate.
Defined.

Lemma frame_columns_witness :
  option_map (fun frame => len (emg_rectified frame)) tiny_frame = Some 3.
Proof.
  unfold tiny_frame, tiny_features.
  destruct (features_of_file sample_read_csv flat_butter flat_filtfilt sample_welch
              sample_sqrt (recording [] 3) vars_8hz) as [[[frame ws] rate]|e] eqn:Hf.
  - pose proof Hf as Hrun. vm_compute in Hrun. injection Hrun as Hframe _ _.
    pose proof (frame_columns sample_read_csv flat_butter flat_filtfilt sample_welch
                  sample_sqrt (recording [] 3) vars_8hz frame ws rate Hf) as Hcols.
    cbv zeta in Hcols. destruct Hcols as [_ [_ [_ [H _]]]].
    simpl. rewrite H, <- Hframe. reflexivity.
  - exfalso. vm_compute in Hf. discriminate.
Defined.

Lemma window_times_witness :
  option_map (fun w => fst (fst w)) (nth_error tiny_windows 1)
  = Some (inject_Z (1 * (8 / 8) + 8 / 4 / 2) / inject_Z 8)%Q.
Proof.
  unfold tiny_windows, tiny_features.
  destruct (features_of_file sample_read_csv flat_butter flat_filtfilt sample_welch
              sample_sqrt (recording [] 3) vars_8hz) as [[[frame ws] rate]|e] eqn:Hf.
  - pose proof Hf as Hrun. vm_compute in Hrun. injection Hrun as _ Hws Hrate.
    destruct (window_times sample_read_csv flat_butter flat_filtfilt sample_welch
                sample_sqrt (recording [] 3) vars_8hz frame ws rate Hf) as [H _].
    + rewrite <- Hrate. lia.
    + destruct (nth_error ws 1) as [w|] eqn:Hw.
      * simpl. rewrite (H 1%nat w Hw), <- Hrate. reflexivity.
      * rewrite <- Hws in Hw. discriminate.
  - exfalso. vm_compute in Hf. discriminate.
Defined.

Lemma calibration_range_witness :
  exists v v',
    convert_to_mv 0 10 default_vcc default_gain = Ok v
    /\ convert_to_mv 1023 10 default_vcc default_gain = Ok v'
    /\ (- (165 # 100) <= v)%Q /\ (v <= v')%Q /\ (v' < 165 # 100)%Q.
Proof.
  apply (calibration_range 0 1023 10); [lia | lia | reflexivity].
Defined.

Lemma percent_change_sign_witness :
  exists change,
    change_percent (85 # 100) 1 = Ok change
    /\ (85 # 100 < 1 -> change < 0)%Q
    /\ (1 < 85 # 100 -> 0 < change)%Q
    /\ (85 # 100 == 1 -> change == 0 /\ (Qle_bool change (-10) = true <-> 0 <= -10)%Q)
    /\ (1 <= 85 # 100 -> -10 < 0 -> Qle_bool change (-10) = false)%Q.
Proof.
  apply (percent_change_sign (85 # 100) 1 (-10)). reflexivity.
Defined.

Lemma baseline_of_five_seconds_witness :
  num_windows_for_baseline 5 1000 100 = Ok (Z.min 40 100).
Proof.
  apply (baseline_of_five_seconds 1000 100); [lia | reflexivity].
Defined.

Lemma two_bin_welch_bounded (segment : list Q) (fs nperseg : Z) :
  Forall (fun x => x <= 1)%Q (fst (two_bin_welch segment fs nperseg))
  /\ Forall (fun p => 0 <= p)%Q (snd (two_bin_welch segment fs nperseg)).
Proof.
  unfold two_bin_welch; simpl. split.
  - repeat constructor; discriminate.
  - repeat constructor; [|discriminate].
    apply np_sum_nonneg. apply Forall_forall. intros x Hx.
    apply in_map_iff in Hx. destruct Hx as [y [<- _]]. apply Qsqr_nonneg.
Qed.

Lemma mnf_at_most_largest_frequency_witness :
  exists mnf, mnf_of two_bin_welch [1; 2; 3]%Q 1000 250 = Ok mnf /\ (mnf <= 1)%Q.
Proof.
  apply (mnf_at_most_largest_frequency two_bin_welch 1); [discriminate|].
  exact two_bin_welch_bounded.
Defined.

Lemma negative_sampling_rate_witness :
  notch_filter sample_butter sample_filtfilt [1; 2; 3]%Q 50 (-1000) 2 = Err ValueError.
Proof.
  destruct (negative_sampling_rate sample_loads sample_read_csv sample_butter
              sample_filtfilt sample_welch sample_linregress sample_sqrt
              sample_butter_critical (-1000)) as [H _].
  - lia.
  - apply H.
Defined.

Lemma session_window_seconds_witness :
  exists s,
    store_session default_vars = Ok s
    /\ state_fs s = JInt 1000
    /\ state_resolution_bits s = JInt 10
    /\ state_emg_column_index s = 5
    /\ (state_win_size s <= 1 # 4)%Q
    /\ ((1 # 4) - 1 / inject_Z 1000 < state_win_size s)%Q.
Proof.
  apply (session_window_seconds default_vars 1000); [reflexivity | lia].
Defined.

Lemma rms_axis_holds_values_witness :
  exists low high,
    rms_ylim [2; 1; 3]%Q = Ok (Some (low, high))
    /\ Forall (fun x => low <= x <= high)%Q [2; 1; 3]%Q.
Proof.
  apply (rms_axis_holds_values [2; 1; 3]%Q); [discriminate|].
  repeat constructor; discriminate.
Defined.

Lemma mnf_axis_limits_witness :
  (0 < 9 # 10)%Q
  /\ Forall (fun x => 0 < x -> (9 # 10) <= x <= (33 # 10))%Q [2; 0; 1; 3]%Q
  /\ Forall (fun x => x <= 0 -> x < 9 # 10)%Q [2; 0; 1; 3]%Q.
Proof.
  destruct (mnf_axis_limits [2; 0; 1; 3]%Q) as [_ [_ H]].
  apply (H (9 # 10) (33 # 10)). reflexivity.
Defined.
